(** * Backend-Malthus.ai: the multi-source aggregation engine, verified

    A shallow embedding of the aggregation code of [src/server.js]
    (class [EnhancedFinancialService] and the route [POST /api/analyze])
    and of the auxiliary serverless handlers ([src/api/analyze.js],
    [src/api/simple.js] and the fetch-based variant of the analyze handler).

    Conventions of the embedding.
    - JavaScript strings are [string]s of 8-bit code units; [toLowerCase]
      and [toUpperCase] act on the ASCII letters, which is what they do on
      ASCII text (tickers, English headlines).  What is stated of the
      case of letters is stated of ASCII text ([isAscii]).
    - JavaScript numbers are IEEE-754 binary64 values: Rocq's primitive
      [float]; integer counters and scores, which stay far below 2^53, are
      [Z] or [nat].
    - A JavaScript [Set] of strings is a [gset string].
    - [try]/[catch] is an error monad; a promise handed to
      [Promise.allSettled] is a [Settled] value; calls that reach the
      network are answered by an explicit [World] and, where the order of
      the calls matters, logged in a trace. *)

From Stdlib Require Import ZArith String Ascii Bool List Lia.
From Stdlib Require Import PrimFloat SpecFloat FloatOps Uint63.
From stdpp Require Import base decidable list gmap strings sorting.

Local Open Scope string_scope.
Local Open Scope Z_scope.

(** ** JavaScript strings *)

Module JsString.

(** Code units of the ASCII capital letters are 65..90, small ones 97..122. *)
Definition lower_ascii (c : ascii) : ascii :=
  let n := nat_of_ascii c in
  if (Nat.leb 65 n && Nat.leb n 90)%bool then ascii_of_nat (n + 32) else c.

Definition upper_ascii (c : ascii) : ascii :=
  let n := nat_of_ascii c in
  if (Nat.leb 97 n && Nat.leb n 122)%bool then ascii_of_nat (n - 32) else c.

Fixpoint map_string (f : ascii -> ascii) (s : string) : string :=
  match s with
  | EmptyString => EmptyString
  | String c s' => String (f c) (map_string f s')
  end.

(** [s.toLowerCase()] and [s.toUpperCase()]. *)
Definition toLowerCase : string -> string := map_string lower_ascii.
Definition toUpperCase : string -> string := map_string upper_ascii.

(** ASCII text: every code unit is below 128.  On such text the two
    functions above are the ones of JavaScript; on other text
    JavaScript maps the letters of every alphabet. *)
Fixpoint isAscii (s : string) : bool :=
  match s with
  | EmptyString => true
  | String c s' => (nat_of_ascii c <? 128)%nat && isAscii s'
  end.

(** [s.startsWith(p)]. *)
Fixpoint startsWith (s p : string) : bool :=
  match p, s with
  | EmptyString, _ => true
  | String _ _, EmptyString => false
  | String a p', String b s' => if Ascii.eqb a b then startsWith s' p' else false
  end.

(** [s.includes(p)]: [p] occurs in [s] as a contiguous substring. *)
Fixpoint includes (s p : string) : bool :=
  startsWith s p ||
  match s with
  | EmptyString => false
  | String _ s' => includes s' p
  end.

(** [s.substring(0, n)]: the first [n] code units, all of [s] if shorter. *)
Fixpoint substring0 (n : nat) (s : string) : string :=
  match n, s with
  | O, _ => EmptyString
  | S _, EmptyString => EmptyString
  | S n', String c s' => String c (substring0 n' s')
  end.

(** [xs.includes(x)] on an array of strings. *)
Definition array_includes (xs : list string) (x : string) : bool :=
  existsb (String.eqb x) xs.

End JsString.
Import JsString.

(** ** JavaScript numbers *)

Module JsNumber.

(** The counter [n], at most 2^53, as a number. *)
Definition ofZ (n : Z) : float := PrimFloat.of_uint63 (Uint63.of_Z n).

(** [0], [-0] and [NaN] are falsy, every other number is truthy. *)
Definition truthy (x : float) : bool :=
  negb (PrimFloat.eqb x 0 || PrimFloat.is_nan x).

(** [a || b] where [a] may be absent ([undefined] is falsy). *)
Definition orElse (a : option float) (b : float) : float :=
  match a with
  | Some x => if truthy x then x else b
  | None => b
  end.

(** The digits of [x.toFixed(d)] for a finite [x]: the sign and the
    integer [n] for which [n / 10^d] is nearest to [|x|], the larger one
    of two that are equally near.  [x] is exactly [m * 2^e]. *)
Definition fixedDigits (d : nat) (x : float) : option (bool * Z) :=
  match Prim2SF x with
  | S754_zero _ => Some (false, 0)
  | S754_finite sign m e =>
      let scaled := Z.pos m * 10 ^ Z.of_nat d in
      Some (sign,
            if 0 <=? e then scaled * 2 ^ e
            else (2 * scaled + 2 ^ (- e)) / 2 ^ (1 - e))
  | S754_infinity _ | S754_nan => None
  end.

(** [parseFloat] of the decimal [n / 10^d], [n > 0]: the nearest number,
    ties to even.  The quotient is taken with 120 extra bits and a
    sticky bit, which leaves the rounding exact. *)
Definition parseDecimal (sign : bool) (n : Z) (d : nat) : float :=
  if n =? 0 then (if sign then PrimFloat.neg_zero else PrimFloat.zero)
  else
    let num := n * 2 ^ 120 in
    let den := 10 ^ Z.of_nat d in
    let sticky := if num mod den =? 0 then 0 else 1 in
    let r := SF2Prim (binary_normalize prec emax (2 * (num / den) + sticky) (-121) false) in
    if sign then PrimFloat.opp r else r.

(** [parseFloat(x.toFixed(d))]: [x] rounded to [d] decimals.  [toFixed]
    prints [NaN], the infinities and numbers from 1e21 on as [String]
    does, and [parseFloat] reads those back unchanged. *)
Definition roundFixed (d : nat) (x : float) : float :=
  match fixedDigits d x with
  | None => x
  | Some (sign, n) =>
      if PrimFloat.leb 1e21 (PrimFloat.abs x) then x
      else parseDecimal sign n d
  end.

End JsNumber.
Import JsNumber.

(** ** Control effects: exceptions and settled promises *)

Module Js.

(** The completion of a block that may [throw]: the value it returns, or
    the [message] of the error it throws. *)
Inductive Completion (A : Type) :=
| Normal (value : A)
| Throw (message : string).
Arguments Normal {A} value.
Arguments Throw {A} message.

Definition bind {A B} (c : Completion A) (k : A -> Completion B) : Completion B :=
  match c with
  | Normal v => k v
  | Throw m => Throw m
  end.

(** [try { body } catch (error) { handler(error.message) }] *)
Definition tryCatch {A} (body : Completion A) (handler : string -> A) : A :=
  match body with
  | Normal v => v
  | Throw m => handler m
  end.

(** An element of the array [Promise.allSettled] resolves to. *)
Inductive Settled (A : Type) :=
| Fulfilled (value : A)
| Rejected (reason : string).
Arguments Fulfilled {A} value.
Arguments Rejected {A} reason.

(** The promise of an [async] function settles as its body completes. *)
Definition settle {A} (c : Completion A) : Settled A :=
  match c with
  | Normal v => Fulfilled v
  | Throw m => Rejected m
  end.

(** An argument that the code takes for a string.  [NotText rendered] is
    any other value ([undefined], a number, ...): it has no string
    methods, and [rendered] is what a template literal prints for it. *)
Inductive TextArg :=
| Text (s : string)
| NotText (rendered : string).

Definition render (a : TextArg) : string :=
  match a with
  | Text s => s
  | NotText r => r
  end.

(** [!!a] for a string that may be absent: [undefined] and [''] are falsy. *)
Definition truthyText (a : option string) : bool :=
  match a with
  | None | Some "" => false
  | Some _ => true
  end.

(** [a || b] on strings that may be absent. *)
Definition orText (a : option string) (b : string) : string :=
  match a with
  | Some "" | None => b
  | Some s => s
  end.

(** A string method called on [a]: a [TypeError] when [a] is [undefined]
    or [null]. *)
Definition requireText (a : option string) : Completion string :=
  match a with
  | Some s => Normal s
  | None => Throw "Cannot read properties of undefined"
  end.

(** [a.toUpperCase()] *)
Definition argToUpperCase (a : TextArg) : Completion string :=
  match a with
  | Text s => Normal (toUpperCase s)
  | NotText _ => Throw "symbol.toUpperCase is not a function"
  end.

End Js.
Import Js.

(** stdpp's monad notation [x ← c; k] for completions. *)
#[export] Instance completion_ret : MRet Completion := @Normal.
#[export] Instance completion_bind : MBind Completion :=
  fun A B k c => Js.bind c k.

(** ** Relevance score: [calculateRelevanceScore] *)

Module Relevance.

Definition keywords : list string :=
  ["earnings"; "revenue"; "profit"; "loss"; "guidance"; "outlook"; "forecast"].

Definition highImpactWords : list string :=
  ["ceo"; "acquisition"; "merger"; "partnership"; "lawsuit"].

(** [ws.forEach(w => { if (text.includes(w)) score += k; })] starting from
    [score]. *)
Definition add_matches (text : string) (k : Z) (ws : list string) (score : Z) : Z :=
  fold_left (fun acc w => if includes text w then acc + k else acc) ws score.

(** [summary] is [None] when the provider gave none ([summary || '']). *)
Definition calculateRelevanceScore
    (headline : string) (summary : option string) (symbol : string) : Z :=
  let score := 0 in
  let text := toLowerCase (headline ++ " " ++ default "" summary) in
  let sym := toLowerCase symbol in
  let score := if includes text sym then score + 10 else score in
  let score := add_matches text 5 keywords score in
  let score := add_matches text 3 highImpactWords score in
  score.

(** The number of words of [ws] that occur in [text]. *)
Definition matched (text : string) (ws : list string) : Z :=
  Z.of_nat (length (List.filter (includes text) ws)).

(** The text a score is computed on. *)
Definition scoredText (headline : string) (summary : option string) : string :=
  toLowerCase (headline ++ " " ++ default "" summary).

End Relevance.

(** ** News reconciliation: deduplicate, rank, truncate *)

Module News.

(** What the field [publishedAt] of an article holds, as the comparator
    of the ranking reads it, that is through [new Date(...)]: a timestamp
    that [Date] parses, given by its time value in milliseconds, or a
    text that [Date] does not parse (the date is then invalid and its
    number is [NaN]).  Alpha Vantage prints [time_published] as
    [20240501T120000], which is of the second kind. *)
Inductive Published :=
| Parses (time : Z)
| Unparsed (text : string).

(** [Number(new Date(p))]: [None] stands for [NaN]. *)
Definition timeValue (p : Published) : option Z :=
  match p with
  | Parses time => Some time
  | Unparsed _ => None
  end.

(** An article as the four news adapters build it.  Every adapter calls
    [getImpactLevel] on the headline inside its own [try] block, so an
    article only leaves an adapter with a headline that is a string.
    The field [sentimentScore], which only the Alpha Vantage adapter
    sets and nothing reads, is left out. *)
Record Article := mkArticle {
  headline : string;
  summary : string;
  source : string;
  url : string;
  publishedAt : Published;
  sentiment : string;
  impact : string;
  relevanceScore : Z;
  category : string;
  sourceTier : string;
  fullArticle : string
}.

(** *** [removeDuplicateArticles] *)

(** [article.headline.toLowerCase().substring(0, 50)] *)
Definition dedupKey (article : Article) : string :=
  substring0 50 (toLowerCase (headline article)).

(** The callback of [articles.filter], with the [Set] it closes over
    threaded through the traversal. *)
Fixpoint filterUnseen (seen : gset string) (articles : list Article) : list Article :=
  match articles with
  | [] => []
  | article :: rest =>
      let key := dedupKey article in
      if decide (key ∈ seen) then filterUnseen seen rest
      else article :: filterUnseen ({[ key ]} ∪ seen) rest
  end.

Definition removeDuplicateArticles (articles : list Article) : list Article :=
  filterUnseen ∅ articles.

(** *** [sortArticlesByRelevance] *)

(** The names an object literal inherits from [Object.prototype]: the
    lookup [tierWeight[t]] finds a function (for [__proto__] the
    prototype object) under each of them. *)
Definition objectPrototypeNames : list string :=
  [ "constructor"; "__defineGetter__"; "__defineSetter__"; "hasOwnProperty";
    "__lookupGetter__"; "__lookupSetter__"; "isPrototypeOf";
    "propertyIsEnumerable"; "toString"; "valueOf"; "__proto__";
    "toLocaleString" ].

(** The value of [tierWeight[t] || 1]: a number, or the object inherited
    under the name [t]. *)
Inductive TierWeight :=
| Weight (n : Z)
| Inherited (name : string).

#[export] Instance TierWeight_eq_dec : EqDecision TierWeight.
Proof. solve_decision. Defined.

(** [tierWeight[t] || 1] for [tierWeight = {tier1: 3, tier2: 2, tier3: 1}]. *)
Definition tierWeight (t : string) : TierWeight :=
  if String.eqb t "tier1" then Weight 3
  else if String.eqb t "tier2" then Weight 2
  else if String.eqb t "tier3" then Weight 1
  else if array_includes objectPrototypeNames t then Inherited t
  else Weight 1.

(** [b - a] on two such values: [NaN] unless both are numbers. *)
Definition weightDifference (b a : TierWeight) : option Z :=
  match b, a with
  | Weight wb, Weight wa => Some (wb - wa)
  | _, _ => None
  end.

(** The comparator handed to [articles.sort]: negative when [a] goes
    first, positive when [b] goes first, [None] for [NaN].  Two weights
    are [!==] when they are different numbers or different objects. *)
Definition compareArticles (a b : Article) : option Z :=
  if negb (relevanceScore b =? relevanceScore a)%Z then
    Some (relevanceScore b - relevanceScore a)
  else
    let aTierWeight := tierWeight (sourceTier a) in
    let bTierWeight := tierWeight (sourceTier b) in
    if negb (bool_decide (bTierWeight = aTierWeight)) then
      weightDifference bTierWeight aTierWeight
    else
      match timeValue (publishedAt b), timeValue (publishedAt a) with
      | Some tb, Some ta => Some (tb - ta)
      | _, _ => None
      end.

(** [Array.prototype.sort(comparefn)].  The sort reads the comparator
    through [SortCompare], which takes [NaN] for [+0].  It is stable, so
    for a comparator that orders the elements consistently the result is
    the same in every engine.  For another comparator ECMAScript leaves
    the order to the engine; the server runs on Node.js, whose engine V8
    sorts as follows: it finds the run that starts the array (the
    longest prefix that does not descend, or that descends strictly,
    reversed in the latter case) and inserts every later element into
    the sorted part at the place a binary search finds.  From 64
    elements on V8 cuts the array into several such pieces and merges
    them, which for a consistent comparator gives the same result; the
    model sorts an array of any length in the first way. *)
Definition sortCompare {A : Type} (comparefn : A -> A -> option Z) (x y : A) : Z :=
  default 0 (comparefn x y).

Section ArraySort.
Context {A : Type} (cmp : A -> A -> Z).

(** The loop of [CountAndMakeRun] after the first two elements: the
    elements that continue the run, and what is left. *)
Fixpoint extendRun (isDescending : bool) (previousElement : A) (rest : list A)
  : list A * list A :=
  match rest with
  | [] => ([], [])
  | currentElement :: rest' =>
      let order := cmp currentElement previousElement in
      if (if isDescending then 0 <=? order else order <? 0)%Z then ([], rest)
      else
        let '(run, remaining) := extendRun isDescending currentElement rest' in
        (currentElement :: run, remaining)
  end.

(** [CountAndMakeRun]: the run that starts the array, put in ascending
    order, and what is left of the array. *)
Definition countAndMakeRun (l : list A) : list A * list A :=
  match l with
  | [] => ([], [])
  | [x] => ([x], [])
  | elementHigh :: elementLow :: rest =>
      let order := cmp elementLow elementHigh in
      let isDescending := (order <? 0)%Z in
      let '(run, remaining) := extendRun isDescending elementLow rest in
      let whole := elementHigh :: elementLow :: run in
      (if isDescending then rev whole else whole, remaining)
  end.

(** One round of [BinaryInsertionSort]: the binary search for the place
    of [pivot] in the sorted part, and the insertion.  [fuel] bounds the
    halvings; the length of the sorted part is enough. *)
Fixpoint binaryInsert (fuel : nat) (pivot : A) (sorted : list A) : list A :=
  match fuel, sorted with
  | _, [] => [pivot]
  | O, _ => (sorted ++ [pivot])%list
  | S fuel, _ =>
      let mid := (length sorted / 2)%nat in
      match drop mid sorted with
      | [] => (sorted ++ [pivot])%list
      | middle :: upper =>
          let order := cmp pivot middle in
          if (order <? 0)%Z then
            (binaryInsert fuel pivot (take mid sorted) ++ middle :: upper)%list
          else
            (take mid sorted ++ middle :: binaryInsert fuel pivot upper)%list
      end
  end.

Definition arraySort (l : list A) : list A :=
  let '(run, remaining) := countAndMakeRun l in
  fold_left (fun sorted pivot => binaryInsert (length sorted) pivot sorted) remaining run.
End ArraySort.

Definition sortArticlesByRelevance (articles : list Article) (symbol : string)
  : list Article :=
  arraySort (sortCompare compareArticles) articles.

(** The ranking the comparator aims at, on articles it can compare: the
    weight of a tier as a number and the time of an article. *)
Definition tierNumber (t : string) : Z :=
  if String.eqb t "tier1" then 3
  else if String.eqb t "tier2" then 2
  else 1.

Definition timeOf (a : Article) : Z := default 0 (timeValue (publishedAt a)).

(** The comparator gives a number on every pair of articles whose dates
    parse and whose tiers are no inherited names. *)
Definition sortable (a : Article) : bool :=
  match publishedAt a with
  | Parses _ => negb (array_includes objectPrototypeNames (sourceTier a))
  | Unparsed _ => false
  end.

(** The number the comparator gives on two such articles. *)
Definition rankDifference (a b : Article) : Z :=
  if negb (relevanceScore b =? relevanceScore a)%Z then
    relevanceScore b - relevanceScore a
  else if negb (tierNumber (sourceTier b) =? tierNumber (sourceTier a))%Z then
    tierNumber (sourceTier b) - tierNumber (sourceTier a)
  else timeOf b - timeOf a.

(** [a] may stand before [b] in the ranking: a higher score, or the same
    score and a heavier tier, or the same score and tier and a timestamp
    that is not older. *)
Definition ranksBefore (a b : Article) : Prop :=
  relevanceScore b < relevanceScore a
  \/ (relevanceScore b = relevanceScore a
      /\ (tierNumber (sourceTier b) < tierNumber (sourceTier a)
          \/ (tierNumber (sourceTier b) = tierNumber (sourceTier a)
              /\ timeOf b <= timeOf a))).

(** *** [getMockNews] *)

(** The placeholder article lacks the fields [url], [relevanceScore],
    [category] and [sourceTier]; it is a record of its own. *)
Record MockArticle := mkMockArticle {
  mockHeadline : string;
  mockSummary : string;
  mockSource : string;
  mockSentiment : string;
  mockImpact : string;
  mockPublishedAt : string;
  mockFullArticle : string
}.

(** An element of the array [getComprehensiveNews] resolves to. *)
Inductive NewsItem :=
| Ranked (a : Article)
| Placeholder (m : MockArticle).

Definition itemSentiment (it : NewsItem) : string :=
  match it with
  | Ranked a => sentiment a
  | Placeholder m => mockSentiment m
  end.

(** [now] is [new Date().toISOString()]; [symbol] is the text the
    template literal [`${symbol}`] puts for the argument. *)
Definition getMockNews (now : string) (symbol : string) : list NewsItem :=
  [ Placeholder {|
      mockHeadline := symbol ++ " Market Analysis Update";
      mockSummary := "Latest analysis shows " ++ symbol ++
        " maintaining steady performance in current market conditions.";
      mockSource := "Financial Analysis";
      mockSentiment := "neutral";
      mockImpact := "medium";
      mockPublishedAt := now;
      mockFullArticle :=
        "Configure NEWS_API_KEY environment variable for real news articles."
    |} ].

(** An article with a given headline, the other fields fixed. *)
Definition headlined (h : string) : Article :=
  {| headline := h; summary := "No summary available"; source := "Reuters";
     url := "https://example.com/a"; publishedAt := Parses 0;
     sentiment := "neutral";
     impact := "low"; relevanceScore := 0; category := "general";
     sourceTier := "tier1"; fullArticle := "" |}.

(** An article with a given score, tier and timestamp. *)
Definition ranked (h : string) (score : Z) (tier : string) (time : Z) : Article :=
  {| headline := h; summary := "No summary available"; source := "Reuters";
     url := "https://example.com/a"; publishedAt := Parses time;
     sentiment := "neutral";
     impact := "low"; relevanceScore := score; category := "general";
     sourceTier := tier; fullArticle := "" |}.

(** Two headlines of 51 characters that differ in the last one only. *)
Definition fiftyChars : string :=
  "Apple reports record quarterly revenue and profit ".
Definition headlineA : string := fiftyChars ++ "A".
Definition headlineB : string := fiftyChars ++ "B".

(** *** [getComprehensiveNews] *)

(** **** Classification of headlines *)

Definition positiveWords : list string :=
  ["gain"; "rise"; "up"; "bullish"; "buy"; "strong"; "growth"; "beat"; "exceed";
   "upgrade"; "positive"; "profit"; "surge"; "rally"; "optimistic"].

Definition negativeWords : list string :=
  ["fall"; "drop"; "down"; "bearish"; "sell"; "weak"; "decline"; "miss";
   "downgrade"; "negative"; "loss"; "crash"; "plunge"; "disappointing"].

Definition analyzeTextSentiment (text : string) : string :=
  let lowerText := toLowerCase text in
  let score := 0 in
  let score := Relevance.add_matches lowerText 1 positiveWords score in
  let score := Relevance.add_matches lowerText (-1) negativeWords score in
  if 0 <? score then "positive"
  else if score <? 0 then "negative"
  else "neutral".

(** [words.some(word => text.includes(word))] *)
Definition someIncluded (text : string) (words : list string) : bool :=
  existsb (includes text) words.

Definition getImpactLevel (headline : string) : string :=
  let highImpactWords :=
    ["earnings"; "revenue"; "ceo"; "merger"; "acquisition"; "lawsuit"; "fda";
     "bankruptcy"] in
  let mediumImpactWords :=
    ["analyst"; "upgrade"; "downgrade"; "target"; "forecast"; "guidance"] in
  let lowerHeadline := toLowerCase headline in
  if someIncluded lowerHeadline highImpactWords then "high"
  else if someIncluded lowerHeadline mediumImpactWords then "medium"
  else "low".

Definition categorizeNews (headline : string) : string :=
  let text := toLowerCase headline in
  if includes text "earnings" || includes text "revenue" || includes text "profit"
  then "earnings"
  else if includes text "analyst" || includes text "rating" || includes text "target"
  then "analyst"
  else if includes text "merger" || includes text "acquisition"
          || includes text "partnership"
  then "corporate"
  else if includes text "lawsuit" || includes text "regulation"
          || includes text "investigation"
  then "legal"
  else "general".

Definition getSourceTier (sourceName : string) : string :=
  let tier1Sources :=
    ["reuters"; "bloomberg"; "wall street journal"; "financial times"; "wsj"] in
  let tier2Sources := ["cnbc"; "marketwatch"; "barrons"; "yahoo finance"] in
  let lowerSource := toLowerCase sourceName in
  if someIncluded lowerSource tier1Sources then "tier1"
  else if someIncluded lowerSource tier2Sources then "tier2"
  else "tier3".

(** [score] is [overall_sentiment_score], a number when it is there;
    the thresholds are the numbers [0.1] and [-0.1]. *)
Definition convertAVSentiment (score : option float) : string :=
  let numScore := orElse score 0 in
  if PrimFloat.ltb (1 / 10) numScore then "positive"
  else if PrimFloat.ltb numScore (- (1 / 10)) then "negative"
  else "neutral".

(** **** The provider payloads

    An article as each provider sends it, the fields the adapters read.
    A title, description or name is [None] when the payload lacks it or
    holds [null]; the URLs are taken to be there.  A publication time is
    a [Published] value; Finnhub sends a number of seconds, [None] when
    the field is missing or no number.  [pgPublisher] is [None] when a
    Polygon article has no publisher and [Some None] when the publisher
    has no name. *)

Record NewsApiArticle := mkNewsApiArticle {
  naTitle : option string;
  naDescription : option string;
  naSourceName : option string;
  naUrl : string;
  naPublishedAt : Published;
  naContent : option string
}.

Record NewsApiResponse := mkNewsApiResponse {
  naStatus : string;
  naMessage : string;
  naArticles : list NewsApiArticle
}.

Record FinnhubArticle := mkFinnhubArticle {
  fhHeadline : option string;
  fhSummary : option string;
  fhUrl : string;
  fhDatetime : option Z
}.

Record AlphaVantageArticle := mkAlphaVantageArticle {
  avTitle : option string;
  avSummary : option string;
  avSource : string;
  avUrl : string;
  avTimePublished : Published;
  avOverallSentimentScore : option float
}.

Record PolygonArticle := mkPolygonArticle {
  pgTitle : option string;
  pgDescription : option string;
  pgPublisher : option (option string);
  pgArticleUrl : string;
  pgPublishedUtc : Published
}.

(** What the network answers to the news adapters.  A key is [None]
    when its environment variable is not set.  A response is [Throw]
    when [axios.get] throws: a timeout, a refused connection, a non-2xx
    status.  [alphaVantageFeed] and [polygonResults] are
    [response.data.feed] and [response.data.results], [None] when the
    payload has no such field. *)
Record NewsWorld := mkNewsWorld {
  newsApiKey : option string;
  finnhubKey : option string;
  alphavantageKey : option string;
  polygonKey : option string;
  newsApiResponse : string -> string -> Completion NewsApiResponse;
  finnhubResponse : string -> Completion (list FinnhubArticle);
  alphaVantageFeed : string -> Completion (option (list AlphaVantageArticle));
  polygonResults : string -> Completion (option (list PolygonArticle));
  now : string
}.

(** **** The mapping of a provider article to an [Article]

    [getImpactLevel] and [categorizeNews] call [toLowerCase] on the
    title, and [getSourceTier] on the name of the source: the mapping
    throws when one of them is missing. *)

Definition newsApiArticle (symbol : string) (article : NewsApiArticle)
  : Completion Article :=
  title ← requireText (naTitle article);
  sourceName ← requireText (naSourceName article);
  Normal
    {| headline := title;
       summary := orText (naDescription article) "No summary available";
       source := getSourceTier sourceName;
       url := naUrl article;
       publishedAt := naPublishedAt article;
       sentiment :=
         analyzeTextSentiment (title ++ " " ++ orText (naDescription article) "");
       impact := getImpactLevel title;
       relevanceScore :=
         Relevance.calculateRelevanceScore title (naDescription article) symbol;
       category := categorizeNews title;
       sourceTier := getSourceTier sourceName;
       fullArticle :=
         orText (naContent article) ("Read full article at: " ++ naUrl article) |}.

(** [new Date(datetime * 1000).toISOString()]: a [RangeError] when the
    date is invalid, that is when the time value is [NaN] or beyond
    8.64e15 milliseconds; otherwise a text that [Date] parses back to the
    same time value. *)
Definition toISOString (datetime : option Z) : Completion Published :=
  match datetime with
  | Some seconds =>
      if Z.abs (seconds * 1000) <=? 8640000000000000
      then Normal (Parses (seconds * 1000))
      else Throw "Invalid time value"
  | None => Throw "Invalid time value"
  end.

Definition finnhubArticle (symbol : string) (article : FinnhubArticle)
  : Completion Article :=
  published ← toISOString (fhDatetime article);
  title ← requireText (fhHeadline article);
  Normal
    {| headline := title;
       summary := orText (fhSummary article) "No summary available";
       source := "Finnhub Financial News";
       url := fhUrl article;
       publishedAt := published;
       sentiment := analyzeTextSentiment (title ++ " " ++ orText (fhSummary article) "");
       impact := getImpactLevel title;
       relevanceScore :=
         Relevance.calculateRelevanceScore title (fhSummary article) symbol;
       category := categorizeNews title;
       sourceTier := "tier1";
       fullArticle := "Read full article at: " ++ fhUrl article |}.

Definition alphaVantageArticle (symbol : string) (article : AlphaVantageArticle)
  : Completion Article :=
  title ← requireText (avTitle article);
  Normal
    {| headline := title;
       summary := orText (avSummary article) "No summary available";
       source := "Alpha Vantage (" ++ avSource article ++ ")";
       url := avUrl article;
       publishedAt := avTimePublished article;
       sentiment := convertAVSentiment (avOverallSentimentScore article);
       impact := getImpactLevel title;
       relevanceScore :=
         Relevance.calculateRelevanceScore title (avSummary article) symbol;
       category := categorizeNews title;
       sourceTier := "tier2";
       fullArticle := "Read full article at: " ++ avUrl article |}.

Definition polygonArticle (symbol : string) (article : PolygonArticle)
  : Completion Article :=
  publisher ← match pgPublisher article with
              | Some publisher => Normal publisher
              | None => Throw "Cannot read properties of undefined"
              end;
  title ← requireText (pgTitle article);
  Normal
    {| headline := title;
       summary := orText (pgDescription article) "No summary available";
       source := "Polygon (" ++ default "undefined" publisher ++ ")";
       url := pgArticleUrl article;
       publishedAt := pgPublishedUtc article;
       sentiment :=
         analyzeTextSentiment (title ++ " " ++ orText (pgDescription article) "");
       impact := getImpactLevel title;
       relevanceScore :=
         Relevance.calculateRelevanceScore title (pgDescription article) symbol;
       category := categorizeNews title;
       sourceTier := "tier1";
       fullArticle := "Read full article at: " ++ pgArticleUrl article |}.

(** **** The adapters

    The request of each adapter together with the mapping of the
    response: what the adapter does between the check of its key and its
    [catch]. *)

Definition fetchNewsAPI (w : NewsWorld) (companyName symbol : string)
  : Completion (list Article) :=
  response ← newsApiResponse w companyName symbol;
  if negb (String.eqb (naStatus response) "ok") then
    Throw ("NewsAPI error: " ++ naMessage response)
  else mapM (newsApiArticle symbol) (naArticles response).

Definition fetchFinnhub (w : NewsWorld) (symbol : string)
  : Completion (list Article) :=
  data ← finnhubResponse w (toUpperCase symbol);
  mapM (finnhubArticle symbol) (take 15 data).

Definition fetchAlphaVantage (w : NewsWorld) (symbol : string)
  : Completion (list Article) :=
  feed ← alphaVantageFeed w (toUpperCase symbol);
  match feed with
  | Some feed => mapM (alphaVantageArticle symbol) feed
  | None => Normal []
  end.

Definition fetchPolygon (w : NewsWorld) (symbol : string)
  : Completion (list Article) :=
  results ← polygonResults w (toUpperCase symbol);
  match results with
  | Some results => mapM (polygonArticle symbol) results
  | None => Normal []
  end.

(** The frame shared by the four adapters:
    [try { if (!key) return []; ...; return articles; } catch { return []; }] *)
Definition adapter (key : option string) (request : Completion (list Article))
  : Completion (list Article) :=
  Normal (tryCatch
    (if negb (truthyText key) then Normal [] else request)
    (fun _ => [])).

Definition getNewsAPIArticles (w : NewsWorld) (companyName symbol : string) :=
  adapter (newsApiKey w) (fetchNewsAPI w companyName symbol).
Definition getFinnhubNews (w : NewsWorld) (symbol : string) :=
  adapter (finnhubKey w) (fetchFinnhub w symbol).
Definition getAlphaVantageNews (w : NewsWorld) (symbol : string) :=
  adapter (alphavantageKey w) (fetchAlphaVantage w symbol).
Definition getPolygonNews (w : NewsWorld) (symbol : string) :=
  adapter (polygonKey w) (fetchPolygon w symbol).

Definition companyNames : gmap string string :=
  list_to_map
    [ ("AAPL", "Apple Inc"); ("MSFT", "Microsoft Corporation");
      ("GOOGL", "Google Alphabet"); ("AMZN", "Amazon"); ("TSLA", "Tesla Inc");
      ("META", "Meta Facebook"); ("NVDA", "Nvidia Corporation");
      ("BTC", "Bitcoin"); ("ETH", "Ethereum") ].

(** The [forEach] over the settled results: a fulfilled result is
    concatenated (an array is truthy, empty or not), a rejected one is
    skipped. *)
Definition collectFulfilled (newsSources : list (Settled (list Article)))
  : list Article :=
  fold_left
    (fun allArticles result =>
       match result with
       | Fulfilled value => (allArticles ++ value)%list
       | Rejected _ => allArticles
       end)
    newsSources [].

(** The statements after [Promise.allSettled] in the [try] block. *)
Definition reconcile (newsSources : list (Settled (list Article))) (symbol : string)
  : list Article :=
  let allArticles := collectFulfilled newsSources in
  let uniqueArticles := removeDuplicateArticles allArticles in
  let sortedArticles := sortArticlesByRelevance uniqueArticles symbol in
  take 25 sortedArticles.

Definition newsSourcesOf (w : NewsWorld) (companyName symbol : string)
  : list (Settled (list Article)) :=
  [ settle (getNewsAPIArticles w companyName symbol);
    settle (getFinnhubNews w symbol);
    settle (getAlphaVantageNews w symbol);
    settle (getPolygonNews w symbol) ].

Definition getComprehensiveNewsBody (w : NewsWorld) (symbol : TextArg)
  : Completion (list NewsItem) :=
  upper ← argToUpperCase symbol;
  let sym := render symbol in
  let companyName := default sym (companyNames !! upper) in
  let newsSources := newsSourcesOf w companyName sym in
  Normal (Ranked <$> reconcile newsSources sym).

Definition getComprehensiveNews (w : NewsWorld) (symbol : TextArg) : list NewsItem :=
  tryCatch (getComprehensiveNewsBody w symbol)
    (fun _ => getMockNews (now w) (render symbol)).

(** The name [getComprehensiveNews] hands to the NewsAPI adapter. *)
Definition companyNameOf (symbol : string) : string :=
  default symbol (companyNames !! toUpperCase symbol).

(** The four adapter calls of the fan-out, each with its key and with
    what the network answers to its request. *)
Definition adapterCalls (w : NewsWorld) (symbol : string)
  : list (option string * Completion (list Article)) :=
  [ (newsApiKey w, fetchNewsAPI w (companyNameOf symbol) symbol);
    (finnhubKey w, fetchFinnhub w symbol);
    (alphavantageKey w, fetchAlphaVantage w symbol);
    (polygonKey w, fetchPolygon w symbol) ].

(** What an adapter call adds to the merged list: its articles when the
    key is set and the request goes through, nothing otherwise. *)
Definition contribution (call : option string * Completion (list Article))
  : list Article :=
  if truthyText call.1 then
    match call.2 with
    | Normal articles => articles
    | Throw _ => []
    end
  else [].

(** An adapter call succeeds with [articles], or fails: no key, or a
    request that throws. *)
Definition succeedsWith (articles : list Article)
    (call : option string * Completion (list Article)) : Prop :=
  truthyText call.1 = true /\ call.2 = Normal articles.

Definition fails (call : option string * Completion (list Article)) : Prop :=
  truthyText call.1 = false \/ exists message, call.2 = Throw message.

(** Exactly one call of [calls] succeeds, with [articles]; the others fail. *)
Definition onlySuccess (calls : list (option string * Completion (list Article)))
    (articles : list Article) : Prop :=
  exists (i : nat) call,
    calls !! i = Some call /\ succeedsWith articles call
    /\ forall (j : nat) call', j <> i -> calls !! j = Some call' -> fails call'.

(** Two Finnhub articles on Apple. *)
Definition finnhubSample : list FinnhubArticle :=
  [ {| fhHeadline := Some "Apple outlook steady ahead of launch";
       fhSummary := Some "Analysts see little change.";
       fhUrl := "https://example.com/outlook"; fhDatetime := Some 1714500000 |};
    {| fhHeadline := Some "AAPL earnings beat as revenue climbs";
       fhSummary := None;
       fhUrl := "https://example.com/earnings"; fhDatetime := Some 1714400000 |} ].

(** The articles the Finnhub adapter builds from them for AAPL. *)
Definition finnhubSampleArticles : list Article :=
  Eval vm_compute in
    match mapM (finnhubArticle "AAPL") finnhubSample with
    | Normal articles => articles
    | Throw _ => []
    end.

(** A world in which only Finnhub answers: NewsAPI has no key, Alpha
    Vantage times out and Polygon answers 429. *)
Definition finnhubOnly : NewsWorld :=
  {| newsApiKey := None;
     finnhubKey := Some "finnhub-key";
     alphavantageKey := Some "av-key";
     polygonKey := Some "polygon-key";
     newsApiResponse := fun _ _ =>
       Normal {| naStatus := "ok"; naMessage := ""; naArticles := [] |};
     finnhubResponse := fun _ => Normal finnhubSample;
     alphaVantageFeed := fun _ => Throw "timeout of 10000ms exceeded";
     polygonResults := fun _ => Throw "Request failed with status code 429";
     now := "2024-05-01T12:00:00.000Z" |}.

(** Three articles of one score and tier.  The second carries its date
    as Alpha Vantage prints it. *)
Definition olderArticle : Article := ranked "older" 10 "tier2" 1714400000000.
Definition newerArticle : Article := ranked "newer" 10 "tier2" 1714500000000.
Definition undatedArticle : Article :=
  {| headline := "undated"; summary := "No summary available";
     source := "Alpha Vantage (Benzinga)"; url := "https://example.com/a";
     publishedAt := Unparsed "20240501T120000"; sentiment := "neutral";
     impact := "low"; relevanceScore := 10; category := "general";
     sourceTier := "tier2"; fullArticle := "" |}.

(** Two Alpha Vantage articles on Apple, the older one first. *)
Definition alphaVantageSample : list AlphaVantageArticle :=
  [ {| avTitle := Some "AAPL shares slip after the bell";
       avSummary := None; avSource := "Benzinga";
       avUrl := "https://example.com/slip";
       avTimePublished := Unparsed "20240501T120000";
       avOverallSentimentScore := None |};
    {| avTitle := Some "AAPL shares climb before the bell";
       avSummary := None; avSource := "Benzinga";
       avUrl := "https://example.com/climb";
       avTimePublished := Unparsed "20240502T120000";
       avOverallSentimentScore := None |} ].

(** A world in which only Alpha Vantage has a key. *)
Definition alphaVantageOnly : NewsWorld :=
  {| newsApiKey := None;
     finnhubKey := None;
     alphavantageKey := Some "av-key";
     polygonKey := None;
     newsApiResponse := fun _ _ =>
       Normal {| naStatus := "ok"; naMessage := ""; naArticles := [] |};
     finnhubResponse := fun _ => Normal [];
     alphaVantageFeed := fun _ => Normal (Some alphaVantageSample);
     polygonResults := fun _ => Normal None;
     now := "2024-05-02T13:00:00.000Z" |}.

(** A world in which Finnhub and Polygon carry the same story, next to
    an article of NewsAPI; Alpha Vantage has no key. *)
Definition overlapping : NewsWorld :=
  {| newsApiKey := Some "newsapi-key";
     finnhubKey := Some "finnhub-key";
     alphavantageKey := None;
     polygonKey := Some "polygon-key";
     newsApiResponse := fun _ _ =>
       Normal {| naStatus := "ok"; naMessage := "";
                 naArticles :=
                   [ {| naTitle := Some "Apple supplier lifts forecast";
                        naDescription := None; naSourceName := Some "Reuters";
                        naUrl := "https://example.com/supplier";
                        naPublishedAt := Parses 1714450000000;
                        naContent := None |} ] |};
     finnhubResponse := fun _ => Normal finnhubSample;
     alphaVantageFeed := fun _ => Normal None;
     polygonResults := fun _ =>
       Normal (Some
         [ {| pgTitle := Some "AAPL earnings beat as revenue climbs";
              pgDescription := Some "Apple tops estimates.";
              pgPublisher := Some (Some "Benzinga");
              pgArticleUrl := "https://example.com/polygon-earnings";
              pgPublishedUtc := Parses 1714410000000 |} ]);
     now := "2024-05-01T12:00:00.000Z" |}.

End News.

(** ** Sentiment aggregation: [calculateSentimentScore] *)

Module Sentiment.
Import News.

Record Distribution := mkDistribution {
  positive : Z;
  negative : Z;
  neutral : Z
}.

Record SentimentSummary := mkSentimentSummary {
  overall : string;
  score : float;
  distribution : Distribution;
  articles : list NewsItem
}.

(** The body of the [forEach]: the [switch] on [article.sentiment]. *)
Definition tally (d : Distribution) (article : NewsItem) : Distribution :=
  let s := itemSentiment article in
  if String.eqb s "positive" then
    {| positive := positive d + 1; negative := negative d; neutral := neutral d |}
  else if String.eqb s "negative" then
    {| positive := positive d; negative := negative d + 1; neutral := neutral d |}
  else
    {| positive := positive d; negative := negative d; neutral := neutral d + 1 |}.

(** [((positive - negative) / total) * 100], or [0] for no article. *)
Definition rawScore (d : Distribution) (total : Z) : float :=
  if 0 <? total then
    ((ofZ (positive d) - ofZ (negative d)) / ofZ total * 100)%float
  else 0%float.

Definition bucket (score : float) : string :=
  if PrimFloat.ltb 20 score then "positive"
  else if PrimFloat.ltb score (-20) then "negative"
  else "neutral".

Definition calculateSentimentScore (articles : list NewsItem) : SentimentSummary :=
  let d := fold_left tally articles (mkDistribution 0 0 0) in
  let total := Z.of_nat (length articles) in
  let score := rawScore d total in
  let overall := bucket score in
  {| overall := overall;
     score := roundFixed 1 score;
     distribution := d;
     articles := articles |}.

(** How many of [articles] carry the sentiment label [l]. *)
Definition labelled (l : string) (articles : list NewsItem) : Z :=
  Z.of_nat (length (List.filter (fun a => String.eqb (itemSentiment a) l) articles)).

(** How many carry neither ['positive'] nor ['negative']. *)
Definition neitherLabel (articles : list NewsItem) : Z :=
  Z.of_nat (length (List.filter
    (fun a => negb (String.eqb (itemSentiment a) "positive"
                    || String.eqb (itemSentiment a) "negative")) articles)).

(** An article that carries the sentiment label [l]. *)
Definition labelledItem (l : string) : NewsItem :=
  Ranked {| headline := "Headline"; summary := "No summary available";
            source := "Finnhub Financial News"; url := "https://example.com/a";
            publishedAt := Parses 0; sentiment := l; impact := "low";
            relevanceScore := 0; category := "general"; sourceTier := "tier1";
            fullArticle := "" |}.

End Sentiment.

(** ** JSON values, as [res.json] sends them *)

Module Json.

#[local] Set Warnings "-register-all".

Inductive Json :=
| JNull
| JBool (b : bool)
| JNum (x : float)
| JStr (s : string)
| JArr (items : list Json)
| JObj (fields : list (string * Json)).

(** [JSON.stringify] writes [NaN] and the infinities as [null]. *)
Definition jnumber (x : float) : Json :=
  if PrimFloat.is_finite x then JNum x else JNull.

(** [x ?? null] *)
Definition orNull (x : option float) : Json :=
  match x with
  | Some v => jnumber v
  | None => JNull
  end.

Fixpoint lookupField (name : string) (fields : list (string * Json)) : option Json :=
  match fields with
  | [] => None
  | (k, v) :: rest => if String.eqb k name then Some v else lookupField name rest
  end.

(** [obj[name]]; [None] is [undefined]. *)
Definition field (name : string) (j : Json) : option Json :=
  match j with
  | JObj fields => lookupField name fields
  | _ => None
  end.

Definition fieldNames (j : Json) : list string :=
  match j with
  | JObj fields => fields.*1
  | _ => []
  end.

(** The truthiness of a value of a parsed JSON body. *)
Definition truthyJson (j : Json) : bool :=
  match j with
  | JNull => false
  | JBool b => b
  | JNum x => truthy x
  | JStr s => negb (String.eqb s "")
  | JArr _ | JObj _ => true
  end.

End Json.
Import Json.

(** ** Quotes: [detectAssetType], [getYahooFinanceData], [getCryptoData] *)

Module Market.

Inductive AssetType := Crypto | Etf | Index | Stock.

Definition assetTypeName (t : AssetType) : string :=
  match t with
  | Crypto => "crypto"
  | Etf => "etf"
  | Index => "index"
  | Stock => "stock"
  end.

Definition cryptoSymbols : list string :=
  ["BTC"; "ETH"; "ADA"; "SOL"; "MATIC"; "AVAX"; "DOT"; "LINK"; "UNI"; "AAVE";
   "DOGE"; "XRP"; "LTC"; "BCH"].

Definition etfSymbols : list string :=
  ["SPY"; "QQQ"; "VTI"; "ARKK"; "GLD"; "TQQQ"; "IWM"; "EFA"; "VEA"].

Definition detectAssetType (symbol : string) : AssetType :=
  if array_includes cryptoSymbols (toUpperCase symbol) then Crypto
  else if array_includes etfSymbols (toUpperCase symbol) then Etf
  else if startsWith symbol "^" then Index
  else Stock.

Definition convertToYahooSymbol (symbol : string) : string :=
  match detectAssetType symbol with
  | Crypto => toUpperCase symbol ++ "-USD"
  | _ => toUpperCase symbol
  end.

Definition coinMap : gmap string string :=
  list_to_map
    [ ("BTC", "bitcoin"); ("ETH", "ethereum"); ("ADA", "cardano");
      ("SOL", "solana"); ("MATIC", "matic-network"); ("AVAX", "avalanche-2");
      ("DOT", "polkadot"); ("LINK", "chainlink"); ("UNI", "uniswap");
      ("AAVE", "aave"); ("DOGE", "dogecoin"); ("XRP", "ripple");
      ("LTC", "litecoin"); ("BCH", "bitcoin-cash") ].

Definition getCoinGeckoId (symbol : string) : string :=
  default (toLowerCase symbol) (coinMap !! toUpperCase symbol).

(** [chart.result[0].meta] of the Yahoo chart service, the fields the
    code reads; [None] is a field the payload lacks. *)
Record YahooMeta := mkYahooMeta {
  metaSymbol : string;
  longName : option string;
  shortName : option string;
  regularMarketPrice : option float;
  metaPreviousClose : option float;
  regularMarketVolume : option float;
  metaMarketCap : option float;
  metaCurrency : option string;
  exchangeName : option string;
  trailingPE : option float;
  trailingEps : option float
}.

(** [response.data?.chart?.result?.[0]], when it is there. *)
Record ChartResult := mkChartResult {
  meta : option YahooMeta
}.

(** [response.data[coinId]] of the CoinGecko price service. *)
Record CoinPrice := mkCoinPrice {
  usd : float;
  usd_24h_change : option float;
  usd_market_cap : option float;
  usd_24h_vol : option float
}.

(** The object a primary fetch resolves to when [success] is [true].
    The crypto quote has no [previousClose], [currency] or [exchange]. *)
Record Quote := mkQuote {
  symbol : string;
  name : string;
  currentPrice : float;
  previousClose : option float;
  change : float;
  changePercent : float;
  volume : float;
  marketCap : float;
  currency : option string;
  exchange : option string
}.

(** [{ success: true, ...quote }] or [{ success: false, error }]. *)
Inductive PrimaryData :=
| PrimarySuccess (quote : Quote)
| PrimaryFailure (error : string).

Definition success (p : PrimaryData) : bool :=
  match p with
  | PrimarySuccess _ => true
  | PrimaryFailure _ => false
  end.

(** What the quote services answer: [Throw] when [axios.get] throws (a
    timeout, a refused connection, a non-2xx status). *)
Record MarketWorld := mkMarketWorld {
  yahooChart : string -> Completion (option ChartResult);
  coinGeckoSimplePrice : string -> Completion (option CoinPrice)
}.

(** The quote [getYahooFinanceData] builds from [meta]. *)
Definition yahooQuote (symbol : string) (meta : YahooMeta) : Quote :=
  let currentPrice :=
    orElse (regularMarketPrice meta) (orElse (metaPreviousClose meta) 0) in
  let previousClose := orElse (metaPreviousClose meta) currentPrice in
  let change := (currentPrice - previousClose)%float in
  let changePercent := (change / previousClose * 100)%float in
  {| symbol := metaSymbol meta;
     name := orText (longName meta) (orText (shortName meta) symbol);
     currentPrice := currentPrice;
     previousClose := Some previousClose;
     change := change;
     changePercent := changePercent;
     volume := orElse (regularMarketVolume meta) 0;
     marketCap := orElse (metaMarketCap meta) 0;
     currency := Some (orText (metaCurrency meta) "USD");
     exchange := Some (orText (exchangeName meta) "Unknown") |}.

Definition getYahooFinanceData (w : MarketWorld) (symbol : string) : PrimaryData :=
  tryCatch
    (let yahooSymbol := convertToYahooSymbol symbol in
     response ← yahooChart w yahooSymbol;
     match response with
     | Some result =>
         match meta result with
         | Some meta => Normal (PrimarySuccess (yahooQuote symbol meta))
         | None =>
             Throw "Cannot read properties of undefined (reading 'regularMarketPrice')"
         end
     | None => Throw "Invalid Yahoo Finance response"
     end)
    PrimaryFailure.

Definition cryptoQuote (symbol : string) (data : CoinPrice) : Quote :=
  {| symbol := toUpperCase symbol;
     name := toUpperCase symbol;
     currentPrice := usd data;
     previousClose := None;
     change :=
       match usd_24h_change data with
       | Some c => if truthy c then (usd data * c / 100)%float else 0%float
       | None => 0%float
       end;
     changePercent := orElse (usd_24h_change data) 0;
     volume := orElse (usd_24h_vol data) 0;
     marketCap := orElse (usd_market_cap data) 0;
     currency := None;
     exchange := None |}.

Definition getCryptoData (w : MarketWorld) (symbol : string) : PrimaryData :=
  tryCatch
    (let coinId := getCoinGeckoId symbol in
     response ← coinGeckoSimplePrice w coinId;
     match response with
     | Some data => Normal (PrimarySuccess (cryptoQuote symbol data))
     | None => Throw "No crypto data available from CoinGecko"
     end)
    PrimaryFailure.

(** A chart payload whose [meta] has neither a price nor a previous close. *)
Definition metaWithoutPrices : YahooMeta :=
  {| metaSymbol := "XYZ"; longName := Some "XYZ Holdings"; shortName := None;
     regularMarketPrice := None; metaPreviousClose := None;
     regularMarketVolume := None; metaMarketCap := None;
     metaCurrency := Some "USD"; exchangeName := Some "NMS";
     trailingPE := None; trailingEps := None |}.

(** A chart payload with a price and no previous close. *)
Definition metaWithoutPreviousClose : YahooMeta :=
  {| metaSymbol := "XYZ"; longName := Some "XYZ Holdings"; shortName := None;
     regularMarketPrice := Some 100%float; metaPreviousClose := None;
     regularMarketVolume := None; metaMarketCap := None;
     metaCurrency := Some "USD"; exchangeName := Some "NMS";
     trailingPE := None; trailingEps := None |}.

(** A market in which Yahoo answers every chart request with [meta], and
    CoinGecko every price request with 100 USD, up 5 percent in 24 hours. *)
Definition marketWith (meta : YahooMeta) : MarketWorld :=
  {| yahooChart := fun _ => Normal (Some {| meta := Some meta |});
     coinGeckoSimplePrice := fun _ =>
       Normal (Some {| usd := 100%float; usd_24h_change := Some 5%float;
                       usd_market_cap := None; usd_24h_vol := None |}) |}.

(** A market in which Yahoo answers every chart request with that payload. *)
Definition pricelessMarket : MarketWorld :=
  {| yahooChart := fun _ => Normal (Some {| meta := Some metaWithoutPrices |});
     coinGeckoSimplePrice := fun _ => Normal None |}.

End Market.

(** ** Quarterly earnings: [getQuarterlyEarnings] and its adapters *)

Module Earnings.

Inductive Provider := FMP | AlphaVantage | Polygon.

(** What an observer of the service sees: an adapter being called, and
    a request leaving for a provider. *)
Inductive Event :=
| Called (p : Provider)
| Requested (p : Provider) (symbol : string).

(** A computation that appends to the trace of events.  An [async]
    adapter runs up to its request as soon as it is called, so the
    events of the three adapters enter the trace in call order. *)
Definition Traced (A : Type) : Type := list Event -> A * list Event.

Definition ret {A} (a : A) : Traced A := fun tr => (a, tr).

Definition andThen {A B} (c : Traced A) (k : A -> Traced B) : Traced B :=
  fun tr => let '(a, tr') := c tr in k a tr'.

Definition emit (e : Event) : Traced unit := fun tr => (tt, (tr ++ [e])%list).

#[export] Instance traced_ret : MRet Traced := @ret.
#[export] Instance traced_bind : MBind Traced := fun A B k c => andThen c k.

Definition run {A} (c : Traced A) : A * list Event := c [].

(** The object an earnings adapter resolves to.  [latestQuarter] and
    [historicalQuarters] keep the provider's rows; the renaming of
    their fields is not part of the model. *)
Record EarningsResult := mkEarningsResult {
  success : bool;
  source : option string;
  latestQuarter : option Json;
  historicalQuarters : option (list Json)
}.

(** [{ success: false }] *)
Definition unavailable : EarningsResult :=
  {| success := false; source := None;
     latestQuarter := None; historicalQuarters := None |}.

(** The keys of the service and the answers of the providers: the rows
    of [response.data], of [response.data.quarterlyEarnings] and of
    [response.data.results], or [Throw] when the request fails.
    [estimate i] is the [i]-th placeholder object that
    [generateMockEarnings] draws with [Math.random]. *)
Record EarningsWorld := mkEarningsWorld {
  fmpKey : option string;
  alphavantageKey : option string;
  polygonKey : option string;
  fmpIncomeStatement : string -> Completion (list Json);
  alphaVantageEarnings : string -> Completion (list Json);
  polygonFinancials : string -> Completion (list Json);
  estimate : nat -> Json
}.

(** [!!key] *)
Definition configured (key : option string) : bool := truthyText key.

(** The fields of a row can be read unless the row is [null]; reading
    a field of [null] throws a [TypeError]. *)
Definition readable (row : Json) : bool :=
  match row with
  | JNull => false
  | _ => true
  end.

Definition readRows (rows : list Json) (result : EarningsResult)
  : Completion EarningsResult :=
  if forallb readable rows then Normal result
  else Throw "Cannot read properties of null".

(** The frame shared by the three adapters: no key, no request; a
    request that throws or brings no row, or a row that cannot be read,
    gives [{ success: false }]. *)
Definition earningsAdapter (p : Provider) (key : option string)
    (symbol : string) (request : Completion (list Json))
    (build : Json -> list Json -> Completion EarningsResult)
  : Traced EarningsResult :=
  emit (Called p);;
  if negb (configured key) then ret unavailable
  else
    emit (Requested p symbol);;
    ret (tryCatch
           (rows ← request;
            match rows with
            | latest :: _ => build latest rows
            | [] => Normal unavailable
            end)
           (fun _ => unavailable)).

(** FMP and Alpha Vantage read the first four rows, Polygon the first. *)
Definition getFMPEarnings (w : EarningsWorld) (symbol : string) :=
  earningsAdapter FMP (fmpKey w) symbol (fmpIncomeStatement w symbol)
    (fun latest rows =>
       readRows (take 4 rows)
         {| success := true; source := Some "FMP";
            latestQuarter := Some latest;
            historicalQuarters := Some (take 4 rows) |}).

Definition getAlphaVantageEarnings (w : EarningsWorld) (symbol : string) :=
  earningsAdapter AlphaVantage (alphavantageKey w) (toUpperCase symbol)
    (alphaVantageEarnings w (toUpperCase symbol))
    (fun latest rows =>
       readRows (take 4 rows)
         {| success := true; source := Some "Alpha Vantage";
            latestQuarter := Some latest;
            historicalQuarters := Some (take 4 rows) |}).

Definition getPolygonEarnings (w : EarningsWorld) (symbol : string) :=
  earningsAdapter Polygon (polygonKey w) symbol (polygonFinancials w symbol)
    (fun latest rows =>
       readRows [latest]
         {| success := true; source := Some "Polygon";
            latestQuarter := Some latest;
            historicalQuarters := None |}).

Definition generateMockEarnings (w : EarningsWorld) (symbol : string)
  : EarningsResult :=
  {| success := true;
     source := Some "Estimated";
     latestQuarter := Some (estimate w 0);
     historicalQuarters :=
       Some [estimate w 1; estimate w 2; estimate w 3; estimate w 4] |}.

(** The [for ... of] loop over the settled results. *)
Fixpoint firstSuccess (earningsData : list (Settled EarningsResult))
  : option EarningsResult :=
  match earningsData with
  | [] => None
  | Fulfilled value :: rest =>
      if success value then Some value else firstSuccess rest
  | Rejected _ :: rest => firstSuccess rest
  end.

(** The [catch] of [getQuarterlyEarnings] is not reached: the adapters
    catch their own errors, and nothing else in the [try] block throws. *)
Definition getQuarterlyEarnings (w : EarningsWorld) (symbol : string)
  : Traced EarningsResult :=
  fmp ← getFMPEarnings w symbol;
  av ← getAlphaVantageEarnings w symbol;
  polygon ← getPolygonEarnings w symbol;
  let earningsData := [Fulfilled fmp; Fulfilled av; Fulfilled polygon] in
  match firstSuccess earningsData with
  | Some value => ret value
  | None => ret (generateMockEarnings w symbol)
  end.

(** The chain as the specification words it: the providers are tried
    one after the other, and the first success ends the chain. *)
Definition sequentialFallback (w : EarningsWorld) (symbol : string)
  : Traced EarningsResult :=
  fmp ← getFMPEarnings w symbol;
  if success fmp then ret fmp else
  av ← getAlphaVantageEarnings w symbol;
  if success av then ret av else
  polygon ← getPolygonEarnings w symbol;
  if success polygon then ret polygon
  else ret (generateMockEarnings w symbol).

Definition requests (tr : list Event) : list Provider :=
  omap (fun e => match e with Requested p _ => Some p | Called _ => None end) tr.

Definition calls (tr : list Event) : list Provider :=
  omap (fun e => match e with Called p => Some p | Requested _ _ => None end) tr.

Definition keyOf (w : EarningsWorld) (p : Provider) : option string :=
  match p with
  | FMP => fmpKey w
  | AlphaVantage => alphavantageKey w
  | Polygon => polygonKey w
  end.

(** What an adapter resolves to, and the events it adds to the trace. *)
Definition adapterValue (key : option string) (request : Completion (list Json))
    (build : Json -> list Json -> Completion EarningsResult) : EarningsResult :=
  if configured key then
    match request with
    | Normal ((latest :: _) as rows) =>
        match build latest rows with
        | Normal result => result
        | Throw _ => unavailable
        end
    | Normal [] | Throw _ => unavailable
    end
  else unavailable.

Definition adapterEvents (p : Provider) (key : option string) (symbol : string)
  : list Event :=
  if configured key then [Called p; Requested p symbol] else [Called p].

(** A service with all three keys, in which FMP has two quarters. *)
Definition fmpAnswers : EarningsWorld :=
  {| fmpKey := Some "fmp-key";
     alphavantageKey := Some "av-key";
     polygonKey := Some "polygon-key";
     fmpIncomeStatement := fun _ =>
       Normal [ JObj [("period", JStr "Q1"); ("revenue", JNum 90753000000)];
                JObj [("period", JStr "Q4"); ("revenue", JNum 119575000000)] ];
     alphaVantageEarnings := fun _ => Normal [ JObj [("reportedEPS", JStr "1.53")] ];
     polygonFinancials := fun _ => Throw "Request failed with status code 403";
     estimate := fun _ => JNull |}.

End Earnings.

(** ** The route [POST /api/analyze] of [server.js] *)

Module AnalyzeRoute.
Import Market.

(** [getFMPFundamentals], as far as the route reads its result. *)
Record FmpProfile := mkFmpProfile {
  companyName : option string;
  profileSector : string;
  profileMarketCap : float;
  peRatio : float;
  profileEps : float
}.

(** The fundamentals the route sends.  For a crypto asset
    [generateFundamentals] hands back the promise of
    [generateCryptoFundamentals], which the route does not await. *)
Inductive Fundamentals :=
| StockFundamentals (marketCap peRatio eps : float) (placeholders : list string)
| UnawaitedPromise.

Inductive EarningsData :=
| NotApplicable (message : string)
| Reported (result : Earnings.EarningsResult).

Definition earningsSuccess (e : EarningsData) : bool :=
  match e with
  | NotApplicable _ => false
  | Reported r => Earnings.success r
  end.

(** What the route meets outside: the quote services, the news and
    earnings providers, the adapters for the profile and the chart, which
    catch their own failures, the eleven figures that
    [generateStockFundamentals] draws with [Math.random], and the clock. *)
Record World := mkWorld {
  market : MarketWorld;
  news : News.NewsWorld;
  earnings : Earnings.EarningsWorld;
  fmpFundamentals : string -> option FmpProfile;
  detailedChartData : string -> list Json;
  randomFigures : list string;
  timestamp : string
}.

Record Analysis := mkAnalysis {
  symbol : string;
  company : option string;
  currentPrice : float;
  priceChange : float;
  priceChangePercent : float;
  assetType : AssetType;
  sector : string;
  chartData : list Json;
  fundamentals : Fundamentals;
  sentiment : Sentiment.SentimentSummary;
  earningsData : EarningsData;
  analysisTimestamp : string;
  dataSource : string;
  quarterlyEarnings : bool
}.

Inductive Body :=
| ErrorBody (error : string) (details : option string)
| AnalysisBody (analysis : Analysis).

Record Response := mkResponse {
  status : Z;
  body : Body
}.

(** [res.json(...)] answers with status 200. *)
Definition json (b : Body) : Response := {| status := 200; body := b |}.

Definition generateStockFundamentals (w : World)
    (primaryData : Quote) (fmpData : option FmpProfile) : Fundamentals :=
  match fmpData with
  | Some profile =>
      StockFundamentals
        (profileMarketCap profile / 1000000000)%float
        (peRatio profile) (profileEps profile) (randomFigures w)
  | None =>
      StockFundamentals
        (Market.marketCap primaryData / 1000000000)%float
        0%float 0%float (randomFigures w)
  end.

Definition generateFundamentals (w : World)
    (primaryData : Quote) (fmpData : option FmpProfile) (assetType : AssetType)
  : Fundamentals :=
  match assetType with
  | Crypto => UnawaitedPromise
  | _ => generateStockFundamentals w primaryData fmpData
  end.

(** The three fetches of the route: the crypto branch, and the
    [Promise.all] of the equity branch. *)
Definition fetchPrimary (w : World) (symbol : string) (assetType : AssetType)
  : PrimaryData * option FmpProfile * EarningsData :=
  match assetType with
  | Crypto =>
      (getCryptoData (market w) symbol, None,
       NotApplicable "Earnings not applicable for cryptocurrency")
  | _ =>
      (getYahooFinanceData (market w) symbol,
       fmpFundamentals w symbol,
       Reported (Earnings.run (Earnings.getQuarterlyEarnings (earnings w) symbol)).1)
  end.

(** The primary fetch alone. *)
Definition primaryFetch (w : World) (symbol : string) : PrimaryData :=
  (fetchPrimary w symbol (detectAssetType symbol)).1.1.

Definition analysisOf (w : World) (symbol : string) (assetType : AssetType)
    (primaryData : Quote) (fmpData : option FmpProfile)
    (earningsData : EarningsData) : Analysis :=
  let chartData := detailedChartData w symbol in
  let comprehensiveNews := News.getComprehensiveNews (news w) (Text symbol) in
  let sentimentAnalysis := Sentiment.calculateSentimentScore comprehensiveNews in
  let fundamentals := generateFundamentals w primaryData fmpData assetType in
  {| symbol := toUpperCase symbol;
     company :=
       match fmpData with
       | Some profile => companyName profile
       | None => Some (Market.name primaryData)
       end;
     currentPrice := roundFixed 2 (Market.currentPrice primaryData);
     priceChange := roundFixed 2 (Market.change primaryData);
     priceChangePercent := roundFixed 2 (Market.changePercent primaryData);
     assetType := assetType;
     sector :=
       match fmpData with
       | Some profile => profileSector profile
       | None =>
           match assetType with
           | Crypto => "CRYPTOCURRENCY"
           | _ => "Technology"
           end
       end;
     chartData := chartData;
     fundamentals := fundamentals;
     sentiment := sentimentAnalysis;
     earningsData := earningsData;
     analysisTimestamp := timestamp w;
     dataSource :=
       match assetType with
       | Crypto => "CoinGecko + Yahoo Finance"
       | _ => "Yahoo Finance + FMP + Multiple News Sources"
       end;
     quarterlyEarnings := earningsSuccess earningsData |}.

(** The handler; [bodySymbol] is [req.body.symbol], [None] when the
    body has no such field. *)
Definition analyze (w : World) (bodySymbol : option Json) : Response :=
  tryCatch
    (match bodySymbol with
     | None =>
         Normal {| status := 400;
                   body := ErrorBody "Stock symbol is required" None |}
     | Some value =>
         if negb (truthyJson value) then
           Normal {| status := 400;
                     body := ErrorBody "Stock symbol is required" None |}
         else
           match value with
           | JStr symbol =>
               let assetType := detectAssetType symbol in
               let '(primaryData, fmpData, earningsData) :=
                 fetchPrimary w symbol assetType in
               match primaryData with
               | PrimaryFailure error =>
                   Normal
                     {| status := 500;
                        body :=
                          ErrorBody
                            ("Unable to fetch real market data for " ++ symbol ++
                             ". Please check the symbol and try again.")
                            (Some error) |}
               | PrimarySuccess quote =>
                   Normal (json (AnalysisBody
                     (analysisOf w symbol assetType quote fmpData earningsData)))
               end
           | _ => Throw "symbol.toUpperCase is not a function"
           end
     end)
    (fun message =>
       {| status := 500;
          body := ErrorBody "Internal server error during analysis" (Some message) |}).

(** The primary fetch of the route reports failure with [error]: the
    CoinGecko fetch for a crypto symbol, the Yahoo fetch for any other. *)
Definition primaryFails (w : World) (symbol : string) (error : string) : Prop :=
  match detectAssetType symbol with
  | Crypto => getCryptoData (market w) symbol = PrimaryFailure error
  | _ => getYahooFinanceData (market w) symbol = PrimaryFailure error
  end.

(** The message of the fatal answer for [symbol]. *)
Definition fatalMessage (symbol : string) : string :=
  "Unable to fetch real market data for " ++ symbol ++
  ". Please check the symbol and try again.".

(** A world in which both quote services time out. *)
Definition quotesDown : World :=
  {| market :=
       {| yahooChart := fun _ => Throw "timeout of 10000ms exceeded";
          coinGeckoSimplePrice := fun _ => Throw "timeout of 10000ms exceeded" |};
     news := News.finnhubOnly;
     earnings := Earnings.fmpAnswers;
     fmpFundamentals := fun _ => None;
     detailedChartData := fun _ => [];
     randomFigures := [];
     timestamp := "2024-05-01T12:00:00.000Z" |}.

End AnalyzeRoute.

(** ** The serverless handlers *)

Module Serverless.
Import Market.

(** A response: [body] is [None] for [res.status(200).end()]. *)
Record Response := mkResponse {
  status : Z;
  body : option Json
}.

Definition respond (code : Z) (fields : list (string * Json)) : Response :=
  {| status := code; body := Some (JObj fields) |}.

(** [a && b] as a condition: both numbers are there and truthy. *)
Definition bothTruthy (a b : option float) : option (float * float) :=
  match a, b with
  | Some x, Some y => if truthy x && truthy y then Some (x, y) else None
  | _, _ => None
  end.

(** *** [api/analyze.js] *)

(** What [fetch] resolves to: the [ok] flag and the outcome of
    [yfResp.json()] read down to [json?.chart?.result?.[0]?.meta]. *)
Record FetchResponse := mkFetchResponse {
  ok : bool;
  chartMeta : Completion (option YahooMeta)
}.

Record PriceBlock := mkPriceBlock {
  symbol : string;
  company : string;
  currentPrice : option float;
  previousClose : option float;
  priceChangePercent : option float;
  blockTrailingPE : option float;
  blockMarketCap : option float;
  blockTrailingEps : option float
}.

Definition priceBlockOf (symbol : string) (meta : YahooMeta) : PriceBlock :=
  {| symbol := toUpperCase symbol;
     company := orText (longName meta) (toUpperCase symbol ++ " Inc.");
     currentPrice := regularMarketPrice meta;
     previousClose := metaPreviousClose meta;
     priceChangePercent :=
       match bothTruthy (metaPreviousClose meta) (regularMarketPrice meta) with
       | Some (previousClose, price) =>
           Some ((price - previousClose) / previousClose * 100)%float
       | None => None
       end;
     blockTrailingPE := trailingPE meta;
     blockMarketCap := metaMarketCap meta;
     blockTrailingEps := trailingEps meta |}.

(** "Fallback naar mock als Yahoo faalt" *)
Definition mockPriceBlock (symbol : string) : PriceBlock :=
  {| symbol := toUpperCase symbol;
     company := toUpperCase symbol ++ " Inc.";
     currentPrice := Some 150.25%float;
     previousClose := Some (14658 / 100)%float;
     priceChangePercent := Some 2.5%float;
     blockTrailingPE := Some (254 / 10)%float;
     blockMarketCap := Some 2500000000000%float;
     blockTrailingEps := Some (612 / 100)%float |}.

Definition priceBlockFields (b : PriceBlock) : list (string * Json) :=
  [ ("symbol", JStr (symbol b));
    ("company", JStr (company b));
    ("currentPrice", orNull (currentPrice b));
    ("previousClose", orNull (previousClose b));
    ("priceChangePercent", orNull (priceChangePercent b));
    ("trailingPE", orNull (blockTrailingPE b));
    ("marketCap", orNull (blockMarketCap b));
    ("trailingEps", orNull (blockTrailingEps b)) ].

Definition mockWire (symbol : string) : list Json :=
  [ JObj [ ("headline", JStr (toUpperCase symbol ++ " shows strong quarterly results"));
           ("source", JStr "MockWire") ];
    JObj [ ("headline", JStr ("Analysts upgrade " ++ toUpperCase symbol ++ " price target"));
           ("source", JStr "MockWire") ] ].

(** [encodeURIComponent symbol] is the component of the URL that stands
    for [symbol], a [URIError] when [symbol] holds a surrogate without
    its pair; [yahoo component] is what [fetch] does for the chart under
    that component; [now] is [new Date().toISOString()]. *)
Record AnalyzeWorld := mkAnalyzeWorld {
  encodeURIComponent : string -> Completion string;
  yahoo : string -> Completion FetchResponse;
  now : string
}.

(** The double quote, and the hint of the 400 answer:
    [Provide JSON body: { "symbol": "AAPL" }]. *)
Definition dq : string := String (ascii_of_nat 34) EmptyString.
Definition usage : string :=
  "Provide JSON body: { " ++ dq ++ "symbol" ++ dq ++ ": " ++ dq ++ "AAPL" ++ dq ++ " }".

Definition analyzeHandler (w : AnalyzeWorld) (method : string)
    (bodySymbol : option Json) : Response :=
  if String.eqb method "OPTIONS" then {| status := 200; body := None |}
  else if negb (String.eqb method "POST") then
    respond 405 [ ("error", JStr "Method not allowed");
                  ("message", JStr "Only POST requests are allowed") ]
  else
    tryCatch
      (match bodySymbol with
       | Some (JStr symbol) =>
           if String.eqb symbol "" then
             Normal (respond 400
               [ ("error", JStr "Symbol required");
                 ("message", JStr usage) ])
           else
             component ← encodeURIComponent w symbol;
             yfResp ← match yahoo w component with
                      | Normal r => Normal r
                      | Throw m => Throw ("Price fetch failed: " ++ m)
                      end;
             priceBlock ←
               (if ok yfResp then
                  meta ← chartMeta yfResp;
                  Normal (option_map (priceBlockOf symbol) meta)
                else Normal (@None PriceBlock));
             let priceBlock := default (mockPriceBlock symbol) priceBlock in
             let news := mockWire symbol in
             Normal (respond 200
               (priceBlockFields priceBlock ++
                [ ("assetType", JStr "stock");
                  ("sector", JStr "Technology");
                  ("sentiment",
                   JObj [ ("overall", JStr "neutral"); ("score", JNum 0);
                          ("articles", JArr news) ]);
                  ("timestamp", JStr (now w)) ])%list)
       | _ =>
           Normal (respond 400
             [ ("error", JStr "Symbol required");
               ("message", JStr usage) ])
       end)
      (fun message =>
         respond 500 [ ("error", JStr "Analysis failed");
                       ("details", JStr message) ]).

(** *** The fetch-based analyze handler ("Fixed") *)

(** What [fetch] resolves to: [httpChart] is [response.json()] read down
    to [data?.chart?.result?.[0]]. *)
Record HttpResponse := mkHttpResponse {
  httpOk : bool;
  httpStatus : string;
  httpChart : Completion (option ChartResult)
}.

Record PriceData := mkPriceData {
  priceRegularMarketPrice : float;
  priceLongName : string;
  priceChange : float;
  priceTrailingPE : float;
  priceMarketCap : float;
  priceTrailingEps : float
}.

(** [priceFetch symbol] is what [fetch] does for the chart of [symbol];
    [newsFetch symbol] is what [fetchNewsData] resolves to, which
    catches every failure of its own and then gives the empty array. *)
Record FixedWorld := mkFixedWorld {
  priceFetch : string -> Completion HttpResponse;
  newsFetch : string -> list Json;
  fixedNow : string
}.

(** An operand that is [undefined] is [NaN] in arithmetic. *)
Definition toNumber (x : option float) : float := default PrimFloat.nan x.

Definition fetchPriceData (w : FixedWorld) (symbol : string) : Completion PriceData :=
  response ← priceFetch w symbol;
  if negb (httpOk response) then
    Throw ("Yahoo Finance API error: " ++ httpStatus response)
  else
    data ← httpChart response;
    match data with
    | None => Throw "Invalid response from Yahoo Finance"
    | Some result =>
        match meta result with
        | None =>
            Throw "Cannot read properties of undefined (reading 'regularMarketPrice')"
        | Some meta =>
            Normal
              {| priceRegularMarketPrice := orElse (regularMarketPrice meta) 0;
                 priceLongName := orText (longName meta) "Unknown Company";
                 priceChange :=
                   match metaPreviousClose meta with
                   | Some previousClose =>
                       if truthy previousClose then
                         ((toNumber (regularMarketPrice meta) - previousClose)
                          / previousClose * 100)%float
                       else 0%float
                   | None => 0%float
                   end;
                 priceTrailingPE := orElse (trailingPE meta) 0;
                 priceMarketCap := orElse (metaMarketCap meta) 0;
                 priceTrailingEps := orElse (trailingEps meta) 0 |}
        end
    end.

Definition fixedMockFields (symbol upper : string) : list (string * Json) :=
  [ ("symbol", JStr upper);
    ("company", JStr (upper ++ " Inc."));
    ("currentPrice", JNum 150.25);
    ("priceChangePercent", JNum 2.5);
    ("assetType", JStr "stock");
    ("sector", JStr "Technology");
    ("sentiment",
     JObj [ ("overall", JStr "positive"); ("score", JNum 0.75);
            ("articles",
             JArr [ JObj [("headline", JStr (symbol ++ " shows strong quarterly results"))];
                    JObj [("headline", JStr ("Analysts upgrade " ++ symbol ++ " price target"))] ]) ]);
    ("fundamentals",
     JObj [ ("type", JStr "stock"); ("peRatio", JNum (254 / 10));
            ("marketCap", JNum 2500.5); ("eps", JNum (612 / 100));
            ("roe", JNum (152 / 10)) ]) ].

Definition fixedRealFields (upper : string) (price : PriceData) (news : list Json)
  : list (string * Json) :=
  [ ("symbol", JStr upper);
    ("company", JStr (orText (Some (priceLongName price)) (upper ++ " Inc.")));
    ("currentPrice", jnumber (priceRegularMarketPrice price));
    ("priceChangePercent", jnumber (priceChange price));
    ("assetType", JStr "stock");
    ("sector", JStr "Technology");
    ("sentiment",
     JObj [ ("overall", JStr "neutral"); ("score", JNum 0);
            ("articles", JArr (take 3 news)) ]);
    ("fundamentals",
     JObj [ ("type", JStr "stock");
            ("peRatio", jnumber (orElse (Some (priceTrailingPE price)) 0));
            ("marketCap",
             jnumber (orElse (Some (priceMarketCap price)) 0 / 1000000000)%float);
            ("eps", jnumber (orElse (Some (priceTrailingEps price)) 0));
            ("roe", JNum (152 / 10)) ]) ].

Definition fixedHandler (w : FixedWorld) (method : string)
    (bodySymbol : option Json) : Response :=
  if String.eqb method "OPTIONS" then {| status := 200; body := None |}
  else if negb (String.eqb method "POST") then
    respond 405 [ ("error", JStr "Method not allowed");
                  ("message", JStr "Only POST requests are allowed") ]
  else
    match bodySymbol with
    | None => respond 400 [ ("error", JStr "Symbol required") ]
    | Some value =>
        if negb (truthyJson value) then
          respond 400 [ ("error", JStr "Symbol required") ]
        else
          tryCatch
            (match value with
             | JStr symbol =>
                 let priceData := settle (fetchPriceData w symbol) in
                 let newsData := settle (Normal (newsFetch w symbol)) in
                 let price :=
                   match priceData with
                   | Fulfilled v => Some v
                   | Rejected _ => None
                   end in
                 let news :=
                   match newsData with
                   | Fulfilled v => v
                   | Rejected _ => []
                   end in
                 match price with
                 | None =>
                     Normal (respond 200
                       (fixedMockFields symbol (toUpperCase symbol) ++
                        [ ("timestamp", JStr (fixedNow w));
                          ("source", JStr "mock-fallback") ])%list)
                 | Some price =>
                     Normal (respond 200
                       (fixedRealFields (toUpperCase symbol) price news ++
                        [ ("timestamp", JStr (fixedNow w));
                          ("source", JStr "yahoo-finance") ])%list)
                 end
             | _ => Throw "symbol.toUpperCase is not a function"
             end)
            (fun message =>
               respond 500 [ ("error", JStr "Unable to analyze symbol");
                             ("details", JStr message) ])
    end.

(** *** [api/simple.js] *)

(** [bodySymbol] is [req.body.symbol], a string when it is there. *)
Definition simpleHandler (now : string) (method : string)
    (bodySymbol : option string) : Response :=
  if String.eqb method "POST" then
    respond 200
      [ ("symbol", JStr (orText bodySymbol "TEST"));
        ("company", JStr (orText bodySymbol "Test" ++ " Inc."));
        ("currentPrice", JNum 150.25);
        ("priceChangePercent", JNum (234 / 100));
        ("assetType", JStr "stock");
        ("sector", JStr "Technology");
        ("sentiment", JObj [ ("overall", JStr "positive"); ("score", JNum 15) ]);
        ("fundamentals",
         JObj [ ("type", JStr "stock"); ("peRatio", JNum 18.5);
                ("marketCap", JNum (28 / 10)) ]);
        ("timestamp", JStr now) ]
  else respond 200 [ ("message", JStr "Simple backend working!") ].

(** The field names of the answer of [api/analyze.js]. *)
Definition analyzeFieldNames : list string :=
  [ "symbol"; "company"; "currentPrice"; "previousClose"; "priceChangePercent";
    "trailingPE"; "marketCap"; "trailingEps"; "assetType"; "sector"; "sentiment";
    "timestamp" ].

(** [obj[name]] of the body of a response. *)
Definition bodyField (name : string) (r : Response) : option Json :=
  match body r with
  | Some j => field name j
  | None => None
  end.

Definition bodyFieldNames (r : Response) : list string :=
  match body r with
  | Some j => fieldNames j
  | None => []
  end.

(** Yahoo answers 404 to the chart request.  The symbols of the samples
    are letters, which [encodeURIComponent] leaves as they are. *)
Definition yahooRefuses : AnalyzeWorld :=
  {| encodeURIComponent := Normal;
     yahoo := fun _ =>
       Normal {| ok := false; chartMeta := Throw "Unexpected token < in JSON" |};
     now := "2024-05-01T12:00:00.000Z" |}.

Definition appleMeta : YahooMeta :=
  {| metaSymbol := "AAPL"; longName := Some "Apple Inc."; shortName := Some "Apple";
     regularMarketPrice := Some 189.5%float; metaPreviousClose := Some 187.25%float;
     regularMarketVolume := Some 52000000%float;
     metaMarketCap := Some 2900000000000%float;
     metaCurrency := Some "USD"; exchangeName := Some "NMS";
     trailingPE := Some 29.5%float; trailingEps := Some 6.5%float |}.

(** Yahoo answers the chart request with Apple's quote. *)
Definition yahooAnswers : AnalyzeWorld :=
  {| encodeURIComponent := Normal;
     yahoo := fun _ => Normal {| ok := true; chartMeta := Normal (Some appleMeta) |};
     now := "2024-05-01T12:00:00.000Z" |}.

(** A symbol that [encodeURIComponent] refuses. *)
Definition malformedSymbol : AnalyzeWorld :=
  {| encodeURIComponent := fun _ => Throw "URI malformed";
     yahoo := fun _ => Normal {| ok := true; chartMeta := Normal (Some appleMeta) |};
     now := "2024-05-01T12:00:00.000Z" |}.

(** The same failure, seen by the fetch-based handler. *)
Definition fixedYahooRefuses : FixedWorld :=
  {| priceFetch := fun _ =>
       Normal {| httpOk := false; httpStatus := "404";
                 httpChart := Throw "Unexpected token < in JSON" |};
     newsFetch := fun _ => [];
     fixedNow := "2024-05-01T12:00:00.000Z" |}.

End Serverless.

(** ** The labels of an article *)

Module Labels.
Import News.

Definition sentimentLabels : list string := ["positive"; "negative"; "neutral"].
Definition impactLevels : list string := ["high"; "medium"; "low"].
Definition categories : list string :=
  ["earnings"; "analyst"; "corporate"; "legal"; "general"].
Definition sourceTiers : list string := ["tier1"; "tier2"; "tier3"].

(** What every adapter establishes for an article it builds for
    [symbol]: the labels come from the fixed sets, impact and category
    are those of the headline, the summary is the provider's or the
    stand-in text, and the score is the one of the headline and of the
    provider's summary for [symbol]. *)
Definition wellLabelled (symbol : string) (a : Article) : Prop :=
  sentiment a ∈ sentimentLabels
  /\ impact a = getImpactLevel (headline a) /\ impact a ∈ impactLevels
  /\ category a = categorizeNews (headline a) /\ category a ∈ categories
  /\ sourceTier a ∈ sourceTiers
  /\ (exists given : option string,
        summary a = orText given "No summary available"
        /\ relevanceScore a
           = Relevance.calculateRelevanceScore (headline a) given symbol)
  /\ summary a <> ""
  /\ 0 <= relevanceScore a <= 60.

End Labels.

(** ** A world for the analyze route *)

Module RouteSamples.
Import Market AnalyzeRoute.

(** A world in which both quote services answer: Yahoo with a price of
    100 and no previous close, CoinGecko with 100 USD; FMP has no
    profile. *)
Definition quotesUp : World :=
  {| market := marketWith metaWithoutPreviousClose;
     news := News.finnhubOnly;
     earnings := Earnings.fmpAnswers;
     fmpFundamentals := fun _ => None;
     detailedChartData := fun _ => [];
     randomFigures := [];
     timestamp := "2024-05-01T12:00:00.000Z" |}.

End RouteSamples.

(** ** Chart data: [getDetailedChartData] and [addTechnicalIndicators] *)

Module Chart.
Import Market.

(** A point of the chart.  [getDetailedChartData] builds the first seven
    fields; [addTechnicalIndicators] adds the four others, which are
    [None] where an object lacks the property or holds [null]. *)
Record ChartPoint := mkChartPoint {
  time : string;
  open : float;
  high : float;
  low : float;
  close : float;
  volume : Z;
  displayDate : string;
  index : option nat;
  sma20 : option float;
  sma50 : option float;
  ema12 : option float
}.

(** *** [addTechnicalIndicators] *)

(** [chartData.slice(from, to).reduce((sum, d) => sum + d.close, 0)] *)
Definition sumClose (chartData : list ChartPoint) (from to : nat) : float :=
  fold_left (fun sum d => (sum + close d)%float)
    (take (to - from) (drop from chartData)) 0%float.

(** [x ? parseFloat(x.toFixed(2)) : null] for a value that may be [null]. *)
Definition roundedOrNull (x : option float) : option float :=
  match x with
  | Some v => if truthy v then Some (roundFixed 2 v) else None
  | None => None
  end.

(** The callback of [chartData.map].  [chartData[index - 1]] is read
    for [index] above 11 only, where it is there. *)
Definition withIndicators (chartData : list ChartPoint) (index : nat)
    (item : ChartPoint) : ChartPoint :=
  let sma20 :=
    if (19 <=? index)%nat
    then Some (sumClose chartData (index - 19) (index + 1) / 20)%float
    else None in
  let sma50 :=
    if (49 <=? index)%nat
    then Some (sumClose chartData (index - 49) (index + 1) / 50)%float
    else None in
  let ema12 :=
    if (11 <=? index)%nat then
      let k := (2 / (12 + 1))%float in
      Some
        (if (index =? 11)%nat then (sumClose chartData 0 12 / 12)%float
         else
           let previous := chartData !! (index - 1)%nat ≫= ema12 in
           (close item * k + orElse previous (close item) * (1 - k))%float)
    else None in
  {| time := time item; open := open item; high := high item; low := low item;
     close := close item; volume := volume item; displayDate := displayDate item;
     index := Some index;
     sma20 := roundedOrNull sma20;
     sma50 := roundedOrNull sma50;
     ema12 := roundedOrNull ema12 |}.

Definition addTechnicalIndicators (chartData : list ChartPoint) : list ChartPoint :=
  imap (withIndicators chartData) chartData.

(** *** [getDetailedChartData] *)

(** [result.indicators.quote[0]]: the five columns of the quote.  A
    column is [None] when the payload lacks it, a cell when it holds
    [null].  Volumes are whole numbers below 10^21, which [parseInt]
    gives back as they are. *)
Record QuoteColumns := mkQuoteColumns {
  colOpen : option (list (option float));
  colHigh : option (list (option float));
  colLow : option (list (option float));
  colClose : option (list (option float));
  colVolume : option (list (option Z))
}.

(** [response.data.chart.result[0]]: [timestamps] is [result.timestamp],
    in seconds; [indicators] is [None] when [result.indicators] or its
    [quote] is missing, and [Some None] when the array [quote] is empty. *)
Record ChartPayload := mkChartPayload {
  timestamps : option (list Z);
  indicators : option (option QuoteColumns)
}.

(** The chart service and the two date formats: [isoDay t] is
    [new Date(t * 1000).toISOString().split('T')[0]], which throws for
    a time out of range, and [shortDay t] the month and day of
    [toLocaleDateString]. *)
Record ChartWorld := mkChartWorld {
  yearChart : string -> Completion (option ChartPayload);
  isoDay : Z -> Completion string;
  shortDay : Z -> string
}.

(** [column[i]] of a column of [quote]. *)
Definition cell {A} (quote : option QuoteColumns)
    (column : QuoteColumns -> option (list (option A))) (i : nat)
  : Completion (option A) :=
  match quote with
  | None => Throw "Cannot read properties of undefined"
  | Some q =>
      match column q with
      | None => Throw "Cannot read properties of undefined"
      | Some cells => Normal (cells !! i ≫= id)
      end
  end.

(** [column[i] || quote.close[i] || 0]: the close is read only when
    the cell is falsy. *)
Definition cellOrClose (quote : option QuoteColumns)
    (column : QuoteColumns -> option (list (option float))) (i : nat)
  : Completion float :=
  value ← cell quote column i;
  match value with
  | Some v => if truthy v then Normal v
              else closing ← cell quote colClose i; Normal (orElse closing 0)
  | None => closing ← cell quote colClose i; Normal (orElse closing 0)
  end.

(** The callback of [timestamps.map]. *)
Definition chartItem (w : ChartWorld) (quote : option QuoteColumns)
    (i : nat) (timestamp : Z) : Completion ChartPoint :=
  time ← isoDay w timestamp;
  open ← cellOrClose quote colOpen i;
  high ← cellOrClose quote colHigh i;
  low ← cellOrClose quote colLow i;
  closing ← cell quote colClose i;
  volume ← cell quote colVolume i;
  Normal
    {| time := time;
       open := roundFixed 2 open;
       high := roundFixed 2 high;
       low := roundFixed 2 low;
       close := roundFixed 2 (orElse closing 0);
       volume := default 0 volume;
       displayDate := shortDay w timestamp;
       index := None; sma20 := None; sma50 := None; ema12 := None |}.

(** [item.close > 0 && !isNaN(item.close)] *)
Definition plotted (item : ChartPoint) : bool :=
  PrimFloat.ltb 0 (close item) && negb (PrimFloat.is_nan (close item)).

Definition getDetailedChartData (w : ChartWorld) (symbol : string) : list ChartPoint :=
  tryCatch
    (let yahooSymbol := convertToYahooSymbol symbol in
     response ← yearChart w yahooSymbol;
     match response with
     | Some result =>
         let timestamps := default [] (timestamps result) in
         match indicators result with
         | None => Throw "Cannot read properties of undefined (reading 'quote')"
         | Some quote =>
             items ← mapM (fun '(i, timestamp) => chartItem w quote i timestamp)
                          (imap pair timestamps);
             let chartData := List.filter plotted items in
             let processedData := addTechnicalIndicators chartData in
             Normal processedData
         end
     | None => Throw "No chart data in Yahoo response"
     end)
    (fun _ => []).

(** A year chart of three days: the second day has no close, the third
    no open. *)
Definition threeDays : ChartWorld :=
  {| yearChart := fun _ =>
       Normal (Some
         {| timestamps := Some [1714521600; 1714608000; 1714694400];
            indicators := Some (Some
              {| colOpen := Some [Some 10%float; Some 11%float; None];
                 colHigh := Some [Some 12%float; Some 12%float; Some 13%float];
                 colLow := Some [Some 9%float; Some 10%float; Some 11%float];
                 colClose := Some [Some 11%float; None; Some 12.5%float];
                 colVolume := Some [Some 1000; Some 2000; None] |}) |});
     isoDay := fun t => Normal (if t =? 1714521600 then "2024-05-01"
                                else if t =? 1714608000 then "2024-05-02"
                                else "2024-05-03");
     shortDay := fun t => if t =? 1714521600 then "May 1"
                          else if t =? 1714608000 then "May 2" else "May 3" |}.

(** A chart of 13 days that all close at 10. *)
Definition flatChart : list ChartPoint :=
  replicate 13
    {| time := "2024-05-01"; open := 10; high := 10; low := 10; close := 10;
       volume := 1000; displayDate := "May 1";
       index := None; sma20 := None; sma50 := None; ema12 := None |}.

End Chart.

(** ** The routes [GET /api/news/:symbol] and [GET /api/earnings/:symbol] *)

From Stdlib Require DecimalString DecimalNat.

Module JsParse.

(** The white space [parseInt] skips, on ASCII text: tab, line feed,
    vertical tab, form feed, carriage return and space. *)
Definition isWhiteSpace (c : ascii) : bool :=
  let n := nat_of_ascii c in
  (Nat.leb 9 n && Nat.leb n 13) || Nat.eqb n 32.

Fixpoint trimStart (s : string) : string :=
  match s with
  | String c s' => if isWhiteSpace c then trimStart s' else s
  | EmptyString => EmptyString
  end.

(** The value of a digit: [0-9], then the letters for 10 to 35. *)
Definition digitValue (c : ascii) : option Z :=
  let n := nat_of_ascii c in
  if (Nat.leb 48 n && Nat.leb n 57)%bool then Some (Z.of_nat n - 48)
  else if (Nat.leb 97 n && Nat.leb n 122)%bool then Some (Z.of_nat n - 87)
  else if (Nat.leb 65 n && Nat.leb n 90)%bool then Some (Z.of_nat n - 55)
  else None.

(** The value of the longest prefix of [s] made of digits of [radix];
    [acc] is the value read so far, [None] before the first digit. *)
Fixpoint digits (radix : Z) (s : string) (acc : option Z) : option Z :=
  match s with
  | String c s' =>
      match digitValue c with
      | Some d =>
          if d <? radix then digits radix s' (Some (default 0 acc * radix + d))
          else acc
      | None => acc
      end
  | EmptyString => acc
  end.

(** [parseInt(s)] without a radix: white space, a sign, the prefix [0x]
    or [0X] for radix 16, then the digits; [None] is [NaN].  The value
    is the integer that is written; the rounding to a number and the
    sign of zero are left out, since [slice] only compares the value
    with the length of an array. *)
Definition parseInt (s : string) : option Z :=
  let s := trimStart s in
  let '(sign, s) :=
    match s with
    | String "-" s' => (-1, s')
    | String "+" s' => (1, s')
    | _ => (1, s)
    end in
  let '(radix, s) :=
    match s with
    | String "0" (String "x" s') | String "0" (String "X" s') => (16, s')
    | _ => (10, s)
    end in
  Z.mul sign <$> digits radix s None.

(** [l.slice(0, finish)]: [NaN] counts as 0, and a negative end counts
    from the end of the array. *)
Definition sliceTo {A} (finish : option Z) (l : list A) : list A :=
  match finish with
  | None => []
  | Some e =>
      if e <? 0 then take (Z.to_nat (Z.max (Z.of_nat (length l) + e) 0)) l
      else take (Z.to_nat e) l
  end.

(** The decimal numeral of [n], as a client writes it in a query. *)
Definition decimal (n : nat) : string :=
  DecimalString.NilZero.string_of_uint (Nat.to_uint n).

End JsParse.

Module Routes.
Import News JsParse.

Record NewsAnswer := mkNewsAnswer {
  symbol : string;
  totalArticles : nat;
  returnedArticles : nat;
  articles : list NewsItem;
  sources : list string;
  timestamp : string
}.

Inductive NewsBody :=
| NewsFailed (error details : string)
| NewsFound (answer : NewsAnswer).

Record NewsResponse := mkNewsResponse {
  status : Z;
  body : NewsBody
}.

(** [req.query.limit] is [None] when the query has no such parameter,
    and the default [20] is used. *)
Definition parseLimit (limit : option string) : option Z :=
  match limit with
  | None => Some 20
  | Some text => parseInt text
  end.

(** The handler of [GET /api/news/:symbol]; [symbol] is the route
    parameter, a string. *)
Definition newsRoute (w : NewsWorld) (symbol : string) (limit : option string)
  : NewsResponse :=
  tryCatch
    (let comprehensiveNews := getComprehensiveNews w (Text symbol) in
     let limitedNews := sliceTo (parseLimit limit) comprehensiveNews in
     Normal
       {| status := 200;
          body := NewsFound
            {| symbol := toUpperCase symbol;
               totalArticles := length comprehensiveNews;
               returnedArticles := length limitedNews;
               articles := limitedNews;
               sources := ["NewsAPI"; "Finnhub"; "Alpha Vantage"; "Polygon"];
               timestamp := now w |} |})
    (fun message =>
       {| status := 500; body := NewsFailed "Failed to fetch news" message |}).

Record EarningsAnswer := mkEarningsAnswer {
  earningsSymbol : string;
  earnings : Earnings.EarningsResult;
  earningsTimestamp : string
}.

(** The handler of [GET /api/earnings/:symbol], which answers 200;
    [now] is [new Date().toISOString()].  Its [catch] is not reached:
    [getQuarterlyEarnings] catches its own errors. *)
Definition earningsRoute (w : Earnings.EarningsWorld) (now : string)
    (symbol : string) : Z * EarningsAnswer :=
  let earningsData := (Earnings.run (Earnings.getQuarterlyEarnings w symbol)).1 in
  (200,
   {| earningsSymbol := toUpperCase symbol;
      earnings := earningsData;
      earningsTimestamp := now |}).

End Routes.

(** ** The first analyze handler, which fetches with axios *)

Module AxiosHandler.
Import Market Serverless.

(** The object [fetchPriceData] resolves to; a field is [None] where
    [meta] lacks it. *)
Record AxiosPrice := mkAxiosPrice {
  axRegularMarketPrice : option float;
  axLongName : option string;
  axChangePercent : float;
  axTrailingPE : option float;
  axMarketCap : option float;
  axTrailingEps : option float
}.

(** [priceGet symbol] is [response.data.chart.result[0]] of the chart
    request: [Throw] when [axios.get] throws or the payload has no
    [chart.result], [None] when [result] is empty.  [newsGet symbol] is
    what [fetchNewsData] resolves to, which catches its own failures. *)
Record AxiosWorld := mkAxiosWorld {
  priceGet : string -> Completion (option ChartResult);
  newsGet : string -> list Json;
  axiosNow : string
}.

Definition fetchPriceData (w : AxiosWorld) (symbol : string) : Completion AxiosPrice :=
  response ← priceGet w symbol;
  match response with
  | None => Throw "Cannot read properties of undefined (reading 'meta')"
  | Some result =>
      match meta result with
      | None =>
          Throw "Cannot read properties of undefined (reading 'regularMarketPrice')"
      | Some meta =>
          Normal
            {| axRegularMarketPrice := regularMarketPrice meta;
               axLongName := longName meta;
               axChangePercent :=
                 ((toNumber (regularMarketPrice meta) - toNumber (metaPreviousClose meta))
                  / toNumber (metaPreviousClose meta) * 100)%float;
               axTrailingPE := trailingPE meta;
               axMarketCap := metaMarketCap meta;
               axTrailingEps := trailingEps meta |}
      end
  end.





End AxiosHandler.

(** ** The chart of the front end: [filteredChartData] *)

Module FrontEnd.

Inductive TimeRange := Range1D | Range1W | Range1M | Range3M | Range6M | Range1Y.

(** [{ '1D': 1, '1W': 7, '1M': 30, '3M': 90, '6M': 180, '1Y': 365 }] *)
Definition ranges (r : TimeRange) : nat :=
  match r with
  | Range1D => 1
  | Range1W => 7
  | Range1M => 30
  | Range3M => 90
  | Range6M => 180
  | Range1Y => 365
  end.

(** [l.slice(-n)] for [n] above zero: the last [n] elements, all of [l]
    when it has fewer. *)
Definition sliceLast {A} (n : nat) (l : list A) : list A :=
  drop (length l - n) l.

(** [chartData] is [analysis?.chartData], [None] before an analysis is
    loaded. *)
Definition filteredChartData {A} (chartData : option (list A))
    (selectedTimeRange : TimeRange) : list A :=
  match chartData with
  | None => []
  | Some points => sliceLast (ranges selectedTimeRange) points
  end.

End FrontEnd.

(** ** Growth between two quarters: [calculateGrowth] *)

From Stdlib Require FloatAxioms.

Module Growth.
Import Serverless.

(** An argument is [None] when it is [undefined]: the field of a row
    that lacks it, or of the stand-in [{}] for a missing row. *)
Definition calculateGrowth (current previous : option float) : float :=
  match previous with
  | None => 0
  | Some p =>
      if negb (truthy p) || PrimFloat.eqb p 0 then 0%float
      else ((toNumber current - p) / PrimFloat.abs p * 100)%float
  end.

(** [calculateGrowth(latestQuarter.f, previousQuarter.f)] for the field
    [f] of the rows of [response.data], with
    [previousQuarter = response.data[1] || {}]; [figures] holds the
    field of each row. *)
Definition growthOverPrevious (figures : list (option float)) : float :=
  calculateGrowth (figures !! 0%nat ≫= id) (figures !! 1%nat ≫= id).

End Growth.

(** * Properties *)

(** ** Strings *)

Module JsStringFacts.

Lemma append_empty (s : string) : "" ++ s = s.
Proof. reflexivity. Qed.

Lemma append_String (c : ascii) (s t : string) :
  String c s ++ t = String c (s ++ t).
Proof. reflexivity. Qed.

Lemma startsWith_app (s rest : string) : startsWith (s ++ rest) s = true.
Proof.
  induction s as [|c s IH].
  - rewrite append_empty. destruct rest; reflexivity.
  - rewrite append_String. simpl. rewrite Ascii.eqb_refl. exact IH.
Qed.

Lemma includes_startsWith (s p : string) :
  startsWith s p = true -> includes s p = true.
Proof. intros H. destruct s; cbn [includes]; rewrite H; reflexivity. Qed.

(** A string that is spliced into a text occurs in it. *)
Lemma includes_spliced (before s after : string) :
  includes (before ++ s ++ after) s = true.
Proof.
  induction before as [|c before IH].
  - rewrite append_empty. apply includes_startsWith, startsWith_app.
  - rewrite append_String. cbn [includes]. rewrite IH. apply orb_true_r.
Qed.

End JsStringFacts.

(** ** Relevance score *)

Module RelevanceFacts.
Import Relevance.

Lemma add_matches_sum (text : string) (k : Z) (ws : list string) (score : Z) :
  add_matches text k ws score = score + k * matched text ws.
Proof.
  unfold add_matches, matched.
  revert score; induction ws as [|w ws IH]; intros score; simpl.
  - lia.
  - rewrite IH. destruct (includes text w); simpl length; lia.
Qed.

Lemma matched_bounds (text : string) (ws : list string) :
  0 <= matched text ws <= Z.of_nat (length ws).
Proof.
  unfold matched. split; [lia|].
  apply inj_le. induction ws as [|w ws IH]; simpl; [lia|].
  destruct (includes text w); simpl; lia.
Qed.

(** The score is the sum of its three contributions, and lies in 0..60. *)
Lemma calculateRelevanceScore_sum
    (headline : string) (summary : option string) (symbol : string) :
  let text := scoredText headline summary in
  calculateRelevanceScore headline summary symbol
  = (if includes text (toLowerCase symbol) then 10 else 0)
    + 5 * matched text keywords + 3 * matched text highImpactWords.
Proof.
  intros text. unfold calculateRelevanceScore. rewrite !add_matches_sum.
  fold (scoredText headline summary). fold text.
  destruct (includes text (toLowerCase symbol)); lia.
Qed.

Lemma calculateRelevanceScore_range
    (headline : string) (summary : option string) (symbol : string) :
  0 <= calculateRelevanceScore headline summary symbol <= 60.
Proof.
  rewrite calculateRelevanceScore_sum.
  pose proof (matched_bounds (scoredText headline summary) keywords) as Hk.
  pose proof (matched_bounds (scoredText headline summary) highImpactWords) as Hh.
  change (Z.of_nat (length keywords)) with 7 in Hk.
  change (Z.of_nat (length highImpactWords)) with 5 in Hh.
  destruct (includes (scoredText headline summary) (toLowerCase symbol)); lia.
Qed.

(** C7, as amended.  The score is the plain sum of its three
    contributions, 10 for the symbol, 5 for every keyword and 3 for every
    high-impact word that occurs in the lowercased headline and summary;
    nothing clamps or rescales the sum, which therefore lies between 0
    and 60 = 10 + 5 * 7 + 3 * 5; the symbol with exactly two keywords and
    one high-impact word scores 23. *)
Theorem calculateRelevanceScore_additive
    (headline : string) (summary : option string) (symbol : string) :
  let text := scoredText headline summary in
  let bySymbol := if includes text (toLowerCase symbol) then 10 else 0 in
  calculateRelevanceScore headline summary symbol
    = bySymbol + 5 * matched text keywords + 3 * matched text highImpactWords
  /\ 0 <= calculateRelevanceScore headline summary symbol <= 60
  /\ (includes text (toLowerCase symbol) = true ->
      matched text keywords = 2 ->
      matched text highImpactWords = 1 ->
      calculateRelevanceScore headline summary symbol = 23).
Proof.
  intros text bySymbol.
  split; [apply calculateRelevanceScore_sum|].
  split; [apply calculateRelevanceScore_range|].
  intros Hs Hkw Hhi. rewrite calculateRelevanceScore_sum.
  fold text. rewrite Hs, Hkw, Hhi. reflexivity.
Qed.

(** The example of the specification: a headline with the symbol, two
    keywords and one high-impact word. *)
Example calculateRelevanceScore_23 :
  calculateRelevanceScore
    "AAPL earnings beat as revenue climbs, CEO says" (Some "Quarterly report") "aapl"
  = 23.
Proof. reflexivity. Qed.

(** C7, the counterexample: the score does have an upper bound. *)
Lemma calculateRelevanceScore_bounded :
  exists bound : Z,
    forall headline summary symbol,
      calculateRelevanceScore headline summary symbol <= bound.
Proof.
  exists 60. intros headline summary symbol.
  apply calculateRelevanceScore_range.
Qed.

(** The bound is reached, and a keyword counts once however often it occurs. *)
Example calculateRelevanceScore_max :
  calculateRelevanceScore
    "X earnings revenue profit loss guidance outlook forecast"
    (Some "ceo acquisition merger partnership lawsuit earnings earnings") "x"
  = 60.
Proof. reflexivity. Qed.

End RelevanceFacts.

(** ** Deduplication *)

Module DedupFacts.
Import News.

Lemma filterUnseen_sublist (seen : gset string) (articles : list Article) :
  filterUnseen seen articles `sublist_of` articles.
Proof.
  revert seen; induction articles as [|a rest IH]; intros seen; simpl.
  - constructor.
  - case_decide.
    + apply sublist_cons, IH.
    + apply sublist_skip, IH.
Qed.

Lemma filterUnseen_fresh (seen : gset string) (articles : list Article) (a : Article) :
  a ∈ filterUnseen seen articles -> dedupKey a ∉ seen.
Proof.
  revert seen; induction articles as [|b rest IH]; intros seen; simpl.
  - intros H. inversion H.
  - case_decide as Hb.
    + apply IH.
    + intros [->|Hin]%elem_of_cons; [exact Hb|].
      apply IH in Hin. set_solver.
Qed.

Lemma filterUnseen_keys_NoDup (seen : gset string) (articles : list Article) :
  NoDup (dedupKey <$> filterUnseen seen articles).
Proof.
  revert seen; induction articles as [|a rest IH]; intros seen; simpl.
  - constructor.
  - case_decide as Ha; [apply IH|].
    rewrite fmap_cons. constructor; [|apply IH].
    intros (b & Hk & Hb)%list_elem_of_fmap.
    apply filterUnseen_fresh in Hb. rewrite <- Hk in Hb. set_solver.
Qed.

(** Per key, what survives is the first article that carries it, unless
    the key was seen before. *)
Lemma filterUnseen_by_key (seen : gset string) (articles : list Article) (key : string) :
  filter (fun a => dedupKey a = key) (filterUnseen seen articles)
  = if decide (key ∈ seen) then []
    else take 1 (filter (fun a => dedupKey a = key) articles).
Proof.
  revert seen; induction articles as [|a rest IH]; intros seen; simpl.
  - case_decide; reflexivity.
  - destruct (decide (dedupKey a ∈ seen)) as [Ha|Ha].
    + rewrite IH. case_decide as Hk; [reflexivity|].
      rewrite filter_cons_False; [reflexivity|]. intros <-. contradiction.
    + destruct (decide (dedupKey a = key)) as [E|E].
      * rewrite !filter_cons_True by exact E. rewrite IH.
        rewrite decide_True by set_solver.
        rewrite decide_False by (rewrite <- E; exact Ha). reflexivity.
      * rewrite !filter_cons_False by exact E. rewrite IH.
        destruct (decide (key ∈ seen)) as [Hk|Hk].
        -- rewrite decide_True by set_solver. reflexivity.
        -- rewrite decide_False; [reflexivity|].
           rewrite elem_of_union, elem_of_singleton. intros [Hs|Hs]; congruence.
Qed.

(** C5, as amended.  The result keeps the order of the input; no two of
    its articles share the key (the first 50 characters of the lowercased
    headline); for every key it holds exactly the first article of the
    input with that key, so that articles whose headlines differ only
    after character 50 collapse to the first of them; and every key of the
    input survives, so that two articles are both represented exactly when
    their keys differ. *)
Theorem removeDuplicateArticles_first_seen (articles : list Article) :
  let unique := removeDuplicateArticles articles in
  unique `sublist_of` articles
  /\ NoDup (dedupKey <$> unique)
  /\ (forall key : string,
        filter (fun a => dedupKey a = key) unique
        = take 1 (filter (fun a => dedupKey a = key) articles))
  /\ (forall a : Article, a ∈ articles ->
        exists a', a' ∈ unique /\ dedupKey a' = dedupKey a).
Proof.
  intros unique. subst unique. unfold removeDuplicateArticles.
  assert (K : forall key : string,
             filter (fun a => dedupKey a = key) (filterUnseen ∅ articles)
             = take 1 (filter (fun a => dedupKey a = key) articles)).
  { intros key. rewrite filterUnseen_by_key. rewrite decide_False by set_solver.
    reflexivity. }
  split; [apply filterUnseen_sublist|].
  split; [apply filterUnseen_keys_NoDup|].
  split; [exact K|].
  intros a Ha.
  assert (Hf : a ∈ filter (fun b => dedupKey b = dedupKey a) articles).
  { apply list_elem_of_filter. split; [reflexivity|exact Ha]. }
  specialize (K (dedupKey a)).
  destruct (filter (fun b => dedupKey b = dedupKey a) articles) as [|a' l'] eqn:E.
  - inversion Hf.
  - simpl in K. exists a'.
    assert (Hin : a' ∈ filter (fun b => dedupKey b = dedupKey a) (filterUnseen ∅ articles)).
    { rewrite K. apply list_elem_of_here. }
    apply list_elem_of_filter in Hin. destruct Hin as [Hk Hin]. split; assumption.
Qed.

(** C5, the counterexample: two headlines that differ only in character
    51 have the same key, and the second article is dropped. *)
Lemma removeDuplicateArticles_drops_late_difference :
  String.eqb headlineA headlineB = false
  /\ substring0 50 headlineA = substring0 50 headlineB
  /\ removeDuplicateArticles [headlined headlineA; headlined headlineB]
     = [headlined headlineA].
Proof. vm_compute. repeat split. Qed.

(** Headlines that differ within the first 50 characters are both kept,
    and a duplicate from another provider is dropped. *)
Example removeDuplicateArticles_example :
  removeDuplicateArticles
    [ headlined "Apple beats estimates"; headlined "Apple misses estimates";
      ranked "APPLE BEATS ESTIMATES" 5 "tier2" 9 ]
  = [ headlined "Apple beats estimates"; headlined "Apple misses estimates" ].
Proof. vm_compute. reflexivity. Qed.

End DedupFacts.

(** ** Ranking *)

Module RankingFacts.
Import News.

(** *** The sort *)

Section ArraySortFacts.
Context {A : Type} (cmp : A -> A -> Z).

Local Abbreviation insert :=
  (fun sorted pivot => binaryInsert cmp (length sorted) pivot sorted).

(** The binary search cuts the sorted part in two and puts the pivot in
    between. *)
Lemma binaryInsert_cut (fuel : nat) (pivot : A) (l : list A) :
  exists l1 l2, l = (l1 ++ l2)%list
    /\ binaryInsert cmp fuel pivot l = (l1 ++ pivot :: l2)%list.
Proof.
  revert l. induction fuel as [|fuel IH]; intros l.
  - exists l, []. rewrite app_nil_r. destruct l; split; reflexivity.
  - destruct l as [|a l']; [exists [], []; split; reflexivity|].
    cbn [binaryInsert].
    pose proof (take_drop (length (a :: l') / 2) (a :: l')) as E.
    destruct (drop (length (a :: l') / 2) (a :: l')) as [|m upper].
    + exists (a :: l'), []. rewrite app_nil_r. split; reflexivity.
    + destruct (cmp pivot m <? 0).
      * destruct (IH (take (length (a :: l') / 2) (a :: l'))) as (l1 & l2 & E1 & ->).
        exists l1, (l2 ++ m :: upper)%list. rewrite <- E at 1. rewrite E1.
        rewrite <- !app_assoc. split; reflexivity.
      * destruct (IH upper) as (l1 & l2 & E1 & ->).
        exists (take (length (a :: l') / 2) (a :: l') ++ m :: l1)%list, l2.
        rewrite <- E at 1. rewrite E1. rewrite <- !app_assoc. split; reflexivity.
Qed.

(** The length of the sorted part is fuel enough: more changes nothing. *)
Lemma binaryInsert_fuel (fuel fuel' : nat) (pivot : A) (l : list A) :
  (length l <= fuel)%nat -> (length l <= fuel')%nat ->
  binaryInsert cmp fuel pivot l = binaryInsert cmp fuel' pivot l.
Proof.
  revert fuel' l. induction fuel as [|fuel IH]; intros fuel' l L L'.
  - destruct l; [destruct fuel'; reflexivity|simpl in L; lia].
  - destruct l as [|a l']; [destruct fuel'; reflexivity|].
    destruct fuel' as [|fuel']; [simpl in L'; lia|].
    cbn [binaryInsert].
    pose proof (take_drop (length (a :: l') / 2) (a :: l')) as E.
    assert (Lt : (length (take (length (a :: l') / 2) (a :: l')) < length (a :: l'))%nat).
    { rewrite length_take. pose proof (Nat.div_lt (length (a :: l')) 2).
      simpl length in *. lia. }
    destruct (drop (length (a :: l') / 2) (a :: l')) as [|m upper]; [reflexivity|].
    assert (Len : length (a :: l')
                  = (length (take (length (a :: l') / 2) (a :: l')) + S (length upper))%nat).
    { rewrite <- E at 1. rewrite length_app. reflexivity. }
    destruct (cmp pivot m <? 0).
    + rewrite (IH fuel'); [reflexivity|lia|lia].
    + rewrite (IH fuel'); [reflexivity|lia|lia].
Qed.

Lemma binaryInsert_Permutation (fuel : nat) (pivot : A) (l : list A) :
  binaryInsert cmp fuel pivot l ≡ₚ pivot :: l.
Proof.
  destruct (binaryInsert_cut fuel pivot l) as (l1 & l2 & -> & ->).
  symmetry. apply Permutation_middle.
Qed.

Lemma extendRun_app (isDescending : bool) (previous : A) (rest run remaining : list A) :
  extendRun cmp isDescending previous rest = (run, remaining) ->
  rest = (run ++ remaining)%list.
Proof.
  revert previous run remaining.
  induction rest as [|current rest IH]; intros previous run remaining; cbn [extendRun].
  - intros [= <- <-]. reflexivity.
  - destruct (if isDescending then _ else _); [intros [= <- <-]; reflexivity|].
    destruct (extendRun cmp isDescending current rest) as [run' remaining'] eqn:E.
    intros [= <- <-]. cbn. f_equal. eapply IH, E.
Qed.

Lemma countAndMakeRun_Permutation (l run remaining : list A) :
  countAndMakeRun cmp l = (run, remaining) -> (run ++ remaining)%list ≡ₚ l.
Proof.
  destruct l as [|x0 [|x1 rest]]; cbn [countAndMakeRun];
    [intros [= <- <-]; reflexivity..|].
  destruct (extendRun cmp _ x1 rest) as [run' remaining'] eqn:E.
  apply extendRun_app in E. subst rest.
  intros [= <- <-].
  destruct (cmp x1 x0 <? 0).
  - rewrite <- (Permutation_rev (x0 :: x1 :: run')). reflexivity.
  - reflexivity.
Qed.

Lemma fold_insert_Permutation (remaining sorted : list A) :
  fold_left insert remaining sorted ≡ₚ (sorted ++ remaining)%list.
Proof.
  revert sorted. induction remaining as [|pivot remaining IH]; intros sorted;
    cbn [fold_left]; [rewrite app_nil_r; reflexivity|].
  rewrite IH, binaryInsert_Permutation.
  rewrite <- Permutation_middle. reflexivity.
Qed.

Lemma arraySort_Permutation (l : list A) : arraySort cmp l ≡ₚ l.
Proof.
  unfold arraySort.
  destruct (countAndMakeRun cmp l) as [run remaining] eqn:E.
  rewrite fold_insert_Permutation. eapply countAndMakeRun_Permutation, E.
Qed.

End ArraySortFacts.

(** The sort only reads the comparator on the elements of the array. *)
Section ArraySortExt.
Context {A : Type} (cmp cmp' : A -> A -> Z).

Lemma binaryInsert_ext (fuel : nat) (pivot : A) (l : list A) :
  (forall y, y ∈ l -> cmp pivot y = cmp' pivot y) ->
  binaryInsert cmp fuel pivot l = binaryInsert cmp' fuel pivot l.
Proof.
  revert l. induction fuel as [|fuel IH]; intros l H; [destruct l; reflexivity|].
  destruct l as [|a l']; [reflexivity|]. cbn [binaryInsert].
  pose proof (take_drop (length (a :: l') / 2) (a :: l')) as E.
  destruct (drop (length (a :: l') / 2) (a :: l')) as [|m upper]; [reflexivity|].
  rewrite (H m) by (rewrite <- E, elem_of_app; right; left).
  destruct (cmp' pivot m <? 0).
  - rewrite IH; [reflexivity|]. intros y Hy. apply H.
    rewrite <- E, elem_of_app. left. exact Hy.
  - rewrite IH; [reflexivity|]. intros y Hy. apply H.
    rewrite <- E, elem_of_app. right. right. exact Hy.
Qed.

Lemma extendRun_ext (isDescending : bool) (previous : A) (rest : list A) :
  (forall x y, x ∈ previous :: rest -> y ∈ previous :: rest -> cmp x y = cmp' x y) ->
  extendRun cmp isDescending previous rest = extendRun cmp' isDescending previous rest.
Proof.
  revert previous. induction rest as [|current rest IH]; intros previous H;
    [reflexivity|].
  cbn [extendRun]. rewrite (H current previous) by (repeat constructor).
  rewrite IH; [reflexivity|].
  intros x y Hx Hy. apply H; right; assumption.
Qed.

Lemma countAndMakeRun_ext (l : list A) :
  (forall x y, x ∈ l -> y ∈ l -> cmp x y = cmp' x y) ->
  countAndMakeRun cmp l = countAndMakeRun cmp' l.
Proof.
  intros H. destruct l as [|x0 [|x1 rest]]; [reflexivity..|].
  cbn [countAndMakeRun]. rewrite (H x1 x0) by (repeat constructor).
  rewrite extendRun_ext; [reflexivity|].
  intros x y Hx Hy. apply H; right; assumption.
Qed.

Lemma fold_insert_ext (remaining sorted : list A) :
  (forall x y, x ∈ (sorted ++ remaining)%list -> y ∈ (sorted ++ remaining)%list ->
               cmp x y = cmp' x y) ->
  fold_left (fun sorted pivot => binaryInsert cmp (length sorted) pivot sorted)
            remaining sorted
  = fold_left (fun sorted pivot => binaryInsert cmp' (length sorted) pivot sorted)
              remaining sorted.
Proof.
  revert sorted. induction remaining as [|pivot remaining IH]; intros sorted H;
    [reflexivity|].
  cbn [fold_left]. rewrite (binaryInsert_ext _ pivot sorted).
  - assert (P : (binaryInsert cmp' (length sorted) pivot sorted ++ remaining)%list
               ≡ₚ (sorted ++ pivot :: remaining)%list).
    { rewrite binaryInsert_Permutation, <- Permutation_middle. reflexivity. }
    apply IH. intros x y Hx Hy. apply H; rewrite <- P; assumption.
  - intros y Hy. apply H; rewrite elem_of_app; [right; left|left; exact Hy].
Qed.

Lemma arraySort_ext (l : list A) :
  (forall x y, x ∈ l -> y ∈ l -> cmp x y = cmp' x y) ->
  arraySort cmp l = arraySort cmp' l.
Proof.
  intros H. unfold arraySort. rewrite (countAndMakeRun_ext l H).
  destruct (countAndMakeRun cmp' l) as [run remaining] eqn:E.
  apply fold_insert_ext. intros x y Hx Hy.
  apply H; rewrite <- (countAndMakeRun_Permutation cmp' l run remaining E); assumption.
Qed.

End ArraySortExt.

(** A comparator that orders: [cmp x y <= 0] reads "x may stand before
    y". *)
Section ConsistentComparator.
Context {A : Type} (cmp : A -> A -> Z).
Hypothesis cmp_opp : forall x y, cmp y x = - cmp x y.
Hypothesis cmp_trans : forall x y z, cmp x y <= 0 -> cmp y z <= 0 -> cmp x z <= 0.

Local Abbreviation before := (fun x y : A => cmp x y <= 0).
Local Abbreviation insert :=
  (fun sorted pivot => binaryInsert cmp (length sorted) pivot sorted).

Lemma cmp_lt_le (x y z : A) : cmp x y < 0 -> cmp y z <= 0 -> cmp x z < 0.
Proof.
  intros L1 L2. destruct (Z.lt_ge_cases (cmp x z) 0) as [|G]; [assumption|].
  exfalso. assert (cmp z x <= 0) by (rewrite cmp_opp; lia).
  pose proof (cmp_trans y z x L2 ltac:(assumption)) as T.
  rewrite cmp_opp in T. lia.
Qed.

Lemma cmp_equal (x y z : A) : cmp x y = 0 -> cmp x z = 0 -> cmp y z = 0.
Proof.
  intros E1 E2.
  assert (cmp y x <= 0) by (rewrite cmp_opp; lia).
  assert (cmp z x <= 0) by (rewrite cmp_opp; lia).
  pose proof (cmp_trans y x z ltac:(assumption) ltac:(lia)).
  pose proof (cmp_trans z x y ltac:(assumption) ltac:(lia)) as T.
  rewrite cmp_opp in T. lia.
Qed.

(** The place of the pivot: after everything that may stand before it. *)
Lemma binaryInsert_place (fuel : nat) (pivot : A) (l : list A) :
  StronglySorted before l ->
  exists l1 l2, l = (l1 ++ l2)%list
    /\ binaryInsert cmp fuel pivot l = (l1 ++ pivot :: l2)%list
    /\ ((length l <= fuel)%nat -> Forall (fun x => 0 <= cmp pivot x) l1)
    /\ Forall (fun y => cmp pivot y < 0) l2.
Proof.
  revert l. induction fuel as [|fuel IH]; intros l S.
  - exists l, []. rewrite app_nil_r. split; [reflexivity|].
    split; [destruct l; reflexivity|]. split; [|constructor].
    intros Le. destruct l; [constructor|simpl in Le; lia].
  - destruct l as [|a l']; [exists [], []; repeat split; constructor|].
    cbn [binaryInsert].
    pose proof (take_drop (length (a :: l') / 2) (a :: l')) as E.
    assert (Lt : (length (take (length (a :: l') / 2) (a :: l')) < length (a :: l'))%nat).
    { rewrite length_take. pose proof (Nat.div_lt (length (a :: l')) 2).
      simpl length in *. lia. }
    destruct (drop (length (a :: l') / 2) (a :: l')) as [|m upper].
    { exfalso. rewrite app_nil_r in E. rewrite E in Lt. lia. }
    rewrite <- E in S. apply StronglySorted_app in S as (S12 & S1 & S2).
    apply StronglySorted_inv in S2 as [S2 Sm]. rewrite Forall_forall in Sm.
    assert (Len : length (a :: l')
                  = (length (take (length (a :: l') / 2) (a :: l')) + S (length upper))%nat).
    { rewrite <- E at 1. rewrite length_app. reflexivity. }
    destruct (Z.ltb_spec (cmp pivot m) 0) as [L|G].
    + destruct (IH _ S1) as (l1 & l2 & E1 & -> & F1 & F2).
      exists l1, (l2 ++ m :: upper)%list. rewrite <- E at 1. rewrite E1.
      rewrite <- !app_assoc. repeat split.
      * intros Le. apply F1. lia.
      * apply Forall_app. split; [exact F2|]. constructor; [exact L|].
        apply Forall_forall. intros y Hy. apply (cmp_lt_le pivot m y L).
        apply Sm. exact Hy.
    + destruct (IH _ S2) as (l1 & l2 & E1 & -> & F1 & F2).
      exists (take (length (a :: l') / 2) (a :: l') ++ m :: l1)%list, l2.
      rewrite <- E at 1. rewrite E1. rewrite <- !app_assoc. repeat split.
      * intros Le. apply Forall_app. split; [|constructor; [exact G|]].
        -- apply Forall_forall. intros x Hx.
           assert (cmp x m <= 0) by (apply S12; [exact Hx|left]).
           assert (cmp m pivot <= 0) by (rewrite cmp_opp; lia).
           pose proof (cmp_trans x m pivot ltac:(assumption) ltac:(assumption)) as T.
           rewrite cmp_opp in T. lia.
        -- apply F1. lia.
      * exact F2.
Qed.

Lemma insert_StronglySorted (pivot : A) (l : list A) :
  StronglySorted before l -> StronglySorted before (insert l pivot).
Proof.
  intros S.
  destruct (binaryInsert_place (length l) pivot l S) as (l1 & l2 & E & -> & F1 & F2).
  specialize (F1 (le_n _)). subst l.
  apply StronglySorted_app in S as (S12 & S1 & S2).
  apply StronglySorted_app_2; [|exact S1|].
  - intros x1 x2 H1 H2. apply elem_of_cons in H2 as [->|H2]; [|apply S12; assumption].
    rewrite Forall_forall in F1. specialize (F1 _ H1). rewrite cmp_opp. lia.
  - constructor; [exact S2|]. eapply Forall_impl; [exact F2|].
    intros y L. cbv beta in *. lia.
Qed.

Lemma filter_none (P : A -> bool) (l : list A) :
  Forall (fun y => P y = false) l -> List.filter P l = [].
Proof.
  induction 1 as [|y l Hy _ IH]; [reflexivity|]. cbn [List.filter].
  rewrite Hy. exact IH.
Qed.

(** The pivot goes behind the elements the comparator takes for its
    equals. *)
Lemma insert_stable (x pivot : A) (l : list A) :
  StronglySorted before l ->
  List.filter (fun a => cmp x a =? 0) (insert l pivot)
  = List.filter (fun a => cmp x a =? 0) (l ++ [pivot])%list.
Proof.
  intros S.
  destruct (binaryInsert_place (length l) pivot l S) as (l1 & l2 & E & -> & _ & F2).
  subst l. rewrite !List.filter_app. cbn [List.filter].
  destruct (Z.eqb_spec (cmp x pivot) 0) as [Zp|_];
    [|rewrite app_nil_r; reflexivity].
  rewrite (filter_none _ l2); [rewrite app_nil_r; reflexivity|].
  eapply Forall_impl; [exact F2|]. intros y L. cbv beta in *.
  apply Z.eqb_neq. intros Zy. pose proof (cmp_equal x pivot y Zp Zy). lia.
Qed.

Lemma fold_insert_StronglySorted (remaining sorted : list A) :
  StronglySorted before sorted ->
  StronglySorted before (fold_left insert remaining sorted).
Proof.
  revert sorted. induction remaining as [|pivot remaining IH]; intros sorted S;
    [exact S|].
  cbn [fold_left]. apply IH, insert_StronglySorted, S.
Qed.

Lemma fold_insert_stable (x : A) (remaining sorted : list A) :
  StronglySorted before sorted ->
  List.filter (fun a => cmp x a =? 0) (fold_left insert remaining sorted)
  = List.filter (fun a => cmp x a =? 0) (sorted ++ remaining)%list.
Proof.
  revert sorted. induction remaining as [|pivot remaining IH]; intros sorted S;
    [rewrite app_nil_r; reflexivity|].
  cbn [fold_left]. rewrite IH by apply insert_StronglySorted, S.
  rewrite List.filter_app, insert_stable by exact S.
  rewrite <- List.filter_app, <- app_assoc. reflexivity.
Qed.

(** The run that starts the array. *)
Local Abbreviation step :=
  (fun (isDescending : bool) (x y : A) =>
     if isDescending then cmp y x < 0 else 0 <= cmp y x).

Lemma extendRun_Sorted (isDescending : bool) (previous : A)
    (rest run remaining : list A) :
  extendRun cmp isDescending previous rest = (run, remaining) ->
  Sorted (step isDescending) (previous :: run).
Proof.
  revert previous run remaining.
  induction rest as [|current rest IH]; intros previous run remaining;
    cbn [extendRun].
  - intros [= <- <-]. repeat constructor.
  - destruct (extendRun cmp isDescending current rest) as [run' remaining'] eqn:E.
    specialize (IH _ _ _ E).
    destruct isDescending.
    + destruct (Z.leb_spec 0 (cmp current previous)); intros [= <- <-];
        [repeat constructor|constructor; [exact IH|constructor; assumption]].
    + destruct (Z.ltb_spec (cmp current previous) 0); intros [= <- <-];
        [repeat constructor|constructor; [exact IH|constructor; assumption]].
Qed.

Lemma step_StronglySorted (isDescending : bool) (l : list A) :
  Sorted (step isDescending) l -> StronglySorted (step isDescending) l.
Proof.
  apply Sorted_StronglySorted. intros x y z. destruct isDescending; intros L1 L2.
  - apply (cmp_lt_le z y x L2). lia.
  - rewrite (cmp_opp x y) in L1. rewrite (cmp_opp y z) in L2.
    rewrite (cmp_opp x z). pose proof (cmp_trans x y z). lia.
Qed.

Lemma StronglySorted_rev (R R' : A -> A -> Prop) (l : list A) :
  (forall x y, R x y -> R' y x) ->
  StronglySorted R l -> StronglySorted R' (rev l).
Proof.
  intros HR. induction 1 as [|x l _ IH F]; [constructor|].
  cbn [rev]. apply StronglySorted_app_2; [|exact IH|repeat constructor].
  intros x1 x2 H1 H2. apply list_elem_of_singleton in H2 as ->.
  apply HR. rewrite Forall_forall in F. apply F.
  apply list_elem_of_In, in_rev, list_elem_of_In. exact H1.
Qed.

Lemma StronglySorted_weaken (R R' : A -> A -> Prop) (l : list A) :
  (forall x y, R x y -> R' x y) ->
  StronglySorted R l -> StronglySorted R' l.
Proof.
  intros HR. induction 1 as [|x l _ IH F]; constructor; [exact IH|].
  eapply Forall_impl; [exact F|]. intros y. apply HR.
Qed.

Lemma countAndMakeRun_StronglySorted (l run remaining : list A) :
  countAndMakeRun cmp l = (run, remaining) -> StronglySorted before run.
Proof.
  destruct l as [|x0 [|x1 rest]]; cbn [countAndMakeRun];
    [intros [= <- <-]; repeat constructor..|].
  destruct (extendRun cmp _ x1 rest) as [run' remaining'] eqn:E.
  apply extendRun_Sorted in E.
  assert (S : StronglySorted (step (cmp x1 x0 <? 0)) (x0 :: x1 :: run')).
  { apply step_StronglySorted. constructor; [exact E|]. constructor.
    destruct (Z.ltb_spec (cmp x1 x0) 0); assumption. }
  intros H. apply pair_equal_spec in H as [<- <-]. destruct (cmp x1 x0 <? 0).
  - eapply StronglySorted_rev; [|exact S]. intros x y L. cbv beta in *. lia.
  - eapply StronglySorted_weaken; [|exact S]. intros x y L. cbv beta in *.
    rewrite cmp_opp. lia.
Qed.

Lemma descending_stable (x : A) (l : list A) :
  StronglySorted (step true) l ->
  List.filter (fun a => cmp x a =? 0) (rev l)
  = List.filter (fun a => cmp x a =? 0) l.
Proof.
  induction 1 as [|a l _ IH F]; [reflexivity|].
  cbn [rev]. rewrite List.filter_app, IH. cbn [List.filter].
  destruct (Z.eqb_spec (cmp x a) 0) as [Za|_]; [|apply app_nil_r].
  rewrite (filter_none _ l); [reflexivity|].
  eapply Forall_impl; [exact F|]. intros y L. cbv beta in *.
  apply Z.eqb_neq. intros Zy. pose proof (cmp_equal x y a Zy Za). lia.
Qed.

Lemma countAndMakeRun_stable (x : A) (l run remaining : list A) :
  countAndMakeRun cmp l = (run, remaining) ->
  List.filter (fun a => cmp x a =? 0) (run ++ remaining)%list
  = List.filter (fun a => cmp x a =? 0) l.
Proof.
  destruct l as [|x0 [|x1 rest]]; cbn [countAndMakeRun];
    [intros [= <- <-]; reflexivity..|].
  destruct (extendRun cmp _ x1 rest) as [run' remaining'] eqn:E.
  pose proof (extendRun_app _ _ _ _ _ _ E) as ->.
  apply extendRun_Sorted in E.
  intros H. apply pair_equal_spec in H as [<- <-].
  destruct (cmp x1 x0 <? 0) eqn:D; [|reflexivity].
  rewrite List.filter_app, descending_stable.
  - rewrite <- List.filter_app. reflexivity.
  - apply (step_StronglySorted true). constructor; [exact E|]. constructor.
    apply Z.ltb_lt. exact D.
Qed.

(** The sorted array is in order, whatever the array. *)
Lemma arraySort_StronglySorted (l : list A) :
  StronglySorted before (arraySort cmp l).
Proof.
  unfold arraySort. destruct (countAndMakeRun cmp l) as [run remaining] eqn:E.
  apply fold_insert_StronglySorted. eapply countAndMakeRun_StronglySorted, E.
Qed.

(** The sort is stable. *)
Lemma arraySort_stable (x : A) (l : list A) :
  List.filter (fun a => cmp x a =? 0) (arraySort cmp l)
  = List.filter (fun a => cmp x a =? 0) l.
Proof.
  unfold arraySort. destruct (countAndMakeRun cmp l) as [run remaining] eqn:E.
  rewrite fold_insert_stable by (eapply countAndMakeRun_StronglySorted, E).
  eapply countAndMakeRun_stable, E.
Qed.

Lemma extendRun_all (previous : A) (rest : list A) :
  StronglySorted before (previous :: rest) ->
  extendRun cmp false previous rest = (rest, []).
Proof.
  revert previous. induction rest as [|current rest IH]; intros previous S;
    [reflexivity|].
  cbn [extendRun]. apply StronglySorted_inv in S as [S F].
  apply Forall_inv in F. cbv beta in F.
  destruct (Z.ltb_spec (cmp current previous) 0) as [L|_];
    [rewrite cmp_opp in L; lia|].
  rewrite (IH _ S). reflexivity.
Qed.

(** An array that is in order stays as it is. *)
Lemma arraySort_sorted (l : list A) :
  StronglySorted before l -> arraySort cmp l = l.
Proof.
  intros S. unfold arraySort.
  destruct l as [|x0 [|x1 rest]]; [reflexivity..|].
  cbn [countAndMakeRun].
  pose proof S as S'. apply StronglySorted_inv in S' as [S1 F].
  apply Forall_inv in F. cbv beta in F.
  destruct (Z.ltb_spec (cmp x1 x0) 0) as [L|_]; [rewrite cmp_opp in L; lia|].
  rewrite (extendRun_all _ _ S1). reflexivity.
Qed.

End ConsistentComparator.

Lemma StronglySorted_lookup_lt {A} (R : A -> A -> Prop) (l : list A)
    (i j : nat) (a b : A) :
  StronglySorted R l -> l !! i = Some a -> l !! j = Some b -> (i < j)%nat -> R a b.
Proof.
  intros Hs. revert i j. induction Hs as [|x l Hs IH Hall]; intros i j Hi Hj Hlt.
  - discriminate.
  - destruct j as [|j]; [lia|]. destruct i as [|i]; simpl in Hi, Hj.
    + injection Hi as <-. rewrite Forall_forall in Hall. apply Hall.
      eapply list_elem_of_lookup_2. exact Hj.
    + eapply IH; eauto. lia.
Qed.

(** *** The comparator *)

Lemma rankDifference_ranksBefore (a b : Article) :
  rankDifference a b <= 0 <-> ranksBefore a b.
Proof.
  unfold rankDifference, ranksBefore.
  destruct (Z.eqb_spec (relevanceScore b) (relevanceScore a)); simpl.
  - destruct (Z.eqb_spec (tierNumber (sourceTier b)) (tierNumber (sourceTier a)));
      simpl; lia.
  - lia.
Qed.

Lemma rankDifference_opp (a b : Article) :
  rankDifference b a = - rankDifference a b.
Proof.
  unfold rankDifference.
  destruct (Z.eqb_spec (relevanceScore b) (relevanceScore a)),
           (Z.eqb_spec (relevanceScore a) (relevanceScore b)); simpl; try lia.
  destruct (Z.eqb_spec (tierNumber (sourceTier b)) (tierNumber (sourceTier a))),
           (Z.eqb_spec (tierNumber (sourceTier a)) (tierNumber (sourceTier b)));
    simpl; lia.
Qed.

Lemma rankDifference_trans (a b c : Article) :
  rankDifference a b <= 0 -> rankDifference b c <= 0 -> rankDifference a c <= 0.
Proof.
  rewrite !rankDifference_ranksBefore. unfold ranksBefore. lia.
Qed.

Lemma rankDifference_zero (a b : Article) :
  rankDifference a b = 0
  <-> relevanceScore a = relevanceScore b
      /\ tierNumber (sourceTier a) = tierNumber (sourceTier b)
      /\ timeOf a = timeOf b.
Proof.
  unfold rankDifference.
  destruct (Z.eqb_spec (relevanceScore b) (relevanceScore a)); simpl; [|lia].
  destruct (Z.eqb_spec (tierNumber (sourceTier b)) (tierNumber (sourceTier a)));
    simpl; lia.
Qed.

Lemma tierNumber_values :
  tierNumber "tier1" = 3 /\ tierNumber "tier2" = 2 /\ tierNumber "tier3" = 1
  /\ forall t, t <> "tier1" -> t <> "tier2" -> tierNumber t = 1.
Proof.
  repeat split. intros t H1 H2. unfold tierNumber.
  destruct (String.eqb_spec t "tier1"); [contradiction|].
  destruct (String.eqb_spec t "tier2"); [contradiction|]. reflexivity.
Qed.

(** The weight of a tier that is no inherited name is a number. *)
Lemma tierWeight_number (t : string) :
  array_includes objectPrototypeNames t = false ->
  tierWeight t = Weight (tierNumber t).
Proof.
  intros N. unfold tierWeight, tierNumber. rewrite N.
  destruct (String.eqb t "tier1"); [reflexivity|].
  destruct (String.eqb t "tier2"); [reflexivity|].
  destruct (String.eqb t "tier3"); reflexivity.
Qed.

(** On sortable articles the comparator gives a number. *)
Lemma compareArticles_sortable (a b : Article) :
  sortable a = true -> sortable b = true ->
  compareArticles a b = Some (rankDifference a b).
Proof.
  unfold sortable, compareArticles, rankDifference, timeOf.
  destruct (publishedAt a) as [ta|]; [|discriminate].
  destruct (publishedAt b) as [tb|]; [|discriminate].
  intros Na Nb. apply negb_true_iff in Na, Nb.
  rewrite (tierWeight_number _ Na), (tierWeight_number _ Nb).
  destruct (negb (relevanceScore b =? relevanceScore a)); [reflexivity|].
  destruct (Z.eqb_spec (tierNumber (sourceTier b)) (tierNumber (sourceTier a)))
    as [E|N].
  - rewrite E, bool_decide_eq_true_2 by reflexivity. reflexivity.
  - rewrite bool_decide_eq_false_2 by congruence. reflexivity.
Qed.

Lemma sortArticlesByRelevance_sortable (articles : list Article) (symbol : string) :
  Forall (fun a => sortable a = true) articles ->
  sortArticlesByRelevance articles symbol = arraySort rankDifference articles.
Proof.
  intros F. rewrite Forall_forall in F. apply arraySort_ext.
  intros x y Hx Hy. unfold sortCompare.
  rewrite (compareArticles_sortable x y (F x Hx) (F y Hy)). reflexivity.
Qed.

(** Sortable articles come out in rank order. *)
Lemma sortArticlesByRelevance_StronglySorted (articles : list Article)
    (symbol : string) :
  Forall (fun a => sortable a = true) articles ->
  StronglySorted ranksBefore (sortArticlesByRelevance articles symbol).
Proof.
  intros F. rewrite (sortArticlesByRelevance_sortable _ _ F).
  eapply StronglySorted_weaken;
    [|apply (arraySort_StronglySorted rankDifference rankDifference_opp
               rankDifference_trans)].
  intros x y. apply rankDifference_ranksBefore.
Qed.

Lemma sortArticlesByRelevance_Permutation (articles : list Article)
    (symbol : string) :
  sortArticlesByRelevance articles symbol ≡ₚ articles.
Proof. apply arraySort_Permutation. Qed.

(** Sortable articles in rank order stay as they are. *)
Lemma sortArticlesByRelevance_fixed (articles : list Article) (symbol : string) :
  Forall (fun a => sortable a = true) articles ->
  StronglySorted ranksBefore articles ->
  sortArticlesByRelevance articles symbol = articles.
Proof.
  intros F S. rewrite (sortArticlesByRelevance_sortable _ _ F).
  apply (arraySort_sorted rankDifference rankDifference_opp).
  eapply StronglySorted_weaken; [|exact S].
  intros x y. apply rankDifference_ranksBefore.
Qed.

(** What rank order says of two sortable articles. *)
Lemma ranksBefore_sortable (a b : Article) :
  sortable a = true -> sortable b = true ->
  exists wa wb ta tb,
    tierWeight (sourceTier a) = Weight wa /\ tierWeight (sourceTier b) = Weight wb
    /\ publishedAt a = Parses ta /\ publishedAt b = Parses tb
    /\ (ranksBefore a b <->
        relevanceScore b < relevanceScore a
        \/ (relevanceScore b = relevanceScore a
            /\ (wb < wa \/ (wb = wa /\ tb <= ta)))).
Proof.
  unfold sortable, ranksBefore, timeOf.
  destruct (publishedAt a) as [ta|]; [|discriminate].
  destruct (publishedAt b) as [tb|]; [|discriminate].
  intros Na Nb. apply negb_true_iff in Na, Nb.
  exists (tierNumber (sourceTier a)), (tierNumber (sourceTier b)), ta, tb.
  rewrite (tierWeight_number _ Na), (tierWeight_number _ Nb). simpl.
  repeat split; tauto.
Qed.

(** The adapters hand out tiers that are no inherited names; an article
    of theirs is sortable when its date parses. *)
Lemma sortable_tier (a : Article) (time : Z) :
  publishedAt a = Parses time ->
  sourceTier a ∈ ["tier1"; "tier2"; "tier3"] ->
  sortable a = true.
Proof.
  intros P T. unfold sortable. rewrite P.
  apply list_elem_of_In in T. simpl in T.
  destruct T as [<-|[<-|[<-|[]]]]; reflexivity.
Qed.

(** C6.  The ranking breaks on a date that [Date] does not parse, as the
    Alpha Vantage adapter stores it.  [olderArticle], [undatedArticle]
    and [newerArticle] have the same score and tier; the comparator
    gives [NaN] on the undated article against either neighbour, while
    it would put the newer article before the older one; the sort
    leaves the three as they are, the older article before the newer
    one.  Without the undated article in between the newer one goes
    first.  In [getComprehensiveNews], two Alpha Vantage articles of
    equal score stay in the order of the feed, the older one first. *)
Theorem sortArticlesByRelevance_unparsed_date :
  relevanceScore olderArticle = relevanceScore newerArticle
  /\ relevanceScore olderArticle = relevanceScore undatedArticle
  /\ tierWeight (sourceTier olderArticle) = Weight 2
  /\ tierWeight (sourceTier undatedArticle) = Weight 2
  /\ tierWeight (sourceTier newerArticle) = Weight 2
  /\ publishedAt olderArticle = Parses 1714400000000
  /\ publishedAt newerArticle = Parses 1714500000000
  /\ compareArticles olderArticle undatedArticle = None
  /\ compareArticles undatedArticle newerArticle = None
  /\ compareArticles olderArticle newerArticle = Some 100000000
  /\ sortArticlesByRelevance [olderArticle; undatedArticle; newerArticle] "AAPL"
     = [olderArticle; undatedArticle; newerArticle]
  /\ sortArticlesByRelevance [olderArticle; newerArticle] "AAPL"
     = [newerArticle; olderArticle]
  /\ exists first second,
       getComprehensiveNews alphaVantageOnly (Text "AAPL")
       = [Ranked first; Ranked second]
       /\ relevanceScore first = relevanceScore second
       /\ sourceTier first = sourceTier second
       /\ publishedAt first = Unparsed "20240501T120000"
       /\ publishedAt second = Unparsed "20240502T120000".
Proof.
  repeat split; try (vm_compute; reflexivity).
  eexists _, _. split; [vm_compute; reflexivity|].
  repeat split; vm_compute; reflexivity.
Qed.

(** A tier that is a name inherited from [Object.prototype] weighs no
    number: against another tier the comparator gives [NaN], against
    the same tier it compares the dates. *)
Example compareArticles_inherited_tier :
  tierWeight "constructor" = Inherited "constructor"
  /\ compareArticles (ranked "a" 10 "constructor" 5) (ranked "b" 10 "tier1" 5) = None
  /\ compareArticles (ranked "a" 10 "constructor" 5) (ranked "b" 10 "constructor" 7)
     = Some 2
  /\ sortable (ranked "a" 10 "constructor" 5) = false.
Proof. repeat split. Qed.

(** The three tie-breaks at work. *)
Example sortArticlesByRelevance_example :
  headline <$>
    sortArticlesByRelevance
      [ ranked "old tier1" 10 "tier1" 100; ranked "tier3" 10 "tier3" 900;
        ranked "top" 23 "tier3" 1; ranked "new tier1" 10 "tier1" 200;
        ranked "tier2" 10 "tier2" 500; ranked "unknown tier" 10 "blog" 950 ]
      "AAPL"
  = ["top"; "new tier1"; "old tier1"; "tier2"; "unknown tier"; "tier3"].
Proof. vm_compute. reflexivity. Qed.

End RankingFacts.

(** ** The news fan-out *)

Module NewsFacts.
Import News.

Lemma collectFulfilled_from (acc : list Article)
    (newsSources : list (Settled (list Article))) :
  fold_left
    (fun allArticles result =>
       match result with
       | Fulfilled value => (allArticles ++ value)%list
       | Rejected _ => allArticles
       end)
    newsSources acc
  = (acc ++ collectFulfilled newsSources)%list.
Proof.
  unfold collectFulfilled.
  revert acc; induction newsSources as [|r rest IH]; intros acc; simpl.
  - rewrite app_nil_r. reflexivity.
  - destruct r as [value|reason].
    + rewrite IH. rewrite (IH value). rewrite app_assoc. reflexivity.
    + apply IH.
Qed.

Lemma collectFulfilled_cons (r : Settled (list Article))
    (rest : list (Settled (list Article))) :
  collectFulfilled (r :: rest)
  = (match r with Fulfilled value => value | Rejected _ => [] end
     ++ collectFulfilled rest)%list.
Proof.
  unfold collectFulfilled at 1. simpl.
  destruct r; rewrite collectFulfilled_from; reflexivity.
Qed.

(** A rejected promise and a promise fulfilled with the empty array add
    the same to the merged list: nothing; the other results are kept. *)
Lemma collectFulfilled_failure (before after : list (Settled (list Article)))
    (reason : string) :
  collectFulfilled (before ++ Rejected reason :: after)
  = collectFulfilled (before ++ after)
  /\ collectFulfilled (before ++ Fulfilled [] :: after)
     = collectFulfilled (before ++ after).
Proof.
  induction before as [|r before [IH1 IH2]]; simpl.
  - rewrite !collectFulfilled_cons. split; reflexivity.
  - rewrite !collectFulfilled_cons, IH1, IH2. split; reflexivity.
Qed.

Lemma settle_adapter (key : option string) (request : Completion (list Article)) :
  settle (adapter key request) = Fulfilled (contribution (key, request)).
Proof.
  unfold adapter, contribution. simpl.
  destruct (truthyText key); simpl; [|reflexivity].
  destruct request; reflexivity.
Qed.

Lemma newsSourcesOf_contributions (w : NewsWorld) (symbol : string) :
  collectFulfilled (newsSourcesOf w (companyNameOf symbol) symbol)
  = concat (contribution <$> adapterCalls w symbol).
Proof.
  unfold newsSourcesOf, getNewsAPIArticles, getFinnhubNews, getAlphaVantageNews,
    getPolygonNews, adapterCalls.
  rewrite !collectFulfilled_cons.
  rewrite !settle_adapter. reflexivity.
Qed.

(** An adapter never rejects: whatever its request does, it resolves to a
    list of articles. *)
Lemma adapter_resolves (key : option string) (request : Completion (list Article)) :
  adapter key request = Normal (contribution (key, request)).
Proof.
  unfold adapter, contribution. simpl.
  destruct (truthyText key); simpl; [|reflexivity].
  destruct request; reflexivity.
Qed.

(** One article without a title makes the mapping throw, and the adapter
    then answers with the empty list, not with the articles before it. *)
Example getFinnhubNews_untitled :
  getFinnhubNews
    {| newsApiKey := None; finnhubKey := Some "finnhub-key";
       alphavantageKey := None; polygonKey := None;
       newsApiResponse := fun _ _ => Throw "unreachable";
       finnhubResponse := fun _ =>
         Normal (finnhubSample ++
                 [ {| fhHeadline := None; fhSummary := None;
                      fhUrl := "https://example.com/x"; fhDatetime := Some 0 |} ])%list;
       alphaVantageFeed := fun _ => Throw "unreachable";
       polygonResults := fun _ => Throw "unreachable";
       now := "2024-05-01T12:00:00.000Z" |}
    "AAPL"
  = Normal [].
Proof. reflexivity. Qed.

(** The score of an article is the relevance score of its headline and
    of the summary the provider sent. *)
Lemma finnhubArticle_relevanceScore (symbol : string) (raw : FinnhubArticle)
    (article : Article) :
  finnhubArticle symbol raw = Normal article ->
  fhHeadline raw = Some (headline article)
  /\ relevanceScore article
     = Relevance.calculateRelevanceScore (headline article) (fhSummary raw) symbol
  /\ 0 <= relevanceScore article <= 60.
Proof.
  unfold finnhubArticle.
  destruct (toISOString (fhDatetime raw)) as [published|]; simpl; [|discriminate].
  destruct (fhHeadline raw) as [title|]; simpl; [|discriminate].
  intros [= <-]. simpl. split; [reflexivity|]. split; [reflexivity|].
  apply RelevanceFacts.calculateRelevanceScore_range.
Qed.

(** For a symbol that is a string the [try] block runs to its end. *)
Lemma getComprehensiveNews_text (w : NewsWorld) (symbol : string) :
  getComprehensiveNews w (Text symbol)
  = Ranked <$>
      take 25
        (sortArticlesByRelevance
           (removeDuplicateArticles (concat (contribution <$> adapterCalls w symbol)))
           symbol).
Proof.
  unfold getComprehensiveNews, getComprehensiveNewsBody. simpl.
  unfold reconcile. fold (companyNameOf symbol).
  rewrite newsSourcesOf_contributions. reflexivity.
Qed.

Lemma contribution_succeeds (articles : list Article)
    (call : option string * Completion (list Article)) :
  succeedsWith articles call -> contribution call = articles.
Proof. intros [Hk Hr]. unfold contribution. rewrite Hk, Hr. reflexivity. Qed.

Lemma contribution_fails (call : option string * Completion (list Article)) :
  fails call -> contribution call = [].
Proof.
  intros [Hk|[m Hr]]; unfold contribution.
  - rewrite Hk. reflexivity.
  - rewrite Hr. destruct (truthyText call.1); reflexivity.
Qed.

Lemma all_fail_concat (calls : list (option string * Completion (list Article))) :
  (forall (j : nat) call, calls !! j = Some call -> fails call) ->
  concat (contribution <$> calls) = [].
Proof.
  induction calls as [|c calls IH]; intros Hall; [reflexivity|].
  rewrite fmap_cons, concat_cons.
  rewrite (contribution_fails c) by (apply (Hall 0%nat); reflexivity).
  apply IH. intros j call Hj. apply (Hall (S j)). exact Hj.
Qed.

Lemma onlySuccess_concat (calls : list (option string * Completion (list Article)))
    (articles : list Article) :
  onlySuccess calls articles -> concat (contribution <$> calls) = articles.
Proof.
  intros (i & call & Hi & Hok & Hothers).
  revert i Hi Hothers. induction calls as [|c calls IH]; intros i Hi Hothers.
  - discriminate.
  - rewrite fmap_cons, concat_cons. destruct i as [|i]; simpl in Hi.
    + injection Hi as ->. rewrite (contribution_succeeds articles call Hok).
      rewrite all_fail_concat; [apply app_nil_r|].
      intros j c' Hj. apply (Hothers (S j)); [lia|exact Hj].
    + rewrite (contribution_fails c) by (apply (Hothers 0%nat); [lia|reflexivity]).
      apply (IH i Hi). intros j c' Hne Hj.
      apply (Hothers (S j)); [lia|exact Hj].
Qed.

Lemma removeDuplicateArticles_nonempty (articles : list Article) :
  articles <> [] -> removeDuplicateArticles articles <> [].
Proof.
  destruct articles as [|a rest]; [congruence|]. intros _.
  unfold removeDuplicateArticles. simpl.
  rewrite decide_False by apply not_elem_of_empty. discriminate.
Qed.

Lemma sortArticlesByRelevance_length (articles : list Article) (symbol : string) :
  length (sortArticlesByRelevance articles symbol) = length articles.
Proof. apply Permutation_length, RankingFacts.arraySort_Permutation. Qed.

(** C4.  The merged list is built from what every adapter call
    contributes, its articles or nothing, failed or not; and when one call
    alone succeeds, with [articles], the result is those articles,
    deduplicated, ranked and cut to 25: not the empty list unless
    [articles] is empty, and no error. *)
Theorem getComprehensiveNews_settle_all
    (w : NewsWorld) (symbol : string) (articles : list Article) :
  getComprehensiveNews w (Text symbol)
  = Ranked <$>
      take 25
        (sortArticlesByRelevance
           (removeDuplicateArticles (concat (contribution <$> adapterCalls w symbol)))
           symbol)
  /\ (onlySuccess (adapterCalls w symbol) articles ->
      getComprehensiveNews w (Text symbol)
      = Ranked <$>
          take 25 (sortArticlesByRelevance (removeDuplicateArticles articles) symbol)
      /\ (articles <> [] -> getComprehensiveNews w (Text symbol) <> [])).
Proof.
  split; [apply getComprehensiveNews_text|].
  intros Honly. rewrite getComprehensiveNews_text.
  rewrite (onlySuccess_concat _ _ Honly).
  split; [reflexivity|].
  intros Hne Hnil. apply (removeDuplicateArticles_nonempty articles Hne).
  apply (f_equal length) in Hnil. rewrite length_fmap, length_take in Hnil.
  rewrite sortArticlesByRelevance_length in Hnil. simpl in Hnil.
  destruct (removeDuplicateArticles articles); [reflexivity|simpl in Hnil; lia].
Qed.

(** C4 at work: NewsAPI has no key, Alpha Vantage times out, Polygon
    answers 429, and the two Finnhub articles come back ranked. *)
Lemma getComprehensiveNews_settle_all_witness :
  onlySuccess (adapterCalls finnhubOnly "AAPL") finnhubSampleArticles
  /\ getComprehensiveNews finnhubOnly (Text "AAPL")
     = Ranked <$> rev finnhubSampleArticles.
Proof.
  assert (H : onlySuccess (adapterCalls finnhubOnly "AAPL") finnhubSampleArticles).
  { exists 1%nat, (Some "finnhub-key", Normal finnhubSampleArticles).
    split; [reflexivity|]. split; [split; reflexivity|].
    intros [|[|[|[|j]]]] call' Hne Hj; try congruence; simpl in Hj;
      try discriminate; injection Hj as <-.
    - left. reflexivity.
    - right. eexists. reflexivity.
    - right. eexists. reflexivity. }
  split; [exact H|].
  destruct (getComprehensiveNews_settle_all finnhubOnly "AAPL" finnhubSampleArticles)
    as [_ Hc].
  destruct (Hc H) as [-> _]. reflexivity.
Defined.

(** C10.  [getComprehensiveNews] always returns a list, of at most 25
    items: the ranked articles when its [try] block completes, which it
    does for every symbol that is a string, whatever the adapters meet;
    and the one placeholder article when the block throws. *)
Theorem getComprehensiveNews_total (w : NewsWorld) (symbol : TextArg) :
  (length (getComprehensiveNews w symbol) <= 25)%nat
  /\ (forall s : string, symbol = Text s ->
      exists items, getComprehensiveNewsBody w symbol = Normal items)
  /\ match getComprehensiveNewsBody w symbol with
     | Normal items =>
         getComprehensiveNews w symbol = items
         /\ exists articles : list Article, items = Ranked <$> articles
     | Throw _ =>
         exists m : MockArticle,
           getComprehensiveNews w symbol = [Placeholder m]
           /\ mockHeadline m = render symbol ++ " Market Analysis Update"
           /\ mockSource m = "Financial Analysis"
           /\ mockSentiment m = "neutral"
     end.
Proof.
  destruct symbol as [s|r].
  - split; [|split].
    + rewrite getComprehensiveNews_text, length_fmap, length_take. lia.
    + intros s' _. eexists. reflexivity.
    + unfold getComprehensiveNews. simpl. split; [reflexivity|]. eexists. reflexivity.
  - split; [simpl; lia|]. split; [intros s' [=]|].
    simpl. eexists. repeat split.
Qed.

(** The [catch] branch is reached by a symbol that is not a string, here
    the number 42. *)
Example getComprehensiveNews_placeholder :
  getComprehensiveNewsBody finnhubOnly (NotText "42")
  = Throw "symbol.toUpperCase is not a function"
  /\ (mockHeadline <$>
        omap (fun it => match it with Placeholder m => Some m | Ranked _ => None end)
          (getComprehensiveNews finnhubOnly (NotText "42")))
     = ["42 Market Analysis Update"].
Proof. split; reflexivity. Qed.

End NewsFacts.

(** ** Sentiment aggregation *)

Module SentimentFacts.
Import News Sentiment.

Lemma tally_fold (articles : list NewsItem) (d : Distribution) :
  fold_left tally articles d
  = {| positive := positive d + labelled "positive" articles;
       negative := negative d + labelled "negative" articles;
       neutral := neutral d + neitherLabel articles |}.
Proof.
  revert d; induction articles as [|a rest IH]; intros d.
  - destruct d. unfold labelled, neitherLabel. simpl. f_equal; lia.
  - cbn [fold_left]. rewrite IH. unfold tally, labelled, neitherLabel.
    cbn [List.filter].
    destruct (String.eqb_spec (itemSentiment a) "positive") as [E|E].
    + rewrite E. simpl. f_equal; lia.
    + destruct (String.eqb (itemSentiment a) "negative"); simpl; f_equal; lia.
Qed.

Lemma labels_partition (articles : list NewsItem) :
  labelled "positive" articles + labelled "negative" articles + neitherLabel articles
  = Z.of_nat (length articles).
Proof.
  unfold labelled, neitherLabel.
  induction articles as [|a rest IH]; [reflexivity|].
  cbn [List.filter length].
  destruct (String.eqb_spec (itemSentiment a) "positive") as [E|E].
  - rewrite E. simpl. lia.
  - destruct (String.eqb (itemSentiment a) "negative"); simpl; lia.
Qed.

(** C8, as amended.  The distribution counts the labels ['positive'] and
    ['negative'], every other label being neutral; the label of the whole
    is taken on [(positive - negative) / total * 100] (0 for no article)
    at the thresholds 20 and -20; the reported score is that value rounded
    to one decimal, as [toFixed(1)] rounds.  No article gives score 0 and
    neutral; the labels positive, positive, negative, neutral give the
    distribution 2, 1, 1, score 25 and positive. *)
Theorem calculateSentimentScore_summary (articles : list NewsItem) :
  let r := calculateSentimentScore articles in
  let p := labelled "positive" articles in
  let n := labelled "negative" articles in
  let total := Z.of_nat (length articles) in
  let value :=
    if 0 <? total then ((ofZ p - ofZ n) / ofZ total * 100)%float else 0%float in
  (distribution r = {| positive := p; negative := n; neutral := neitherLabel articles |}
   /\ p + n + neitherLabel articles = total)
  /\ score r = roundFixed 1 value
  /\ overall r
     = (if PrimFloat.ltb 20 value then "positive"
        else if PrimFloat.ltb value (-20) then "negative"
        else "neutral")
  /\ Sentiment.articles r = articles
  /\ (let none := calculateSentimentScore [] in
      score none = 0%float /\ overall none = "neutral")
  /\ (let four :=
        calculateSentimentScore
          (labelledItem <$> ["positive"; "positive"; "negative"; "neutral"]) in
      distribution four = {| positive := 2; negative := 1; neutral := 1 |}
      /\ score four = 25%float /\ overall four = "positive").
Proof.
  intros r p n total value.
  assert (D : distribution r
              = {| positive := p; negative := n; neutral := neitherLabel articles |}).
  { subst r. unfold calculateSentimentScore. cbn [distribution].
    rewrite tally_fold. reflexivity. }
  split; [split; [exact D|apply labels_partition]|].
  assert (V : rawScore (distribution r) total = value).
  { rewrite D. reflexivity. }
  split; [rewrite <- V; reflexivity|].
  split; [rewrite <- V; reflexivity|].
  split; [reflexivity|].
  split; vm_compute; repeat split.
Qed.

(** C8, the counterexample: one positive article out of three.  The value
    of the formula is 33.33..., the reported score is 33.3. *)
Lemma calculateSentimentScore_rounds :
  let r := calculateSentimentScore (labelledItem <$> ["positive"; "neutral"; "neutral"]) in
  distribution r = {| positive := 1; negative := 0; neutral := 2 |}
  /\ PrimFloat.eqb (score r) ((ofZ 1 - ofZ 0) / ofZ 3 * 100) = false
  /\ score r = (333 / 10)%float.
Proof. vm_compute. repeat split. Qed.

End SentimentFacts.

(** ** Quotes *)

Module QuoteFacts.
Import Market.

(** Whatever [meta] holds, the quote of [getYahooFinanceData] has
    [change = currentPrice - previousClose] and
    [changePercent = change / previousClose * 100], where [previousClose]
    is the provider's when that is a non-zero number and the current price
    otherwise; the division is not guarded. *)
Lemma yahooQuote_change (symbol : string) (meta : YahooMeta) :
  let q := yahooQuote symbol meta in
  exists previous : float,
    previousClose q = Some previous
    /\ previous = orElse (metaPreviousClose meta) (currentPrice q)
    /\ change q = (currentPrice q - previous)%float
    /\ changePercent q = (change q / previous * 100)%float.
Proof. eexists. repeat split. Qed.

(** The serverless handler guards the division: without a non-zero
    previous close, or without a non-zero price, the percentage is [null]. *)
Lemma priceBlockOf_changePercent (symbol : string) (meta : YahooMeta) :
  Serverless.priceChangePercent (Serverless.priceBlockOf symbol meta)
  = match metaPreviousClose meta, regularMarketPrice meta with
    | Some previous, Some price =>
        if truthy previous && truthy price
        then Some ((price - previous) / previous * 100)%float
        else None
    | _, _ => None
    end.
Proof.
  unfold Serverless.priceBlockOf, Serverless.bothTruthy. simpl.
  destruct (metaPreviousClose meta) as [previous|]; [|reflexivity].
  destruct (regularMarketPrice meta) as [price|]; [|reflexivity].
  destruct (truthy previous && truthy price); reflexivity.
Qed.

Lemma getYahooFinanceData_success (w : MarketWorld) (symbol : string) (q : Quote) :
  getYahooFinanceData w symbol = PrimarySuccess q ->
  exists meta : YahooMeta,
    yahooChart w (convertToYahooSymbol symbol) = Normal (Some {| meta := Some meta |})
    /\ q = yahooQuote symbol meta.
Proof.
  unfold getYahooFinanceData.
  destruct (yahooChart w (convertToYahooSymbol symbol)) as [[[[m|]]|]|msg];
    simpl; try discriminate.
  intros [= <-]. exists m. split; reflexivity.
Qed.

Lemma getCryptoData_success (w : MarketWorld) (symbol : string) (q : Quote) :
  getCryptoData w symbol = PrimarySuccess q ->
  exists data : CoinPrice,
    coinGeckoSimplePrice w (getCoinGeckoId symbol) = Normal (Some data)
    /\ q = cryptoQuote symbol data.
Proof.
  unfold getCryptoData.
  destruct (coinGeckoSimplePrice w (getCoinGeckoId symbol)) as [[data|]|msg];
    simpl; try discriminate.
  intros [= <-]. exists data. split; reflexivity.
Qed.

(** A number that is finite and not zero is truthy; its difference with
    itself is zero, and zero over it, times 100, is zero. *)
Lemma finite_truthy (p : float) (s : bool) (m : positive) (e : Z) :
  Prim2SF p = S754_finite s m e -> truthy p = true.
Proof.
  intros P. unfold truthy, PrimFloat.is_nan.
  rewrite !FloatAxioms.eqb_spec, P.
  assert (E : SFeqb (S754_finite s m e) (S754_finite s m e) = true).
  { unfold SFeqb, SFcompare. rewrite Z.compare_refl.
    change (PosDef.Pos.compare_cont Eq m m) with (Pos.compare m m).
    rewrite Pos.compare_refl. destruct s; reflexivity. }
  rewrite E. destruct s; reflexivity.
Qed.

Lemma finite_sub_diag (p : float) (s : bool) (m : positive) (e : Z) :
  Prim2SF p = S754_finite s m e -> (p - p)%float = 0%float.
Proof.
  intros P. apply FloatAxioms.Prim2SF_inj.
  rewrite FloatAxioms.sub_spec, P.
  unfold FloatAxioms.SF64sub, SFsub.
  rewrite Z.min_id. unfold shl_align. rewrite Z.sub_diag.
  reflexivity.
Qed.

Lemma zero_percent (p : float) (s : bool) (m : positive) (e : Z) :
  Prim2SF p = S754_finite s m e ->
  PrimFloat.eqb (0 / p * 100)%float 0 = true.
Proof.
  intros P.
  rewrite FloatAxioms.eqb_spec, FloatAxioms.mul_spec, FloatAxioms.div_spec, P.
  destruct s; reflexivity.
Qed.

Lemma orElse_falsy (a : option float) (b : float) :
  (forall x, a = Some x -> truthy x = false) -> orElse a b = b.
Proof.
  intros F. destruct a as [x|]; [|reflexivity].
  simpl. rewrite (F x eq_refl). reflexivity.
Qed.

(** C9, as amended.  A quote of [getYahooFinanceData] is built from the
    [meta] of the provider's chart.  It always carries a previous close,
    the provider's when that is a non-zero number and the current price
    otherwise; its [change] is [currentPrice - previousClose] and, when
    the previous close is not zero, its [changePercent] is
    [change / previousClose * 100].  So when the provider sends a price
    other than zero and no previous close, or the previous close zero,
    the change is 0 and the percentage is the number 0.  A quote of
    [getCryptoData] is built from the provider's price; it carries no
    previous close, and its [changePercent] is the provider's 24 hour
    change, 0 when that is missing.  The serverless handler reports
    [(price - previousClose) / previousClose * 100] when both numbers are
    there and not zero, and no percentage otherwise. *)
Theorem quote_change (w : MarketWorld) (symbol : string) :
  (forall q : Quote,
     getYahooFinanceData w symbol = PrimarySuccess q ->
     exists (meta : YahooMeta) (previous : float),
       yahooChart w (convertToYahooSymbol symbol)
       = Normal (Some {| meta := Some meta |})
       /\ q = yahooQuote symbol meta
       /\ currentPrice q
          = orElse (regularMarketPrice meta) (orElse (metaPreviousClose meta) 0)
       /\ previousClose q = Some previous
       /\ previous = orElse (metaPreviousClose meta) (currentPrice q)
       /\ change q = (currentPrice q - previous)%float
       /\ (truthy previous = true ->
           changePercent q = (change q / previous * 100)%float)
       /\ (forall price sign m e,
             regularMarketPrice meta = Some price ->
             Prim2SF price = S754_finite sign m e ->
             (forall x, metaPreviousClose meta = Some x -> truthy x = false) ->
             currentPrice q = price /\ previous = price
             /\ change q = 0%float
             /\ PrimFloat.eqb (changePercent q) 0 = true))
  /\ (forall q : Quote,
       getCryptoData w symbol = PrimarySuccess q ->
       exists data : CoinPrice,
         coinGeckoSimplePrice w (getCoinGeckoId symbol) = Normal (Some data)
         /\ q = cryptoQuote symbol data
         /\ currentPrice q = usd data
         /\ previousClose q = None
         /\ changePercent q = orElse (usd_24h_change data) 0)
  /\ (forall meta : YahooMeta,
       Serverless.priceChangePercent (Serverless.priceBlockOf symbol meta)
       = match metaPreviousClose meta, regularMarketPrice meta with
         | Some previous, Some price =>
             if truthy previous && truthy price
             then Some ((price - previous) / previous * 100)%float
             else None
         | _, _ => None
         end).
Proof.
  split; [|split].
  - intros q Hq. apply getYahooFinanceData_success in Hq.
    destruct Hq as (meta & Y & ->). exists meta.
    destruct (yahooQuote_change symbol meta) as (previous & H1 & H2 & H3 & H4).
    exists previous.
    split; [exact Y|]. split; [reflexivity|]. split; [reflexivity|].
    split; [exact H1|]. split; [exact H2|]. split; [exact H3|].
    split; [intros _; exact H4|].
    intros price sign m e R P F.
    assert (C : currentPrice (yahooQuote symbol meta) = price).
    { cbn [yahooQuote currentPrice]. rewrite R. cbn [orElse].
      rewrite (finite_truthy price sign m e P). reflexivity. }
    assert (V : previous = price).
    { rewrite H2, C. apply orElse_falsy, F. }
    assert (D : change (yahooQuote symbol meta) = 0%float).
    { rewrite H3, C, V. apply (finite_sub_diag price sign m e P). }
    split; [exact C|]. split; [exact V|]. split; [exact D|].
    rewrite H4, D, V. apply (zero_percent price sign m e P).
  - intros q Hq. apply getCryptoData_success in Hq.
    destruct Hq as (data & G & ->). exists data.
    split; [exact G|]. repeat split.
  - apply priceBlockOf_changePercent.
Qed.

(** C9, the counterexample.  Yahoo gives a price of 100 and no previous
    close: the quote reports the previous close 100 and the percentage 0,
    a number.  CoinGecko gives no previous close at all: the quote takes
    the percentage 5 from the provider.  Yahoo gives neither price nor
    previous close: the quote reports the previous close 0 and the
    percentage 0 / 0 * 100, which is [NaN]. *)
Lemma changePercent_not_missing :
  (exists q : Quote,
     getYahooFinanceData (marketWith metaWithoutPreviousClose) "XYZ" = PrimarySuccess q
     /\ previousClose q = Some 100%float
     /\ changePercent q = 0%float)
  /\ (exists q : Quote,
       getCryptoData (marketWith metaWithoutPreviousClose) "BTC" = PrimarySuccess q
       /\ previousClose q = None
       /\ changePercent q = 5%float)
  /\ (exists q : Quote,
       getYahooFinanceData pricelessMarket "XYZ" = PrimarySuccess q
       /\ previousClose q = Some 0%float
       /\ changePercent q = (0 / 0 * 100)%float
       /\ PrimFloat.is_nan (changePercent q) = true).
Proof. repeat split; eexists; vm_compute; repeat split. Qed.

(** On the payload without price and previous close the serverless
    handler reports no percentage. *)
Example priceBlockOf_guarded :
  Serverless.priceChangePercent (Serverless.priceBlockOf "XYZ" metaWithoutPrices) = None
  /\ Serverless.priceChangePercent
       (Serverless.priceBlockOf "XYZ" metaWithoutPreviousClose) = None.
Proof. split; reflexivity. Qed.

End QuoteFacts.

(** ** The earnings chain *)

Module EarningsFacts.
Import Earnings.

Lemma earningsAdapter_run (p : Provider) (key : option string) (symbol : string)
    (request : Completion (list Json))
    (build : Json -> list Json -> Completion EarningsResult) (tr : list Event) :
  earningsAdapter p key symbol request build tr
  = (adapterValue key request build, (tr ++ adapterEvents p key symbol)%list).
Proof.
  unfold earningsAdapter, adapterValue, adapterEvents, mbind, traced_bind, andThen,
    emit, ret.
  destruct (configured key); simpl.
  - rewrite <- app_assoc. destruct request as [[|latest rows]|m]; reflexivity.
  - reflexivity.
Qed.

Lemma firstSuccess_three (a b c : EarningsResult) :
  firstSuccess [Fulfilled a; Fulfilled b; Fulfilled c]
  = if success a then Some a
    else if success b then Some b
    else if success c then Some c
    else None.
Proof. simpl. destruct (success a), (success b), (success c); reflexivity. Qed.

Lemma requests_adapterEvents (p : Provider) (key : option string) (symbol : string) :
  requests (adapterEvents p key symbol) = if configured key then [p] else [].
Proof. unfold adapterEvents. destruct (configured key); reflexivity. Qed.

Lemma calls_adapterEvents (p : Provider) (key : option string) (symbol : string) :
  calls (adapterEvents p key symbol) = [p].
Proof. unfold adapterEvents. destruct (configured key); reflexivity. Qed.

(** The value and the trace of a run, from the values and the events of
    the three adapters. *)
Lemma getQuarterlyEarnings_run (w : EarningsWorld) (symbol : string) (tr : list Event) :
  let fmp := (run (getFMPEarnings w symbol)).1 in
  let av := (run (getAlphaVantageEarnings w symbol)).1 in
  let polygon := (run (getPolygonEarnings w symbol)).1 in
  getQuarterlyEarnings w symbol tr
  = (if success fmp then fmp
     else if success av then av
     else if success polygon then polygon
     else generateMockEarnings w symbol,
     (tr ++ adapterEvents FMP (fmpKey w) symbol
         ++ adapterEvents AlphaVantage (alphavantageKey w) (toUpperCase symbol)
         ++ adapterEvents Polygon (polygonKey w) symbol)%list).
Proof.
  unfold run, getQuarterlyEarnings, getFMPEarnings, getAlphaVantageEarnings,
    getPolygonEarnings, mbind, traced_bind, andThen.
  rewrite !earningsAdapter_run. cbv beta iota zeta.
  cbn [fst]. rewrite firstSuccess_three.
  set (fmp := adapterValue (fmpKey w) _ _).
  set (av := adapterValue (alphavantageKey w) _ _).
  set (polygon := adapterValue (polygonKey w) _ _).
  rewrite <- !app_assoc.
  destruct (success fmp), (success av), (success polygon); reflexivity.
Qed.

Lemma sequentialFallback_value (w : EarningsWorld) (symbol : string) :
  let fmp := (run (getFMPEarnings w symbol)).1 in
  let av := (run (getAlphaVantageEarnings w symbol)).1 in
  let polygon := (run (getPolygonEarnings w symbol)).1 in
  (run (sequentialFallback w symbol)).1
  = (if success fmp then fmp
     else if success av then av
     else if success polygon then polygon
     else generateMockEarnings w symbol).
Proof.
  unfold run, sequentialFallback, getFMPEarnings, getAlphaVantageEarnings,
    getPolygonEarnings, mbind, traced_bind, andThen.
  rewrite !earningsAdapter_run. cbv beta iota zeta. cbn [fst].
  set (fmp := adapterValue (fmpKey w) _ _).
  destruct (success fmp); [reflexivity|].
  rewrite ?earningsAdapter_run. cbv beta iota zeta. cbn [fst].
  set (av := adapterValue (alphavantageKey w) _ _).
  destruct (success av); [reflexivity|].
  rewrite ?earningsAdapter_run. cbv beta iota zeta. cbn [fst].
  set (polygon := adapterValue (polygonKey w) _ _).
  destruct (success polygon); reflexivity.
Qed.

(** C3, as amended.  All three adapters are called, in the order FMP,
    Alpha Vantage, Polygon, and every adapter with a key sends its
    request, whatever the others answer; of the three results the first
    in that order that reports success is returned as it is, and the
    estimate when none does; this is the value the sequential chain of
    the specification returns. *)
Theorem getQuarterlyEarnings_ordered_selection (w : EarningsWorld) (symbol : string) :
  let fmp := (run (getFMPEarnings w symbol)).1 in
  let av := (run (getAlphaVantageEarnings w symbol)).1 in
  let polygon := (run (getPolygonEarnings w symbol)).1 in
  let outcome := run (getQuarterlyEarnings w symbol) in
  outcome.1
  = (if success fmp then fmp
     else if success av then av
     else if success polygon then polygon
     else generateMockEarnings w symbol)
  /\ outcome.1 = (run (sequentialFallback w symbol)).1
  /\ calls outcome.2 = [FMP; AlphaVantage; Polygon]
  /\ requests outcome.2
     = List.filter (fun p => configured (keyOf w p)) [FMP; AlphaVantage; Polygon].
Proof.
  intros fmp av polygon outcome.
  assert (E : outcome
              = (if success fmp then fmp
                 else if success av then av
                 else if success polygon then polygon
                 else generateMockEarnings w symbol,
                 (adapterEvents FMP (fmpKey w) symbol
                  ++ adapterEvents AlphaVantage (alphavantageKey w) (toUpperCase symbol)
                  ++ adapterEvents Polygon (polygonKey w) symbol)%list)).
  { apply (getQuarterlyEarnings_run w symbol []). }
  rewrite E. cbn [fst snd].
  split; [reflexivity|].
  split; [symmetry; apply sequentialFallback_value|].
  split.
  - unfold calls. rewrite !omap_app.
    change (omap _ (adapterEvents ?p ?k ?s)) with (calls (adapterEvents p k s)).
    rewrite !calls_adapterEvents. reflexivity.
  - unfold requests. rewrite !omap_app.
    change (omap _ (adapterEvents ?p ?k ?s)) with (requests (adapterEvents p k s)).
    rewrite !requests_adapterEvents. cbn [List.filter keyOf].
    destruct (configured (fmpKey w)), (configured (alphavantageKey w)),
      (configured (polygonKey w)); reflexivity.
Qed.

(** C3, the counterexample: FMP succeeds, and the requests to Alpha
    Vantage and to Polygon are sent all the same; the sequential chain of
    the specification would have sent the first request only. *)
Lemma getQuarterlyEarnings_requests_all :
  success (run (getFMPEarnings fmpAnswers "AAPL")).1 = true
  /\ source (run (getQuarterlyEarnings fmpAnswers "AAPL")).1 = Some "FMP"
  /\ requests (run (getQuarterlyEarnings fmpAnswers "AAPL")).2
     = [FMP; AlphaVantage; Polygon]
  /\ requests (run (sequentialFallback fmpAnswers "AAPL")).2 = [FMP].
Proof. vm_compute. repeat split. Qed.

(** When no provider has data the estimate is returned, marked as such. *)
Lemma getQuarterlyEarnings_estimate (w : EarningsWorld) (symbol : string) :
  success (run (getFMPEarnings w symbol)).1 = false ->
  success (run (getAlphaVantageEarnings w symbol)).1 = false ->
  success (run (getPolygonEarnings w symbol)).1 = false ->
  let result := (run (getQuarterlyEarnings w symbol)).1 in
  success result = true /\ source result = Some "Estimated"
  /\ (length <$> historicalQuarters result) = Some 4%nat.
Proof.
  intros H1 H2 H3 result. subst result.
  change (run (getQuarterlyEarnings w symbol)) with (getQuarterlyEarnings w symbol []).
  rewrite (getQuarterlyEarnings_run w symbol []). cbn [fst].
  rewrite H1, H2, H3. repeat split.
Qed.

End EarningsFacts.

(** ** The route [POST /api/analyze] *)

Module AnalyzeRouteFacts.
Import Market AnalyzeRoute.

(** Why [getYahooFinanceData] reports failure: the request threw, and the
    error is its message; or the payload has no chart result; or the
    result has no [meta]. *)
Lemma getYahooFinanceData_failure (w : MarketWorld) (symbol error : string) :
  getYahooFinanceData w symbol = PrimaryFailure error <->
  yahooChart w (convertToYahooSymbol symbol) = Throw error
  \/ (yahooChart w (convertToYahooSymbol symbol) = Normal None
      /\ error = "Invalid Yahoo Finance response")
  \/ (yahooChart w (convertToYahooSymbol symbol) = Normal (Some {| meta := None |})
      /\ error = "Cannot read properties of undefined (reading 'regularMarketPrice')").
Proof.
  unfold getYahooFinanceData.
  destruct (yahooChart w (convertToYahooSymbol symbol)) as [[[[m|]]|]|msg]; simpl.
  - split; [discriminate|]. intros [H|[[H _]|[H _]]]; discriminate.
  - split.
    + intros [= <-]. right. right. split; reflexivity.
    + intros [H|[[H _]|[_ ->]]]; try discriminate. reflexivity.
  - split.
    + intros [= <-]. right. left. split; reflexivity.
    + intros [H|[[_ ->]|[H _]]]; try discriminate. reflexivity.
  - split.
    + intros [= <-]. left. reflexivity.
    + intros [[= ->]|[[H _]|[H _]]]; try discriminate. reflexivity.
Qed.

Lemma getCryptoData_failure (w : MarketWorld) (symbol error : string) :
  getCryptoData w symbol = PrimaryFailure error <->
  coinGeckoSimplePrice w (getCoinGeckoId symbol) = Throw error
  \/ (coinGeckoSimplePrice w (getCoinGeckoId symbol) = Normal None
      /\ error = "No crypto data available from CoinGecko").
Proof.
  unfold getCryptoData.
  destruct (coinGeckoSimplePrice w (getCoinGeckoId symbol)) as [[data|]|msg]; simpl.
  - split; [discriminate|]. intros [H|[H _]]; discriminate.
  - split.
    + intros [= <-]. right. split; reflexivity.
    + intros [H|[_ ->]]; [discriminate|reflexivity].
  - split.
    + intros [= <-]. left. reflexivity.
    + intros [[= ->]|[H _]]; [reflexivity|discriminate].
Qed.

Lemma primaryFails_primaryFetch (w : World) (symbol error : string) :
  primaryFails w symbol error <-> primaryFetch w symbol = PrimaryFailure error.
Proof.
  unfold primaryFails, primaryFetch, fetchPrimary.
  destruct (detectAssetType symbol); reflexivity.
Qed.

Lemma truthy_nonempty (symbol : string) :
  symbol <> "" -> truthyJson (JStr symbol) = true.
Proof.
  intros H. simpl. destruct (String.eqb_spec symbol ""); [contradiction|reflexivity].
Qed.

(** C1.  When the primary fetch of a request reports failure, the Yahoo
    fetch on the equity path and the CoinGecko fetch on the crypto path,
    the route answers 500 with a message that names the symbol and with
    the reported error as details; it does not answer 200, and it sends no
    analysis. *)
Theorem analyze_primary_failure (w : World) (symbol error : string) :
  symbol <> "" ->
  primaryFails w symbol error ->
  let r := analyze w (Some (JStr symbol)) in
  status r = 500
  /\ body r = ErrorBody (fatalMessage symbol) (Some error)
  /\ includes (fatalMessage symbol) symbol = true
  /\ status r <> 200
  /\ forall a : Analysis, body r <> AnalysisBody a.
Proof.
  intros Hne Hfail r.
  assert (E : r = {| status := 500;
                     body := ErrorBody (fatalMessage symbol) (Some error) |}).
  { subst r. unfold analyze. rewrite (truthy_nonempty symbol Hne). cbn [negb].
    apply primaryFails_primaryFetch in Hfail. unfold primaryFetch in Hfail.
    destruct (fetchPrimary w symbol (detectAssetType symbol)) as [[p f] e].
    simpl in Hfail. subst p. reflexivity. }
  rewrite E. cbn [status body].
  split; [reflexivity|]. split; [reflexivity|].
  split; [apply JsStringFacts.includes_spliced|].
  split; [discriminate|]. intros a. discriminate.
Qed.

(** C1 at work: Yahoo times out on AAPL. *)
Lemma analyze_primary_failure_witness :
  primaryFails quotesDown "AAPL" "timeout of 10000ms exceeded"
  /\ analyze quotesDown (Some (JStr "AAPL"))
     = {| status := 500;
          body :=
            ErrorBody
              "Unable to fetch real market data for AAPL. Please check the symbol and try again."
              (Some "timeout of 10000ms exceeded") |}.
Proof.
  assert (Hne : "AAPL" <> "") by discriminate.
  assert (Hf : primaryFails quotesDown "AAPL" "timeout of 10000ms exceeded")
    by reflexivity.
  split; [exact Hf|].
  destruct (analyze_primary_failure quotesDown "AAPL" _ Hne Hf) as (Hs & Hb & _).
  destruct (analyze quotesDown (Some (JStr "AAPL"))) as [s b].
  simpl in Hs, Hb. rewrite Hs, Hb. reflexivity.
Defined.

(** The crypto path fails the same way. *)
Example analyze_crypto_failure :
  analyze quotesDown (Some (JStr "btc"))
  = {| status := 500;
       body :=
         ErrorBody
           "Unable to fetch real market data for btc. Please check the symbol and try again."
           (Some "timeout of 10000ms exceeded") |}.
Proof. reflexivity. Qed.

(** The route answers 200 only to a string symbol whose primary fetch
    succeeded. *)
Lemma analyze_200_primary_success (w : World) (bodySymbol : option Json) :
  status (analyze w bodySymbol) = 200 ->
  exists symbol quote,
    bodySymbol = Some (JStr symbol)
    /\ primaryFetch w symbol = PrimarySuccess quote.
Proof.
  unfold analyze.
  destruct bodySymbol as [value|]; [|discriminate].
  destruct (truthyJson value) eqn:T; [|discriminate]. cbn [negb].
  destruct value as [|b|x|symbol|items|fields]; try discriminate.
  destruct (fetchPrimary w symbol (detectAssetType symbol)) as [[p f] e] eqn:F.
  destruct p as [quote|error]; [|discriminate].
  intros _. exists symbol, quote. split; [reflexivity|].
  unfold primaryFetch. rewrite F. reflexivity.
Qed.

End AnalyzeRouteFacts.

(** ** The serverless handlers *)

Module ServerlessFacts.
Import Market Serverless.

(** The test [symbol === ''] of a handler, for a symbol known not to be empty. *)
Ltac nonempty_symbol :=
  match goal with
  | H : ?s <> "" |- context [String.eqb ?s ""] =>
      destruct (String.eqb_spec s ""); [contradiction|]
  end.

Lemma priceBlockFields_names (b : PriceBlock) :
  (priceBlockFields b).*1
  = [ "symbol"; "company"; "currentPrice"; "previousClose"; "priceChangePercent";
      "trailingPE"; "marketCap"; "trailingEps" ].
Proof. reflexivity. Qed.

(** What [api/analyze.js] answers to a POST with a non-empty string
    symbol: 500 when the fetch or the parsing throws, and otherwise 200
    with the price block, the one built from Yahoo's [meta] or the mock. *)
Lemma analyzeHandler_post (w : AnalyzeWorld) (symbol : string) :
  symbol <> "" ->
  let r := analyzeHandler w "POST" (Some (JStr symbol)) in
  (exists message,
     r = respond 500 [("error", JStr "Analysis failed"); ("details", JStr message)])
  \/ (exists block,
        r = respond 200
              (priceBlockFields block ++
               [ ("assetType", JStr "stock");
                 ("sector", JStr "Technology");
                 ("sentiment",
                  JObj [ ("overall", JStr "neutral"); ("score", JNum 0);
                         ("articles", JArr (mockWire symbol)) ]);
                 ("timestamp", JStr (now w)) ])%list
        /\ (block = mockPriceBlock symbol
            \/ exists meta, block = priceBlockOf symbol meta)).
Proof.
  intros Hne r. subst r. unfold analyzeHandler. simpl.
  nonempty_symbol.
  destruct (encodeURIComponent w symbol) as [component|m]; simpl;
    [|left; eexists; reflexivity].
  destruct (yahoo w component) as [resp|m]; simpl; [|left; eexists; reflexivity].
  destruct (ok resp); simpl.
  - destruct (chartMeta resp) as [[meta|]|m]; simpl.
    + right. exists (priceBlockOf symbol meta). split; [reflexivity|].
      right. exists meta. reflexivity.
    + right. exists (mockPriceBlock symbol). split; [reflexivity|]. left. reflexivity.
    + left. eexists. reflexivity.
  - right. exists (mockPriceBlock symbol). split; [reflexivity|]. left. reflexivity.
Qed.

(** Every 200 answer of [api/analyze.js] to such a request has the same
    twelve fields, the mock as the genuine one, and none of them is
    [source]. *)
Lemma analyzeHandler_fields (w : AnalyzeWorld) (symbol : string) :
  symbol <> "" ->
  let r := analyzeHandler w "POST" (Some (JStr symbol)) in
  status r = 200 ->
  bodyFieldNames r = analyzeFieldNames /\ bodyField "source" r = None.
Proof.
  intros Hne r H200.
  destruct (analyzeHandler_post w symbol Hne) as [[m E]|[block [E _]]];
    fold r in E; rewrite E in *.
  - discriminate.
  - split; reflexivity.
Qed.

(** When Yahoo's answer is not ok, [api/analyze.js] serves the mock
    price block with status 200. *)
Lemma analyzeHandler_fallback (w : AnalyzeWorld) (symbol component : string)
    (resp : FetchResponse) :
  symbol <> "" ->
  encodeURIComponent w symbol = Normal component ->
  yahoo w component = Normal resp ->
  ok resp = false ->
  let r := analyzeHandler w "POST" (Some (JStr symbol)) in
  status r = 200
  /\ bodyField "currentPrice" r = Some (JNum 150.25)
  /\ bodyField "priceChangePercent" r = Some (JNum 2.5)
  /\ bodyField "source" r = None.
Proof.
  intros Hne He Hy Hok r. subst r. unfold analyzeHandler. simpl.
  nonempty_symbol.
  rewrite He. simpl. rewrite Hy. simpl. rewrite Hok. simpl. repeat split.
Qed.

(** The fetch-based handler marks the same fallback. *)
Lemma fixedHandler_fallback (w : FixedWorld) (symbol message : string) :
  symbol <> "" ->
  fetchPriceData w symbol = Throw message ->
  let r := fixedHandler w "POST" (Some (JStr symbol)) in
  status r = 200
  /\ bodyField "currentPrice" r = Some (JNum 150.25)
  /\ bodyField "source" r = Some (JStr "mock-fallback").
Proof.
  intros Hne Hf r. subst r. unfold fixedHandler. simpl.
  nonempty_symbol.
  simpl. rewrite Hf. simpl. repeat split.
Qed.

Lemma fixedHandler_genuine (w : FixedWorld) (symbol : string) (price : PriceData) :
  symbol <> "" ->
  fetchPriceData w symbol = Normal price ->
  bodyField "source" (fixedHandler w "POST" (Some (JStr symbol)))
  = Some (JStr "yahoo-finance").
Proof.
  intros Hne Hf. unfold fixedHandler. simpl.
  nonempty_symbol.
  simpl. rewrite Hf. reflexivity.
Qed.

(** C2, the failing input.  Yahoo answers 404 to the chart request for
    AAPL: [api/analyze.js] answers 200 with the placeholder price 150.25
    and change 2.5, in an object that has no [source] or [sourceTier]
    field and exactly the fields of the answer built from genuine data;
    the fetch-based handler marks the same fallback with
    [source: "mock-fallback"]; and [api/simple.js] serves its placeholder
    figures without a [source] field. *)
Theorem analyzeHandler_mock_unmarked :
  let mock := analyzeHandler yahooRefuses "POST" (Some (JStr "AAPL")) in
  let genuine := analyzeHandler yahooAnswers "POST" (Some (JStr "AAPL")) in
  status mock = 200
  /\ bodyField "currentPrice" mock = Some (JNum 150.25)
  /\ bodyField "priceChangePercent" mock = Some (JNum 2.5)
  /\ bodyField "source" mock = None
  /\ bodyField "sourceTier" mock = None
  /\ bodyField "currentPrice" genuine = Some (JNum 189.5)
  /\ bodyFieldNames mock = bodyFieldNames genuine
  /\ bodyField "source" (fixedHandler fixedYahooRefuses "POST" (Some (JStr "AAPL")))
     = Some (JStr "mock-fallback")
  /\ bodyField "currentPrice" (simpleHandler "2024-05-01T12:00:00.000Z" "POST" (Some "AAPL"))
     = Some (JNum 150.25)
  /\ bodyField "source" (simpleHandler "2024-05-01T12:00:00.000Z" "POST" (Some "AAPL"))
     = None.
Proof. vm_compute. repeat split. Qed.

End ServerlessFacts.

(** Membership in a list that is written out. *)
Ltac in_list := apply list_elem_of_In; simpl; tauto.

(** ** Letter case *)

Module CaseFacts.

Lemma upper_ascii_idemp (c : ascii) : upper_ascii (upper_ascii c) = upper_ascii c.
Proof. destruct c as [[] [] [] [] [] [] [] []]; reflexivity. Qed.

Lemma lower_ascii_idemp (c : ascii) : lower_ascii (lower_ascii c) = lower_ascii c.
Proof. destruct c as [[] [] [] [] [] [] [] []]; reflexivity. Qed.

Lemma lower_upper_ascii (c : ascii) : lower_ascii (upper_ascii c) = lower_ascii c.
Proof. destruct c as [[] [] [] [] [] [] [] []]; reflexivity. Qed.

Lemma upper_lower_ascii (c : ascii) : upper_ascii (lower_ascii c) = upper_ascii c.
Proof. destruct c as [[] [] [] [] [] [] [] []]; reflexivity. Qed.

Lemma map_string_compose (f g h : ascii -> ascii) (s : string) :
  (forall c, f (g c) = h c) -> map_string f (map_string g s) = map_string h s.
Proof. intros E. induction s as [|c s IH]; simpl; [reflexivity|]. rewrite E, IH. reflexivity. Qed.

Lemma toUpperCase_idemp (s : string) : toUpperCase (toUpperCase s) = toUpperCase s.
Proof. apply map_string_compose, upper_ascii_idemp. Qed.

Lemma toLowerCase_idemp (s : string) : toLowerCase (toLowerCase s) = toLowerCase s.
Proof. apply map_string_compose, lower_ascii_idemp. Qed.

Lemma toLowerCase_toUpperCase (s : string) : toLowerCase (toUpperCase s) = toLowerCase s.
Proof. apply map_string_compose, lower_upper_ascii. Qed.

Lemma toUpperCase_toLowerCase (s : string) : toUpperCase (toLowerCase s) = toUpperCase s.
Proof. apply map_string_compose, upper_lower_ascii. Qed.

Lemma map_string_app (f : ascii -> ascii) (s t : string) :
  map_string f (s ++ t) = map_string f s ++ map_string f t.
Proof.
  induction s as [|c s IH].
  - reflexivity.
  - rewrite JsStringFacts.append_String. simpl. rewrite IH. reflexivity.
Qed.

Lemma toLowerCase_app (s t : string) :
  toLowerCase (s ++ t) = toLowerCase s ++ toLowerCase t.
Proof. apply map_string_app. Qed.

Lemma toUpperCase_app (s t : string) :
  toUpperCase (s ++ t) = toUpperCase s ++ toUpperCase t.
Proof. apply map_string_app. Qed.

(** The caret is no letter: changing the case of a symbol leaves a
    leading caret where it is, and makes none. *)
Lemma startsWith_caret_upper (s : string) :
  startsWith (toUpperCase s) "^" = startsWith s "^".
Proof.
  destruct s as [|c s]; [reflexivity|].
  destruct c as [[] [] [] [] [] [] [] []]; try reflexivity;
    destruct s; reflexivity.
Qed.

Lemma startsWith_caret_lower (s : string) :
  startsWith (toLowerCase s) "^" = startsWith s "^".
Proof.
  destruct s as [|c s]; [reflexivity|].
  destruct c as [[] [] [] [] [] [] [] []]; try reflexivity;
    destruct s; reflexivity.
Qed.

End CaseFacts.

(** ** Completions *)

Module CompletionFacts.

(** [mapM] over completions: all the elements map, or the first error
    is thrown. *)
Lemma mapM_Normal {A B} (f : A -> Completion B) (l : list A) (k : list B) :
  mapM f l = Normal k -> Forall2 (fun x y => f x = Normal y) l k.
Proof.
  revert k. induction l as [|x l IH]; intros k H.
  - injection H as <-. constructor.
  - cbn in H. destruct (f x) as [y|m] eqn:F; [|discriminate].
    cbn in H. destruct (mapM f l) as [k'|m] eqn:M; [|discriminate].
    injection H as <-. constructor; [exact F|apply IH; reflexivity].
Qed.

Lemma mapM_Throw {A B} (f : A -> Completion B) (l : list A) (x : A) (m : string) :
  x ∈ l -> f x = Throw m -> exists m', mapM f l = Throw m'.
Proof.
  intros I F. induction l as [|y l IH]; [inversion I|].
  cbn. destruct (f y) as [b|m'] eqn:Fy; [|eexists; reflexivity].
  cbn. apply elem_of_cons in I as [->|I]; [congruence|].
  destruct (IH I) as [m' ->]. eexists. reflexivity.
Qed.

Lemma mapM_Forall {A B} (f : A -> Completion B) (P : B -> Prop)
    (l : list A) (k : list B) :
  (forall x y, f x = Normal y -> P y) -> mapM f l = Normal k -> Forall P k.
Proof.
  intros H M. apply mapM_Normal in M.
  induction M as [|x y l k F _ IH]; constructor; [apply (H x), F|exact IH].
Qed.

Lemma mapM_length {A B} (f : A -> Completion B) (l : list A) (k : list B) :
  mapM f l = Normal k -> length k = length l.
Proof. intros M. apply mapM_Normal in M. symmetry. eapply Forall2_length, M. Qed.

End CompletionFacts.

(** ** Asset types and provider symbols *)

Module MarketFacts.
Import Market CaseFacts.

(** The tickers of [cryptoSymbols] are the keys of [coinMap]. *)
Lemma cryptoSymbols_coinMap (u : string) :
  array_includes cryptoSymbols u = true <-> is_Some (coinMap !! u).
Proof.
  split.
  - unfold array_includes, cryptoSymbols. cbn [existsb].
    intros H.
    repeat (apply orb_prop in H as [H|H];
            [apply String.eqb_eq in H; subst u; vm_compute; eexists; reflexivity|]).
    discriminate.
  - intros [v H]. unfold coinMap in H.
    apply elem_of_list_to_map_2 in H.
    repeat (apply elem_of_cons in H as [H|H];
            [injection H as -> ->; reflexivity|]).
    apply elem_of_nil in H. destruct H.
Qed.

Lemma detectAssetType_Crypto (symbol : string) :
  detectAssetType symbol = Crypto
  <-> array_includes cryptoSymbols (toUpperCase symbol) = true.
Proof.
  unfold detectAssetType.
  destruct (array_includes cryptoSymbols (toUpperCase symbol)).
  - split; reflexivity.
  - split; [|discriminate].
    destruct (array_includes etfSymbols _); [discriminate|].
    destruct (startsWith _ _); discriminate.
Qed.

Lemma detectAssetType_upper (symbol : string) :
  detectAssetType (toUpperCase symbol) = detectAssetType symbol.
Proof.
  unfold detectAssetType. rewrite toUpperCase_idemp, startsWith_caret_upper.
  reflexivity.
Qed.

Lemma detectAssetType_lower (symbol : string) :
  detectAssetType (toLowerCase symbol) = detectAssetType symbol.
Proof.
  unfold detectAssetType. rewrite toUpperCase_toLowerCase, startsWith_caret_lower.
  reflexivity.
Qed.

(** X1.  The asset type of a symbol of ASCII text does not depend on
    the case of its letters: [detectAssetType] gives the same type for
    the symbol, for its upper-case form and for its lower-case form. *)
Theorem detectAssetType_case_insensitive (symbol : string) :
  isAscii symbol = true ->
  detectAssetType (toUpperCase symbol) = detectAssetType symbol
  /\ detectAssetType (toLowerCase symbol) = detectAssetType symbol.
Proof.
  intros _. split; [apply detectAssetType_upper|apply detectAssetType_lower].
Qed.

Lemma detectAssetType_case_insensitive_witness :
  detectAssetType (toLowerCase "Btc") = detectAssetType "Btc"
  /\ detectAssetType "Btc" = Crypto.
Proof.
  split; [|reflexivity].
  exact (proj2 (detectAssetType_case_insensitive "Btc" eq_refl)).
Defined.

(** X2.  The two tables of crypto tickers agree: a symbol is classified
    as crypto exactly when [coinMap] has an entry for its upper-case
    form.  So [getCoinGeckoId] gives the CoinGecko id of the table for
    every crypto symbol, and the lower-case symbol for every other one. *)
Theorem getCoinGeckoId_table (symbol : string) :
  (detectAssetType symbol = Crypto <-> is_Some (coinMap !! toUpperCase symbol))
  /\ (detectAssetType symbol = Crypto ->
      coinMap !! toUpperCase symbol = Some (getCoinGeckoId symbol))
  /\ (detectAssetType symbol <> Crypto ->
      getCoinGeckoId symbol = toLowerCase symbol).
Proof.
  assert (E : detectAssetType symbol = Crypto
              <-> is_Some (coinMap !! toUpperCase symbol)).
  { rewrite detectAssetType_Crypto. apply cryptoSymbols_coinMap. }
  split; [exact E|]. unfold getCoinGeckoId. split.
  - intros H. apply E in H as [v ->]. reflexivity.
  - intros H. destruct (coinMap !! toUpperCase symbol) as [v|] eqn:L; [|reflexivity].
    exfalso. apply H, E. eexists. reflexivity.
Qed.

Lemma convertToYahooSymbol_upper (symbol : string) :
  convertToYahooSymbol (toUpperCase symbol) = convertToYahooSymbol symbol.
Proof.
  unfold convertToYahooSymbol.
  rewrite detectAssetType_upper, toUpperCase_idemp.
  reflexivity.
Qed.

(** A crypto ticker with the suffix [-USD] is no crypto ticker. *)
Lemma cryptoSymbols_suffixed (u : string) :
  array_includes cryptoSymbols u = true ->
  toUpperCase u = u /\ detectAssetType (u ++ "-USD") = Stock.
Proof.
  unfold array_includes, cryptoSymbols. cbn [existsb]. intros H.
  repeat (apply orb_prop in H as [H|H];
          [apply String.eqb_eq in H; subst u; split; reflexivity|]).
  discriminate.
Qed.

(** X3.  On a symbol of ASCII text [convertToYahooSymbol] gives a normal
    form: the upper-case symbol, followed by [-USD] exactly for a crypto
    symbol.  The result does not depend on the case of the letters of
    the symbol, and converting a converted symbol changes nothing. *)
Theorem convertToYahooSymbol_normal_form (symbol : string) :
  isAscii symbol = true ->
  convertToYahooSymbol symbol
  = match detectAssetType symbol with
    | Crypto => toUpperCase symbol ++ "-USD"
    | Etf | Index | Stock => toUpperCase symbol
    end
  /\ convertToYahooSymbol (toUpperCase symbol) = convertToYahooSymbol symbol
  /\ convertToYahooSymbol (toLowerCase symbol) = convertToYahooSymbol symbol
  /\ convertToYahooSymbol (convertToYahooSymbol symbol) = convertToYahooSymbol symbol.
Proof.
  intros _. split; [|split; [|split]].
  - unfold convertToYahooSymbol. destruct (detectAssetType symbol); reflexivity.
  - apply convertToYahooSymbol_upper.
  - unfold convertToYahooSymbol.
    rewrite detectAssetType_lower, toUpperCase_toLowerCase.
    reflexivity.
  - unfold convertToYahooSymbol at 2.
    destruct (detectAssetType symbol) eqn:T.
    + pose proof T as C.
      apply detectAssetType_Crypto, cryptoSymbols_suffixed in C as [U S].
      unfold convertToYahooSymbol. rewrite S, T, toUpperCase_app, U. reflexivity.
    + rewrite convertToYahooSymbol_upper. unfold convertToYahooSymbol. rewrite T. reflexivity.
    + rewrite convertToYahooSymbol_upper. unfold convertToYahooSymbol. rewrite T. reflexivity.
    + rewrite convertToYahooSymbol_upper. unfold convertToYahooSymbol. rewrite T. reflexivity.
Qed.

Lemma convertToYahooSymbol_normal_form_witness :
  convertToYahooSymbol "eth" = "ETH-USD"
  /\ convertToYahooSymbol (convertToYahooSymbol "eth") = convertToYahooSymbol "eth".
Proof.
  split; [reflexivity|].
  exact (proj2 (proj2 (proj2 (convertToYahooSymbol_normal_form "eth" eq_refl)))).
Defined.

End MarketFacts.

(** ** Classification of headlines *)

Module ClassificationFacts.
Import News Relevance CaseFacts.

Lemma startsWith_empty (s : string) : startsWith s "" = true.
Proof. destruct s; reflexivity. Qed.

Lemma startsWith_app_l (s rest p : string) :
  startsWith s p = true -> startsWith (s ++ rest) p = true.
Proof.
  revert s. induction p as [|a p IH]; intros s H.
  - apply startsWith_empty.
  - destruct s as [|b s]; [discriminate|].
    rewrite JsStringFacts.append_String. simpl in *.
    destruct (Ascii.eqb a b); [apply IH, H|discriminate].
Qed.

(** What occurs in a text occurs in every text that starts with it. *)
Lemma includes_app_l (s rest p : string) :
  includes s p = true -> includes (s ++ rest) p = true.
Proof.
  induction s as [|c s IH]; cbn [includes]; intros H.
  - rewrite orb_false_r in H.
    apply JsStringFacts.includes_startsWith.
    apply (startsWith_app_l "" rest p H).
  - rewrite JsStringFacts.append_String. cbn [includes].
    apply orb_prop in H as [H|H].
    + pose proof (startsWith_app_l (String c s) rest p H) as H'.
      rewrite JsStringFacts.append_String in H'. rewrite H'. reflexivity.
    + rewrite (IH H). apply orb_true_r.
Qed.

Lemma matched_ge_1 (text w : string) (ws : list string) :
  w ∈ ws -> includes text w = true -> 1 <= matched text ws.
Proof.
  intros I H. unfold matched.
  assert (L : w ∈ List.filter (includes text) ws).
  { apply list_elem_of_In, filter_In. split; [apply list_elem_of_In, I|exact H]. }
  destruct (List.filter (includes text) ws); [inversion L|]. simpl length. lia.
Qed.

(** X4.  [analyzeTextSentiment] compares two counts: the number of words
    of [positiveWords] and of [negativeWords] that occur in the
    lower-case text, each word counted once however often it occurs.
    The label is positive when more positive words occur, negative when
    more negative ones do, and neutral when the counts are equal. *)
Theorem analyzeTextSentiment_counts (text : string) :
  let p := matched (toLowerCase text) positiveWords in
  let n := matched (toLowerCase text) negativeWords in
  analyzeTextSentiment text
  = (if n <? p then "positive" else if p <? n then "negative" else "neutral")
  /\ 0 <= p <= 15 /\ 0 <= n <= 14.
Proof.
  intros p n. split.
  - unfold analyzeTextSentiment.
    rewrite !RelevanceFacts.add_matches_sum. fold p n.
    replace (0 + 1 * p + -1 * n) with (p - n) by lia.
    destruct (Z.ltb_spec n p), (Z.ltb_spec 0 (p - n)); try lia; [reflexivity|].
    destruct (Z.ltb_spec p n), (Z.ltb_spec (p - n) 0); try lia; reflexivity.
  - split; [apply (RelevanceFacts.matched_bounds _ positiveWords)
           |apply (RelevanceFacts.matched_bounds _ negativeWords)].
Qed.

(** Matching is by substring: ['up'] occurs in ['supply']. *)
Example analyzeTextSentiment_substring :
  analyzeTextSentiment "Supply chain report" = "positive".
Proof. reflexivity. Qed.

(** X5.  The classification of an article of ASCII text does not depend
    on the case of its letters: impact level, category, source tier,
    text sentiment and relevance score are the same for a text and for
    its upper-case form; the relevance score does not depend on the case
    of the symbol either. *)
Theorem classification_case_insensitive
    (headline sourceName text symbol : string) (summary : option string) :
  isAscii headline = true -> isAscii sourceName = true ->
  isAscii text = true -> isAscii symbol = true ->
  (forall s, summary = Some s -> isAscii s = true) ->
  getImpactLevel (toUpperCase headline) = getImpactLevel headline
  /\ categorizeNews (toUpperCase headline) = categorizeNews headline
  /\ getSourceTier (toUpperCase sourceName) = getSourceTier sourceName
  /\ analyzeTextSentiment (toUpperCase text) = analyzeTextSentiment text
  /\ calculateRelevanceScore
       (toUpperCase headline) (toUpperCase <$> summary) (toUpperCase symbol)
     = calculateRelevanceScore headline summary symbol.
Proof.
  intros _ _ _ _ _.
  unfold getImpactLevel, categorizeNews, getSourceTier, analyzeTextSentiment,
    calculateRelevanceScore.
  rewrite !toLowerCase_app, !toLowerCase_toUpperCase.
  repeat split; try reflexivity.
  destruct summary as [s|]; simpl; [rewrite toLowerCase_toUpperCase|]; reflexivity.
Qed.

Lemma classification_case_insensitive_witness :
  getImpactLevel "APPLE CEO STEPS DOWN" = "high"
  /\ calculateRelevanceScore "APPLE CEO STEPS DOWN" (Some "AAPL FALLS") "AAPL"
     = calculateRelevanceScore "Apple CEO steps down" (Some "AAPL falls") "aapl".
Proof.
  split; [reflexivity|].
  refine (proj2 (proj2 (proj2 (proj2
    (classification_case_insensitive "Apple CEO steps down" "Reuters"
       "AAPL falls" "aapl" (Some "AAPL falls") eq_refl eq_refl eq_refl eq_refl _))))).
  intros s [= <-]. reflexivity.
Defined.

Lemma scoredText_headline (headline w : string) (summary : option string) :
  includes (toLowerCase headline) w = true ->
  includes (scoredText headline summary) w = true.
Proof.
  intros H. unfold scoredText. rewrite toLowerCase_app. apply includes_app_l, H.
Qed.

(** X6.  Category and relevance score agree: a headline that
    [categorizeNews] files under earnings scores at least 5, and one it
    files under corporate at least 3, whatever the summary and the
    symbol; a headline in which the symbol occurs scores at least 10. *)
Theorem category_relevance
    (headline : string) (summary : option string) (symbol : string) :
  (categorizeNews headline = "earnings" ->
   5 <= calculateRelevanceScore headline summary symbol)
  /\ (categorizeNews headline = "corporate" ->
      3 <= calculateRelevanceScore headline summary symbol)
  /\ (includes (toLowerCase headline) (toLowerCase symbol) = true ->
      10 <= calculateRelevanceScore headline summary symbol).
Proof.
  rewrite RelevanceFacts.calculateRelevanceScore_sum. cbv zeta.
  pose proof (RelevanceFacts.matched_bounds (scoredText headline summary) keywords) as K.
  pose proof (RelevanceFacts.matched_bounds (scoredText headline summary) highImpactWords) as I.
  assert (S : 0 <= (if includes (scoredText headline summary) (toLowerCase symbol)
                    then 10 else 0)) by (destruct (includes _ _); lia).
  split; [|split].
  - unfold categorizeNews. intros C.
    destruct (includes (toLowerCase headline) "earnings") eqn:E1.
    { pose proof (matched_ge_1 _ "earnings" keywords ltac:(in_list)
                    (scoredText_headline _ _ summary E1)). lia. }
    destruct (includes (toLowerCase headline) "revenue") eqn:E2.
    { pose proof (matched_ge_1 _ "revenue" keywords ltac:(in_list)
                    (scoredText_headline _ _ summary E2)). lia. }
    destruct (includes (toLowerCase headline) "profit") eqn:E3.
    { pose proof (matched_ge_1 _ "profit" keywords ltac:(in_list)
                    (scoredText_headline _ _ summary E3)). lia. }
    simpl in C.
    repeat (destruct (includes (toLowerCase headline) _) in C; simpl in C;
            try discriminate C).
  - unfold categorizeNews. intros C.
    destruct (includes (toLowerCase headline) "merger") eqn:E1.
    { pose proof (matched_ge_1 _ "merger" highImpactWords ltac:(in_list)
                    (scoredText_headline _ _ summary E1)). lia. }
    destruct (includes (toLowerCase headline) "acquisition") eqn:E2.
    { pose proof (matched_ge_1 _ "acquisition" highImpactWords ltac:(in_list)
                    (scoredText_headline _ _ summary E2)). lia. }
    destruct (includes (toLowerCase headline) "partnership") eqn:E3.
    { pose proof (matched_ge_1 _ "partnership" highImpactWords ltac:(in_list)
                    (scoredText_headline _ _ summary E3)). lia. }
    simpl in C.
    repeat (destruct (includes (toLowerCase headline) _) in C; simpl in C;
            try discriminate C).
  - intros H. rewrite (scoredText_headline _ _ summary H). lia.
Qed.

End ClassificationFacts.

(** ** The news adapters *)

Module AdapterFacts.
Import News Labels CompletionFacts.

Lemma analyzeTextSentiment_label (text : string) :
  analyzeTextSentiment text ∈ sentimentLabels.
Proof.
  unfold analyzeTextSentiment.
  destruct (0 <? _); [in_list|]. destruct (_ <? 0); in_list.
Qed.

Lemma convertAVSentiment_label (score : option float) :
  convertAVSentiment score ∈ sentimentLabels.
Proof.
  unfold convertAVSentiment.
  destruct (PrimFloat.ltb _ _); [in_list|]. destruct (PrimFloat.ltb _ _); in_list.
Qed.

Lemma getImpactLevel_level (headline : string) : getImpactLevel headline ∈ impactLevels.
Proof.
  unfold getImpactLevel.
  destruct (someIncluded _ _); [in_list|]. destruct (someIncluded _ _); in_list.
Qed.

Lemma categorizeNews_category (headline : string) : categorizeNews headline ∈ categories.
Proof.
  unfold categorizeNews.
  repeat (match goal with |- context [if ?c then _ else _] => destruct c end);
    in_list.
Qed.

Lemma getSourceTier_tier (sourceName : string) : getSourceTier sourceName ∈ sourceTiers.
Proof.
  unfold getSourceTier.
  destruct (someIncluded _ _); [in_list|]. destruct (someIncluded _ _); in_list.
Qed.

Lemma orText_nonempty (given : option string) (standIn : string) :
  standIn <> "" -> orText given standIn <> "".
Proof. intros H. destruct given as [[|c s]|]; simpl; congruence. Qed.

(** The labels of an article, once its fields are known. *)
Lemma wellLabelled_intro (symbol : string) (a : Article) (given : option string) :
  sentiment a ∈ sentimentLabels ->
  impact a = getImpactLevel (headline a) ->
  category a = categorizeNews (headline a) ->
  sourceTier a ∈ sourceTiers ->
  summary a = orText given "No summary available" ->
  relevanceScore a = Relevance.calculateRelevanceScore (headline a) given symbol ->
  wellLabelled symbol a.
Proof.
  intros S I C T U R. unfold wellLabelled.
  rewrite I, C, U, R.
  repeat split; try assumption; try reflexivity.
  - apply getImpactLevel_level.
  - apply categorizeNews_category.
  - exists given. split; reflexivity.
  - apply orText_nonempty. discriminate.
  - apply RelevanceFacts.calculateRelevanceScore_range.
  - apply RelevanceFacts.calculateRelevanceScore_range.
Qed.

Lemma newsApiArticle_labels (symbol : string) (raw : NewsApiArticle) (a : Article) :
  newsApiArticle symbol raw = Normal a -> wellLabelled symbol a.
Proof.
  unfold newsApiArticle. intros H.
  destruct (naTitle raw) as [title|]; [|discriminate].
  destruct (naSourceName raw) as [name|]; [|discriminate].
  injection H as <-.
  apply (wellLabelled_intro _ _ (naDescription raw)); simpl; try reflexivity.
  - apply analyzeTextSentiment_label.
  - apply getSourceTier_tier.
Qed.

Lemma finnhubArticle_labels (symbol : string) (raw : FinnhubArticle) (a : Article) :
  finnhubArticle symbol raw = Normal a -> wellLabelled symbol a.
Proof.
  unfold finnhubArticle. intros H.
  destruct (toISOString (fhDatetime raw)) as [published|]; [|discriminate].
  destruct (fhHeadline raw) as [title|]; [|discriminate].
  injection H as <-.
  apply (wellLabelled_intro _ _ (fhSummary raw)); simpl; try reflexivity.
  - apply analyzeTextSentiment_label.
  - in_list.
Qed.

Lemma alphaVantageArticle_labels (symbol : string) (raw : AlphaVantageArticle)
    (a : Article) :
  alphaVantageArticle symbol raw = Normal a -> wellLabelled symbol a.
Proof.
  unfold alphaVantageArticle. intros H.
  destruct (avTitle raw) as [title|]; [|discriminate].
  injection H as <-.
  apply (wellLabelled_intro _ _ (avSummary raw)); simpl; try reflexivity.
  - apply convertAVSentiment_label.
  - in_list.
Qed.

Lemma polygonArticle_labels (symbol : string) (raw : PolygonArticle) (a : Article) :
  polygonArticle symbol raw = Normal a -> wellLabelled symbol a.
Proof.
  unfold polygonArticle. intros H.
  destruct (pgPublisher raw) as [publisher|]; [|discriminate].
  destruct (pgTitle raw) as [title|]; [|discriminate].
  injection H as <-.
  apply (wellLabelled_intro _ _ (pgDescription raw)); simpl; try reflexivity.
  - apply analyzeTextSentiment_label.
  - in_list.
Qed.

(** What the four adapter calls contribute is well labelled. *)
Lemma contribution_labels (w : NewsWorld) (symbol : string)
    (call : option string * Completion (list Article)) :
  call ∈ adapterCalls w symbol -> Forall (wellLabelled symbol) (contribution call).
Proof.
  unfold adapterCalls. intros I.
  assert (Forall (wellLabelled symbol)
            match call.2 with Normal articles => articles | Throw _ => [] end) as F.
  { repeat (apply elem_of_cons in I as [->|I]); [| | | |inversion I]; simpl.
    - unfold fetchNewsAPI.
      destruct (newsApiResponse w _ _) as [response|]; [|constructor]. cbn.
      destruct (negb _); [constructor|].
      destruct (mapM _ _) as [k|] eqn:M; [|constructor].
      eapply mapM_Forall, M. apply newsApiArticle_labels.
    - unfold fetchFinnhub.
      destruct (finnhubResponse w _) as [data|]; [|constructor]. cbn.
      destruct (mapM _ _) as [k|] eqn:M; [|constructor].
      eapply mapM_Forall, M. apply finnhubArticle_labels.
    - unfold fetchAlphaVantage.
      destruct (alphaVantageFeed w _) as [[feed|]|]; cbn; try constructor.
      destruct (mapM _ _) as [k|] eqn:M; [|constructor].
      eapply mapM_Forall, M. apply alphaVantageArticle_labels.
    - unfold fetchPolygon.
      destruct (polygonResults w _) as [[results|]|]; cbn; try constructor.
      destruct (mapM _ _) as [k|] eqn:M; [|constructor].
      eapply mapM_Forall, M. apply polygonArticle_labels. }
  unfold contribution. destruct (truthyText call.1); [exact F|constructor].
Qed.

(** The articles [getComprehensiveNews] returns for a string symbol are
    among those the adapters contribute. *)
Lemma getComprehensiveNews_from_adapters (w : NewsWorld) (symbol : string)
    (i : nat) (a : Article) :
  getComprehensiveNews w (Text symbol) !! i = Some (Ranked a) ->
  exists call, call ∈ adapterCalls w symbol /\ a ∈ contribution call.
Proof.
  rewrite NewsFacts.getComprehensiveNews_text, list_lookup_fmap.
  intros H.
  destruct (take 25 _ !! i) as [a'|] eqn:L; [|discriminate].
  injection H as ->.
  apply list_elem_of_lookup_2, elem_of_take in L as (j & L & _).
  apply list_elem_of_lookup_2 in L.
  unfold sortArticlesByRelevance in L.
  rewrite (RankingFacts.arraySort_Permutation (sortCompare compareArticles)) in L.
  pose proof (elem_of_sublist _ _ _ L (DedupFacts.filterUnseen_sublist ∅ _)) as I.
  apply list_elem_of_In, in_concat in I as (l & I1 & I2).
  apply list_elem_of_In, list_elem_of_fmap in I1 as (call & -> & I1).
  exists call. split; [exact I1|apply list_elem_of_In, I2].
Qed.

(** X7.  Every article [getComprehensiveNews] returns for a string
    symbol is well labelled: its sentiment is positive, negative or
    neutral; its impact and category are those of its headline; its tier
    is tier1, tier2 or tier3; its summary is the provider's or the
    stand-in text, and never empty; and its relevance score is the one
    of its headline and of the provider's summary for the requested
    symbol, between 0 and 60. *)
Theorem getComprehensiveNews_labels (w : NewsWorld) (symbol : string)
    (i : nat) (a : Article) :
  getComprehensiveNews w (Text symbol) !! i = Some (Ranked a) ->
  wellLabelled symbol a.
Proof.
  intros H. apply getComprehensiveNews_from_adapters in H as (call & I & A).
  pose proof (contribution_labels w symbol call I) as F.
  rewrite Forall_forall in F. apply F, A.
Qed.

Lemma getComprehensiveNews_labels_witness :
  exists a : Article,
    getComprehensiveNews finnhubOnly (Text "AAPL") !! 0%nat = Some (Ranked a)
    /\ headline a = "AAPL earnings beat as revenue climbs"
    /\ wellLabelled "AAPL" a.
Proof.
  eexists. split; [vm_compute; reflexivity|]. split; [reflexivity|].
  apply (getComprehensiveNews_labels finnhubOnly "AAPL" 0%nat).
  vm_compute. reflexivity.
Defined.

Lemma adapter_voided (key : option string) (request : Completion (list Article))
    (m : string) :
  request = Throw m -> adapter key request = Normal [].
Proof. intros ->. unfold adapter. destruct (negb _); reflexivity. Qed.

(** X8.  One article that cannot be mapped voids the whole batch of its
    provider: when an article of the response lacks its title (for
    NewsAPI: its title or the name of its source; for Finnhub: when one
    of the first 15 lacks its headline), the adapter returns the empty
    list, whatever the other articles are. *)
Theorem adapter_batch_voided (w : NewsWorld) (symbol : string) :
  (forall companyName response raw,
     newsApiResponse w companyName symbol = Normal response ->
     raw ∈ naArticles response ->
     naTitle raw = None \/ naSourceName raw = None ->
     getNewsAPIArticles w companyName symbol = Normal [])
  /\ (forall data raw,
       finnhubResponse w (toUpperCase symbol) = Normal data ->
       raw ∈ take 15 data ->
       fhHeadline raw = None ->
       getFinnhubNews w symbol = Normal [])
  /\ (forall feed raw,
       alphaVantageFeed w (toUpperCase symbol) = Normal (Some feed) ->
       raw ∈ feed ->
       avTitle raw = None ->
       getAlphaVantageNews w symbol = Normal [])
  /\ (forall results raw,
       polygonResults w (toUpperCase symbol) = Normal (Some results) ->
       raw ∈ results ->
       pgTitle raw = None ->
       getPolygonNews w symbol = Normal []).
Proof.
  split; [|split; [|split]].
  - intros companyName response raw R I H.
    unfold getNewsAPIArticles, fetchNewsAPI. rewrite R. cbn.
    destruct (negb _); [eapply adapter_voided; reflexivity|].
    assert (exists m, newsApiArticle symbol raw = Throw m) as [m T].
    { unfold newsApiArticle. destruct H as [-> | ->].
      - eexists. reflexivity.
      - destruct (naTitle raw); eexists; reflexivity. }
    destruct (mapM_Throw _ _ _ _ I T) as [m' M].
    eapply adapter_voided, M.
  - intros data raw R I H.
    unfold getFinnhubNews, fetchFinnhub. rewrite R. cbn.
    assert (exists m, finnhubArticle symbol raw = Throw m) as [m T].
    { unfold finnhubArticle. rewrite H.
      destruct (toISOString (fhDatetime raw)); eexists; reflexivity. }
    destruct (mapM_Throw _ _ _ _ I T) as [m' M].
    eapply adapter_voided, M.
  - intros feed raw R I H.
    unfold getAlphaVantageNews, fetchAlphaVantage. rewrite R. cbn.
    assert (alphaVantageArticle symbol raw = Throw "Cannot read properties of undefined") as T.
    { unfold alphaVantageArticle. rewrite H. reflexivity. }
    destruct (mapM_Throw _ _ _ _ I T) as [m' M].
    eapply adapter_voided, M.
  - intros results raw R I H.
    unfold getPolygonNews, fetchPolygon. rewrite R. cbn.
    assert (exists m, polygonArticle symbol raw = Throw m) as [m T].
    { unfold polygonArticle. rewrite H.
      destruct (pgPublisher raw); eexists; reflexivity. }
    destruct (mapM_Throw _ _ _ _ I T) as [m' M].
    eapply adapter_voided, M.
Qed.

(** X9.  The Finnhub adapter always resolves, to at most 15 articles:
    either to the empty list, or to one article for each of the first
    15 articles of the response, in the order of the response, with the
    headline and the address of that article, the tier [tier1] and the
    source [Finnhub Financial News]. *)
Theorem getFinnhubNews_first_15 (w : NewsWorld) (symbol : string) :
  exists articles : list Article,
    getFinnhubNews w symbol = Normal articles
    /\ (length articles <= 15)%nat
    /\ (articles = []
        \/ exists data,
             finnhubResponse w (toUpperCase symbol) = Normal data
             /\ Forall2
                  (fun raw a =>
                     fhHeadline raw = Some (headline a) /\ url a = fhUrl raw
                     /\ sourceTier a = "tier1"
                     /\ source a = "Finnhub Financial News")
                  (take 15 data) articles).
Proof.
  rewrite (NewsFacts.adapter_resolves (finnhubKey w) (fetchFinnhub w symbol)
           : getFinnhubNews w symbol = _).
  eexists. split; [reflexivity|].
  unfold contribution. simpl.
  destruct (truthyText (finnhubKey w)); [|split; [simpl; lia|left; reflexivity]].
  unfold fetchFinnhub.
  destruct (finnhubResponse w (toUpperCase symbol)) as [data|m];
    [|split; [simpl; lia|left; reflexivity]].
  cbn. destruct (mapM _ _) as [k|m] eqn:M; [|split; [simpl; lia|left; reflexivity]].
  split.
  - rewrite (mapM_length _ _ _ M), length_take. lia.
  - right. exists data. split; [reflexivity|].
    apply mapM_Normal in M.
    eapply Forall2_impl; [exact M|].
    intros raw a. unfold finnhubArticle.
    destruct (toISOString (fhDatetime raw)); [|discriminate].
    destruct (fhHeadline raw); [|discriminate].
    intros [= <-]. repeat split; reflexivity.
Qed.

End AdapterFacts.

(** ** The reconciliation pipeline *)

Module PipelineFacts.
Import News.

(** *** Deduplication of a list without duplicates *)

Lemma filterUnseen_unchanged (seen : gset string) (articles : list Article) :
  NoDup (dedupKey <$> articles) ->
  (forall a, a ∈ articles -> dedupKey a ∉ seen) ->
  filterUnseen seen articles = articles.
Proof.
  revert seen. induction articles as [|a rest IH]; intros seen N F; [reflexivity|].
  rewrite fmap_cons in N. apply NoDup_cons in N as [Na N].
  cbn [filterUnseen]. cbv zeta.
  destruct (decide (dedupKey a ∈ seen)) as [I|_].
  { exfalso. apply (F a); [left|exact I]. }
  f_equal. apply IH; [exact N|].
  intros b Ib. rewrite elem_of_union, elem_of_singleton. intros [E|I].
  - apply Na. rewrite <- E. apply list_elem_of_fmap_2, Ib.
  - apply (F b); [right; exact Ib|exact I].
Qed.

Lemma removeDuplicateArticles_unchanged (articles : list Article) :
  NoDup (dedupKey <$> articles) -> removeDuplicateArticles articles = articles.
Proof.
  intros N. apply filterUnseen_unchanged; [exact N|].
  intros a _. apply not_elem_of_empty.
Qed.

(** X10.  [removeDuplicateArticles] leaves a list unchanged exactly when
    no two of its articles share a key, and applying it twice is the
    same as applying it once. *)
Theorem removeDuplicateArticles_idempotent (articles : list Article) :
  (removeDuplicateArticles articles = articles <-> NoDup (dedupKey <$> articles))
  /\ removeDuplicateArticles (removeDuplicateArticles articles)
     = removeDuplicateArticles articles.
Proof.
  split; [split|].
  - intros E. rewrite <- E. apply DedupFacts.filterUnseen_keys_NoDup.
  - apply removeDuplicateArticles_unchanged.
  - apply removeDuplicateArticles_unchanged, DedupFacts.filterUnseen_keys_NoDup.
Qed.

(** *** Sorting a sorted list, and the order of ties *)

Lemma StronglySorted_take {A} (R : A -> A -> Prop) (n : nat) (l : list A) :
  StronglySorted R l -> StronglySorted R (take n l).
Proof.
  intros S. revert n. induction S as [|x l S IH F]; intros [|n]; simpl;
    try constructor.
  - apply IH.
  - rewrite Forall_forall in *. intros y I. apply F.
    apply (elem_of_sublist _ _ _ I), sublist_take.
Qed.

Lemma sortArticlesByRelevance_Forall (P : Article -> Prop)
    (articles : list Article) (symbol : string) :
  Forall P articles -> Forall P (sortArticlesByRelevance articles symbol).
Proof.
  intros F. rewrite RankingFacts.sortArticlesByRelevance_Permutation. exact F.
Qed.

(** X11.  On a list of articles whose dates all parse and whose tiers
    are no names inherited from [Object.prototype],
    [sortArticlesByRelevance] returns the articles of the input in rank
    order: an article with a higher score stands before one with a lower
    score, at equal scores the heavier tier stands first, at equal score
    and tier weight the more recent article stands first.  Sorting the
    result again changes nothing, a list that is in rank order is
    returned as it is, and the symbol plays no part. *)
Theorem sortArticlesByRelevance_idempotent
    (articles : list Article) (symbol symbol' : string) :
  Forall (fun a => sortable a = true) articles ->
  let sorted := sortArticlesByRelevance articles symbol in
  sorted ≡ₚ articles
  /\ (forall (i j : nat) (a b : Article),
        sorted !! i = Some a -> sorted !! j = Some b ->
        exists wa wb ta tb,
          tierWeight (sourceTier a) = Weight wa
          /\ tierWeight (sourceTier b) = Weight wb
          /\ publishedAt a = Parses ta /\ publishedAt b = Parses tb
          /\ (relevanceScore b < relevanceScore a -> (i < j)%nat)
          /\ (relevanceScore a = relevanceScore b -> wb < wa -> (i < j)%nat)
          /\ (relevanceScore a = relevanceScore b -> wa = wb -> tb < ta ->
              (i < j)%nat))
  /\ sortArticlesByRelevance sorted symbol' = sorted
  /\ sortArticlesByRelevance articles symbol' = sorted
  /\ (StronglySorted ranksBefore articles -> sorted = articles).
Proof.
  intros F sorted.
  assert (Fs : Forall (fun a => sortable a = true) sorted)
    by apply sortArticlesByRelevance_Forall, F.
  assert (S : StronglySorted ranksBefore sorted)
    by apply RankingFacts.sortArticlesByRelevance_StronglySorted, F.
  split; [apply RankingFacts.sortArticlesByRelevance_Permutation|].
  split; [|split; [|split]].
  - intros i j a b Hi Hj.
    rewrite Forall_forall in Fs.
    pose proof (Fs a (list_elem_of_lookup_2 _ _ _ Hi)) as Sa.
    pose proof (Fs b (list_elem_of_lookup_2 _ _ _ Hj)) as Sb.
    destruct (RankingFacts.ranksBefore_sortable b a Sb Sa)
      as (wb & wa & tb & ta & Wb & Wa & Pb & Pa & R).
    exists wa, wb, ta, tb. repeat (split; [assumption|]).
    assert (Hord : (j <= i)%nat -> ranksBefore b a).
    { intros Hle. destruct (decide (j = i)) as [->|Hne].
      - assert (a = b) as -> by congruence.
        apply R. assert (wa = wb) by congruence. assert (ta = tb) by congruence.
        lia.
      - apply (RankingFacts.StronglySorted_lookup_lt ranksBefore sorted j i b a);
          [exact S|assumption|assumption|lia]. }
    rewrite R in Hord.
    repeat split; intros; destruct (decide (i < j)%nat) as [|Hge]; try assumption;
      exfalso; assert (Hle : (j <= i)%nat) by lia; specialize (Hord Hle); lia.
  - apply RankingFacts.sortArticlesByRelevance_fixed; assumption.
  - reflexivity.
  - intros S'. apply RankingFacts.sortArticlesByRelevance_fixed; assumption.
Qed.

Lemma sortArticlesByRelevance_idempotent_witness :
  sortArticlesByRelevance
    (sortArticlesByRelevance
       [ranked "late" 10 "tier2" 5; ranked "top" 20 "tier3" 1;
        ranked "early" 10 "tier2" 9] "AAPL") "MSFT"
  = [ranked "top" 20 "tier3" 1; ranked "early" 10 "tier2" 9;
     ranked "late" 10 "tier2" 5].
Proof.
  refine (proj1 (proj2 (proj2
    (sortArticlesByRelevance_idempotent
       [ranked "late" 10 "tier2" 5; ranked "top" 20 "tier3" 1;
        ranked "early" 10 "tier2" 9] "AAPL" "MSFT" _)))).
  repeat constructor.
Defined.

(** X12.  The ranking is stable on such a list: articles of the same
    score, tier weight and publication time keep, in the sorted list,
    the order they had in the input.  For every article [x] of that kind
    the articles that rank with [x] are the same sequence before and
    after the sort. *)
Theorem sortArticlesByRelevance_stable
    (articles : list Article) (symbol : string) (x : Article) :
  Forall (fun a => sortable a = true) articles ->
  sortable x = true ->
  List.filter (fun a => sortCompare compareArticles x a =? 0)
    (sortArticlesByRelevance articles symbol)
  = List.filter (fun a => sortCompare compareArticles x a =? 0) articles
  /\ forall a : Article,
       a ∈ articles ->
       sortCompare compareArticles x a = 0
       <-> relevanceScore x = relevanceScore a
           /\ tierWeight (sourceTier x) = tierWeight (sourceTier a)
           /\ publishedAt x = publishedAt a.
Proof.
  intros F Sx.
  assert (C : forall l, Forall (fun a => sortable a = true) l ->
                List.filter (fun a => sortCompare compareArticles x a =? 0) l
                = List.filter (fun a => rankDifference x a =? 0) l).
  { intros l Fl. apply List.filter_ext_in. intros a I.
    rewrite Forall_forall in Fl. apply list_elem_of_In in I.
    unfold sortCompare.
    rewrite (RankingFacts.compareArticles_sortable x a Sx (Fl a I)). reflexivity. }
  split.
  - rewrite (C _ (sortArticlesByRelevance_Forall _ _ _ F)), (C _ F).
    rewrite (RankingFacts.sortArticlesByRelevance_sortable _ _ F).
    apply (RankingFacts.arraySort_stable rankDifference
             RankingFacts.rankDifference_opp RankingFacts.rankDifference_trans).
  - intros a I. rewrite Forall_forall in F. pose proof (F a I) as Sa.
    unfold sortCompare.
    rewrite (RankingFacts.compareArticles_sortable x a Sx Sa). simpl.
    rewrite RankingFacts.rankDifference_zero.
    destruct (RankingFacts.ranksBefore_sortable x a Sx Sa)
      as (wx & wa & tx & ta & Wx & Wa & Px & Pa & _).
    unfold timeOf. rewrite Wx, Wa, Px, Pa.
    unfold sortable in Sx, Sa. rewrite Px in Sx. rewrite Pa in Sa.
    apply negb_true_iff in Sx, Sa.
    rewrite (RankingFacts.tierWeight_number _ Sx) in Wx.
    rewrite (RankingFacts.tierWeight_number _ Sa) in Wa.
    injection Wx as <-. injection Wa as <-. simpl.
    split; intros (E1 & E2 & E3); repeat split; congruence.
Qed.

Lemma sortArticlesByRelevance_stable_witness :
  List.filter (fun a => sortCompare compareArticles (ranked "x" 10 "tier2" 5) a =? 0)
    (sortArticlesByRelevance
       [ranked "first" 10 "tier2" 5; ranked "top" 20 "tier3" 1;
        ranked "second" 10 "tier2" 5] "AAPL")
  = [ranked "first" 10 "tier2" 5; ranked "second" 10 "tier2" 5].
Proof.
  refine (proj1
    (sortArticlesByRelevance_stable
       [ranked "first" 10 "tier2" 5; ranked "top" 20 "tier3" 1;
        ranked "second" 10 "tier2" 5] "AAPL" (ranked "x" 10 "tier2" 5) _ _)).
  - repeat constructor.
  - reflexivity.
Defined.

(** The articles that are collected are sortable when their dates
    parse: the adapters hand out the tiers tier1, tier2 and tier3. *)
Lemma collected_sortable (w : NewsWorld) (symbol : string) :
  let merged := concat (contribution <$> adapterCalls w symbol) in
  Forall (fun a => is_Some (timeValue (publishedAt a))) merged ->
  Forall (fun a => sortable a = true) (removeDuplicateArticles merged).
Proof.
  intros merged F. rewrite Forall_forall in *. intros a I.
  pose proof (elem_of_sublist _ _ _ I (DedupFacts.filterUnseen_sublist ∅ _)) as M.
  destruct (F a M) as [time T].
  apply list_elem_of_In, in_concat in M as (l & I1 & I2).
  apply list_elem_of_In, list_elem_of_fmap in I1 as (call & -> & I1).
  pose proof (AdapterFacts.contribution_labels w symbol call I1) as L.
  rewrite Forall_forall in L. apply list_elem_of_In in I2.
  destruct (L a I2) as (_ & _ & _ & _ & _ & Tier & _).
  destruct (publishedAt a) as [t|text] eqn:P; [|discriminate].
  apply (RankingFacts.sortable_tier a t P Tier).
Qed.

(** X13.  The list [getComprehensiveNews] returns for a string symbol
    holds no two articles with the same deduplication key.  When the
    dates of the collected articles all parse, it is in rank order
    (every article may stand before every later one), and reconciling
    the returned list once more (deduplicate, rank, keep 25) gives the
    same list. *)
Theorem getComprehensiveNews_unique_ranked (w : NewsWorld) (symbol : string) :
  exists articles : list Article,
    getComprehensiveNews w (Text symbol) = Ranked <$> articles
    /\ NoDup (dedupKey <$> articles)
    /\ (Forall (fun a => is_Some (timeValue (publishedAt a)))
          (concat (contribution <$> adapterCalls w symbol)) ->
        (forall (i j : nat) (a b : Article),
           articles !! i = Some a -> articles !! j = Some b -> (i < j)%nat ->
           ranksBefore a b)
        /\ reconcile [Fulfilled articles] symbol = articles).
Proof.
  rewrite NewsFacts.getComprehensiveNews_text.
  set (merged := concat (contribution <$> adapterCalls w symbol)).
  set (unique := removeDuplicateArticles merged).
  set (articles := take 25 (sortArticlesByRelevance unique symbol)).
  assert (N : NoDup (dedupKey <$> articles)).
  { unfold articles. rewrite fmap_take. eapply sublist_NoDup; [|apply sublist_take].
    rewrite RankingFacts.sortArticlesByRelevance_Permutation.
    apply DedupFacts.filterUnseen_keys_NoDup. }
  exists articles. split; [reflexivity|]. split; [exact N|].
  intros F. apply collected_sortable in F. fold merged unique in F.
  assert (S : StronglySorted ranksBefore articles).
  { apply StronglySorted_take, RankingFacts.sortArticlesByRelevance_StronglySorted, F. }
  assert (Fa : Forall (fun a => sortable a = true) articles).
  { unfold articles. apply Forall_take, sortArticlesByRelevance_Forall, F. }
  split.
  - intros i j a b Ha Hb L.
    exact (RankingFacts.StronglySorted_lookup_lt _ _ _ _ _ _ S Ha Hb L).
  - unfold reconcile, collectFulfilled. cbn [fold_left app].
    rewrite (removeDuplicateArticles_unchanged articles N).
    rewrite (RankingFacts.sortArticlesByRelevance_fixed _ _ Fa S).
    apply take_ge. unfold articles. rewrite length_take. lia.
Qed.

Lemma getComprehensiveNews_unique_ranked_witness :
  exists articles : list Article,
    getComprehensiveNews finnhubOnly (Text "AAPL") = Ranked <$> articles
    /\ length articles = 2%nat
    /\ reconcile [Fulfilled articles] "AAPL" = articles.
Proof.
  destruct (getComprehensiveNews_unique_ranked finnhubOnly "AAPL")
    as (articles & E & _ & R).
  exists articles. split; [exact E|].
  split; [apply (f_equal length) in E; rewrite length_fmap in E; exact (eq_sym E)|].
  apply R. vm_compute. repeat constructor; eexists; reflexivity.
Defined.



(** *** Duplicates across providers *)

Lemma filter_concat_none {A} (P : A -> Prop) `{!forall x, Decision (P x)}
    (ls : list (list A)) :
  (forall l x, l ∈ ls -> x ∈ l -> ~ P x) -> filter P (concat ls) = [].
Proof.
  intros N. induction ls as [|l ls IH]; [reflexivity|].
  cbn [concat]. rewrite filter_app, IH.
  - rewrite app_nil_r. apply elem_of_nil_inv. intros x I.
    apply list_elem_of_filter in I as [Px I].
    apply (N l x); [left|exact I|exact Px].
  - intros l' x I. apply N. right. exact I.
Qed.

(** X15.  Among providers that carry the same story the first in the
    fan-out wins: NewsAPI before Finnhub, Finnhub before Alpha Vantage,
    Alpha Vantage before Polygon.  When [a] is the first article with
    its key in what a call contributes, and no earlier call contributes
    an article with that key, [a] is the one article with that key that
    is kept, and the only one with that key that can be returned. *)
Theorem getComprehensiveNews_provider_precedence (w : NewsWorld) (symbol : string)
    (i : nat) (call : option string * Completion (list Article)) (a : Article) :
  adapterCalls w symbol !! i = Some call ->
  head (filter (fun b => dedupKey b = dedupKey a) (contribution call)) = Some a ->
  (forall (j : nat) call' b,
     (j < i)%nat -> adapterCalls w symbol !! j = Some call' ->
     b ∈ contribution call' -> dedupKey b <> dedupKey a) ->
  filter (fun b => dedupKey b = dedupKey a)
    (removeDuplicateArticles (concat (contribution <$> adapterCalls w symbol)))
  = [a]
  /\ forall (k : nat) (b : Article),
       getComprehensiveNews w (Text symbol) !! k = Some (Ranked b) ->
       dedupKey b = dedupKey a -> b = a.
Proof.
  intros C Hd E.
  set (calls := adapterCalls w symbol) in *.
  assert (K : filter (fun b => dedupKey b = dedupKey a)
                (removeDuplicateArticles (concat (contribution <$> calls))) = [a]).
  { unfold removeDuplicateArticles.
    rewrite DedupFacts.filterUnseen_by_key.
    destruct (decide (dedupKey a ∈ (∅ : gset string))) as [I|_];
      [apply not_elem_of_empty in I; destruct I|].
    rewrite <- (take_drop_middle calls i call C), fmap_app, fmap_cons, concat_app.
    cbn [concat]. rewrite !filter_app, filter_concat_none.
    - cbn [app]. apply head_Some in Hd as [rest ->]. reflexivity.
    - intros l b Il Ib.
      apply list_elem_of_fmap in Il as (call' & -> & Il).
      apply list_elem_of_lookup in Il as [j Il].
      apply lookup_take_Some in Il as [Il Lj].
      apply (E j call' b Lj Il Ib). }
  split; [exact K|].
  intros k b R Eb.
  assert (I : b ∈ removeDuplicateArticles (concat (contribution <$> calls))).
  { rewrite NewsFacts.getComprehensiveNews_text, list_lookup_fmap in R.
    destruct (take 25 _ !! k) as [b'|] eqn:L; [|discriminate].
    injection R as ->.
    apply list_elem_of_lookup_2 in L.
    pose proof (elem_of_sublist _ _ _ L (sublist_take _ _)) as S.
    rewrite RankingFacts.sortArticlesByRelevance_Permutation in S. exact S. }
  assert (F : b ∈ filter (fun b => dedupKey b = dedupKey a)
                    (removeDuplicateArticles (concat (contribution <$> calls)))).
  { apply list_elem_of_filter. split; [exact Eb|exact I]. }
  rewrite K in F. apply list_elem_of_singleton in F. exact F.
Qed.

Lemma getComprehensiveNews_provider_precedence_witness :
  exists a b c : Article,
    contribution <$> adapterCalls overlapping "AAPL"
    = [[c]; finnhubSampleArticles; []; [b]]
    /\ finnhubSampleArticles !! 1%nat = Some a
    /\ dedupKey b = dedupKey a
    /\ source a = "Finnhub Financial News"
    /\ source b = "Polygon (Benzinga)"
    /\ filter (fun x => dedupKey x = dedupKey a)
         (removeDuplicateArticles
            (concat (contribution <$> adapterCalls overlapping "AAPL")))
       = [a].
Proof.
  eexists _, _, _. split; [vm_compute; reflexivity|].
  split; [reflexivity|]. split; [vm_compute; reflexivity|].
  split; [reflexivity|]. split; [reflexivity|].
  refine (proj1 (getComprehensiveNews_provider_precedence overlapping "AAPL" 1 _ _
                   eq_refl _ _)).
  - vm_compute. reflexivity.
  - intros j call' x L C I.
    destruct j as [|j]; [|lia].
    injection C as <-. vm_compute in I.
    apply list_elem_of_singleton in I as ->.
    vm_compute. discriminate.
Defined.

End PipelineFacts.

(** ** The outcome of the earnings chain *)

Module EarningsOutcome.
Import Earnings.

Lemma requests_app (tr tr' : list Event) :
  requests (tr ++ tr') = (requests tr ++ requests tr')%list.
Proof. apply omap_app. Qed.

Lemma adapterValue_cases (key : option string) (request : Completion (list Json))
    (build : Json -> list Json -> Completion EarningsResult) :
  adapterValue key request build = unavailable
  \/ exists latest rows result,
       configured key = true /\ request = Normal rows /\ rows !! 0%nat = Some latest
       /\ build latest rows = Normal result
       /\ adapterValue key request build = result.
Proof.
  unfold adapterValue. destruct (configured key); [|left; reflexivity].
  destruct request as [[|latest rows]|m]; [left; reflexivity| |left; reflexivity].
  destruct (build latest (latest :: rows)) as [result|m] eqn:B; [|left; reflexivity].
  right. exists latest, (latest :: rows), result. repeat split; assumption.
Qed.

Lemma readRows_Normal (rows : list Json) (result given : EarningsResult) :
  readRows rows given = Normal result -> result = given.
Proof.
  unfold readRows. destruct (forallb readable rows); [|discriminate].
  intros [= <-]. reflexivity.
Qed.

(** An adapter that reports success carries the name of its provider. *)
Lemma getFMPEarnings_source (w : EarningsWorld) (symbol : string) :
  let r := (run (getFMPEarnings w symbol)).1 in
  if success r then source r = Some "FMP" /\ configured (fmpKey w) = true
  else r = unavailable.
Proof.
  unfold run, getFMPEarnings. rewrite EarningsFacts.earningsAdapter_run. cbn [fst].
  destruct (adapterValue_cases (fmpKey w) (fmpIncomeStatement w symbol)
              (fun latest rows =>
                 readRows (take 4 rows)
                   {| success := true; source := Some "FMP";
                      latestQuarter := Some latest;
                      historicalQuarters := Some (take 4 rows) |}))
    as [-> | (latest & rows & result & C & _ & _ & B & ->)]; [reflexivity|].
  apply readRows_Normal in B as ->.
  split; [reflexivity|exact C].
Qed.

Lemma getAlphaVantageEarnings_source (w : EarningsWorld) (symbol : string) :
  let r := (run (getAlphaVantageEarnings w symbol)).1 in
  if success r then source r = Some "Alpha Vantage" /\ configured (alphavantageKey w) = true
  else r = unavailable.
Proof.
  unfold run, getAlphaVantageEarnings. rewrite EarningsFacts.earningsAdapter_run. cbn [fst].
  destruct (adapterValue_cases (alphavantageKey w)
              (alphaVantageEarnings w (toUpperCase symbol))
              (fun latest rows =>
                 readRows (take 4 rows)
                   {| success := true; source := Some "Alpha Vantage";
                      latestQuarter := Some latest;
                      historicalQuarters := Some (take 4 rows) |}))
    as [-> | (latest & rows & result & C & _ & _ & B & ->)]; [reflexivity|].
  apply readRows_Normal in B as ->.
  split; [reflexivity|exact C].
Qed.

Lemma getPolygonEarnings_source (w : EarningsWorld) (symbol : string) :
  let r := (run (getPolygonEarnings w symbol)).1 in
  if success r then source r = Some "Polygon" /\ configured (polygonKey w) = true
  else r = unavailable.
Proof.
  unfold run, getPolygonEarnings. rewrite EarningsFacts.earningsAdapter_run. cbn [fst].
  destruct (adapterValue_cases (polygonKey w) (polygonFinancials w symbol)
              (fun latest rows =>
                 readRows [latest]
                   {| success := true; source := Some "Polygon";
                      latestQuarter := Some latest;
                      historicalQuarters := None |}))
    as [-> | (latest & rows & result & C & _ & _ & B & ->)]; [reflexivity|].
  apply readRows_Normal in B as ->.
  split; [reflexivity|exact C].
Qed.

(** X16.  [getQuarterlyEarnings] always reports success: its result has
    [success] set, and its source is FMP, Alpha Vantage, Polygon or
    Estimated.  The source is Estimated exactly when none of the three
    adapters reports success; a source that names a provider needs the
    key of that provider; and with no key configured no request is sent
    and the result is the estimate.  [GET /api/earnings/:symbol]
    answers 200 with that result and the upper-case symbol. *)
Theorem getQuarterlyEarnings_always_succeeds (w : EarningsWorld) (symbol : string) :
  let fmp := (run (getFMPEarnings w symbol)).1 in
  let av := (run (getAlphaVantageEarnings w symbol)).1 in
  let polygon := (run (getPolygonEarnings w symbol)).1 in
  let outcome := run (getQuarterlyEarnings w symbol) in
  success outcome.1 = true
  /\ source outcome.1
     ∈ [Some "FMP"; Some "Alpha Vantage"; Some "Polygon"; Some "Estimated"]
  /\ (source outcome.1 = Some "Estimated"
      <-> success fmp = false /\ success av = false /\ success polygon = false)
  /\ (source outcome.1 = Some "FMP" -> configured (fmpKey w) = true)
  /\ (source outcome.1 = Some "Alpha Vantage" -> configured (alphavantageKey w) = true)
  /\ (source outcome.1 = Some "Polygon" -> configured (polygonKey w) = true)
  /\ (configured (fmpKey w) = false ->
      configured (alphavantageKey w) = false ->
      configured (polygonKey w) = false ->
      requests outcome.2 = [] /\ source outcome.1 = Some "Estimated")
  /\ (forall now : string,
      let answer := Routes.earningsRoute w now symbol in
      answer.1 = 200
      /\ Routes.earningsSymbol answer.2 = toUpperCase symbol
      /\ Routes.earnings answer.2 = outcome.1).
Proof.
  intros fmp av polygon outcome.
  cut (success outcome.1 = true
       /\ source outcome.1
          ∈ [Some "FMP"; Some "Alpha Vantage"; Some "Polygon"; Some "Estimated"]
       /\ (source outcome.1 = Some "Estimated"
           <-> success fmp = false /\ success av = false /\ success polygon = false)
       /\ (source outcome.1 = Some "FMP" -> configured (fmpKey w) = true)
       /\ (source outcome.1 = Some "Alpha Vantage" ->
           configured (alphavantageKey w) = true)
       /\ (source outcome.1 = Some "Polygon" -> configured (polygonKey w) = true)
       /\ (configured (fmpKey w) = false ->
           configured (alphavantageKey w) = false ->
           configured (polygonKey w) = false ->
           requests outcome.2 = [] /\ source outcome.1 = Some "Estimated")).
  { intros (H1 & H2 & H3 & H4 & H5 & H6 & H7).
    repeat (split; [assumption|]). intros now. repeat split. }
  pose proof (getFMPEarnings_source w symbol) as F.
  pose proof (getAlphaVantageEarnings_source w symbol) as V.
  pose proof (getPolygonEarnings_source w symbol) as P.
  cbv zeta in F, V, P. fold fmp in F. fold av in V. fold polygon in P.
  unfold outcome, run. rewrite EarningsFacts.getQuarterlyEarnings_run.
  cbv zeta. fold fmp av polygon. cbn [fst snd].
  rewrite app_nil_l, !requests_app, !EarningsFacts.requests_adapterEvents.
  destruct (success fmp) eqn:Sf.
  { destruct F as [-> C]. rewrite C.
    repeat split; try (intros; discriminate); try congruence; try in_list.
    intros (? & _); discriminate. }
  destruct (success av) eqn:Sv.
  { destruct V as [-> C]. rewrite C.
    repeat split; try (intros; discriminate); try congruence; try in_list.
    intros (_ & ? & _); discriminate. }
  destruct (success polygon) eqn:Sp.
  { destruct P as [-> C]. rewrite C.
    repeat split; try (intros; discriminate); try congruence; try in_list.
    intros (_ & _ & ?); discriminate. }
  simpl.
  repeat split; try (intros; discriminate); try in_list.
  match goal with
  | A : configured (fmpKey w) = false,
    B : configured (alphavantageKey w) = false,
    C : configured (polygonKey w) = false |- _ =>
      rewrite A, B, C; reflexivity
  end.
Qed.

End EarningsOutcome.

(** ** The answers of [POST /api/analyze] *)

Module AnalyzeAnswers.
Import Market AnalyzeRoute RouteSamples.

Lemma getQuarterlyEarnings_success (w : Earnings.EarningsWorld) (symbol : string) :
  Earnings.success (Earnings.run (Earnings.getQuarterlyEarnings w symbol)).1 = true.
Proof.
  unfold Earnings.run. rewrite EarningsFacts.getQuarterlyEarnings_run. cbn [fst].
  destruct (Earnings.success (Earnings.run (Earnings.getFMPEarnings w symbol)).1)
    eqn:F; [exact F|].
  destruct (Earnings.success (Earnings.run (Earnings.getAlphaVantageEarnings w symbol)).1)
    eqn:V; [exact V|].
  destruct (Earnings.success (Earnings.run (Earnings.getPolygonEarnings w symbol)).1)
    eqn:P; [exact P|].
  reflexivity.
Qed.

(** The answer to a symbol that is a string and not empty. *)
Lemma analyze_string (w : World) (symbol : string) :
  symbol <> "" ->
  analyze w (Some (JStr symbol))
  = let '(primaryData, fmpData, earningsData) :=
      fetchPrimary w symbol (detectAssetType symbol) in
    match primaryData with
    | PrimaryFailure error =>
        {| status := 500; body := ErrorBody (fatalMessage symbol) (Some error) |}
    | PrimarySuccess quote =>
        json (AnalysisBody
          (analysisOf w symbol (detectAssetType symbol) quote fmpData earningsData))
    end.
Proof.
  intros N. unfold analyze. rewrite (AnalyzeRouteFacts.truthy_nonempty symbol N).
  cbn [negb].
  destruct (fetchPrimary w symbol (detectAssetType symbol)) as [[[q|e] f] d];
    reflexivity.
Qed.

(** The three ways a request is answered: a missing or falsy symbol, a
    truthy symbol that is no string, and a non-empty string. *)
Lemma analyze_cases (w : World) (bodySymbol : option Json) :
  ((bodySymbol = None
    \/ exists value, bodySymbol = Some value /\ truthyJson value = false)
   /\ analyze w bodySymbol
      = {| status := 400; body := ErrorBody "Stock symbol is required" None |})
  \/ (exists value,
        bodySymbol = Some value /\ truthyJson value = true
        /\ (forall symbol, value <> JStr symbol)
        /\ analyze w bodySymbol
           = {| status := 500;
                body := ErrorBody "Internal server error during analysis"
                          (Some "symbol.toUpperCase is not a function") |})
  \/ (exists symbol,
        bodySymbol = Some (JStr symbol) /\ symbol <> ""
        /\ analyze w bodySymbol
           = let '(primaryData, fmpData, earningsData) :=
               fetchPrimary w symbol (detectAssetType symbol) in
             match primaryData with
             | PrimaryFailure error =>
                 {| status := 500;
                    body := ErrorBody (fatalMessage symbol) (Some error) |}
             | PrimarySuccess quote =>
                 json (AnalysisBody
                   (analysisOf w symbol (detectAssetType symbol) quote fmpData
                      earningsData))
             end).
Proof.
  destruct bodySymbol as [value|]; [|left; split; [left|]; reflexivity].
  destruct (truthyJson value) eqn:T.
  2:{ left. split; [right; exists value; split; [reflexivity|exact T]|].
      unfold analyze. rewrite T. reflexivity. }
  destruct value as [|b|x|symbol|items|fields];
    try (right; left; eexists; split; [reflexivity|]; split; [exact T|];
         split; [discriminate|]; unfold analyze; rewrite T; reflexivity).
  right. right. exists symbol.
  assert (N : symbol <> "") by (intros ->; discriminate).
  split; [reflexivity|]. split; [exact N|]. apply analyze_string, N.
Qed.

(** X17.  The route answers 200, 400 or 500.  It answers 400, with the
    message that a symbol is required, exactly when the body has no
    symbol or a falsy one (the empty string, [0], [false], [null]); a
    symbol that is truthy and not a string is answered 500 with the
    internal-error message; and it answers 200 exactly when the symbol
    is a non-empty string whose primary fetch succeeds. *)
Theorem analyze_status (w : World) (bodySymbol : option Json) :
  let r := analyze w bodySymbol in
  status r ∈ [200; 400; 500]
  /\ (status r = 400
      <-> bodySymbol = None
          \/ exists value, bodySymbol = Some value /\ truthyJson value = false)
  /\ (status r = 400 -> body r = ErrorBody "Stock symbol is required" None)
  /\ (forall value,
        bodySymbol = Some value -> truthyJson value = true ->
        (forall symbol, value <> JStr symbol) ->
        r = {| status := 500;
               body := ErrorBody "Internal server error during analysis"
                         (Some "symbol.toUpperCase is not a function") |})
  /\ (status r = 200
      <-> exists symbol quote,
            bodySymbol = Some (JStr symbol) /\ symbol <> ""
            /\ primaryFetch w symbol = PrimarySuccess quote).
Proof.
  intros r. subst r.
  destruct (analyze_cases w bodySymbol)
    as [[F ->] | [(value & -> & T & S & ->) | (symbol & -> & N & ->)]].
  - cbn. split; [in_list|]. split; [tauto|]. split; [reflexivity|]. split.
    + intros value -> T S. destruct F as [?|(v & [= <-] & ?)]; congruence.
    + split; [discriminate|]. intros (s & q & -> & N & _).
      destruct F as [?|(v & [= <-] & F)]; [discriminate|].
      rewrite (AnalyzeRouteFacts.truthy_nonempty s N) in F. discriminate.
  - cbn. split; [in_list|]. split; [|split; [discriminate|split]].
    + split; [discriminate|]. intros [?|(v & [= <-] & ?)]; congruence.
    + reflexivity.
    + split; [discriminate|]. intros (s & q & [= ->] & _).
      exfalso. apply (S s). reflexivity.
  - unfold primaryFetch.
    destruct (fetchPrimary w symbol (detectAssetType symbol)) as [[[q|e] f] d] eqn:P;
      cbn.
    + split; [in_list|]. split; [|split; [discriminate|split]].
      * split; [discriminate|]. intros [?|(v & [= <-] & F)]; [discriminate|].
        rewrite (AnalyzeRouteFacts.truthy_nonempty symbol N) in F. discriminate.
      * intros v [= <-] _ S. exfalso. apply (S symbol). reflexivity.
      * split; [|intros _; reflexivity].
        intros _. exists symbol, q. split; [reflexivity|]. split; [exact N|].
        rewrite P. reflexivity.
    + split; [in_list|]. split; [|split; [discriminate|split]].
      * split; [discriminate|]. intros [?|(v & [= <-] & F)]; [discriminate|].
        rewrite (AnalyzeRouteFacts.truthy_nonempty symbol N) in F. discriminate.
      * intros v [= <-] _ S. exfalso. apply (S symbol). reflexivity.
      * split; [discriminate|]. intros (s & q' & [= <-] & _ & H).
        rewrite P in H. discriminate.
Qed.

(** X18.  A crypto symbol whose CoinGecko fetch succeeds is answered 200
    with an analysis that holds no crypto fundamentals: the
    [fundamentals] field is the promise that [generateFundamentals]
    hands back and the route does not await.  Earnings are marked not
    applicable, the sector is CRYPTOCURRENCY, and company and symbol are
    the upper-case symbol. *)
Theorem analyze_crypto (w : World) (symbol : string) (q : Quote) :
  symbol <> "" ->
  detectAssetType symbol = Crypto ->
  getCryptoData (market w) symbol = PrimarySuccess q ->
  exists a : Analysis,
    analyze w (Some (JStr symbol)) = json (AnalysisBody a)
    /\ fundamentals a = UnawaitedPromise
    /\ earningsData a = NotApplicable "Earnings not applicable for cryptocurrency"
    /\ quarterlyEarnings a = false
    /\ sector a = "CRYPTOCURRENCY"
    /\ company a = Some (toUpperCase symbol)
    /\ AnalyzeRoute.symbol a = toUpperCase symbol
    /\ assetType a = Crypto
    /\ dataSource a = "CoinGecko + Yahoo Finance".
Proof.
  intros N T G.
  rewrite (analyze_string w symbol N), T. cbn [fetchPrimary]. rewrite G.
  eexists. split; [reflexivity|].
  apply QuoteFacts.getCryptoData_success in G as (data & _ & ->).
  repeat split; reflexivity.
Qed.

Lemma analyze_crypto_witness :
  exists a : Analysis,
    analyze quotesUp (Some (JStr "btc")) = json (AnalysisBody a)
    /\ fundamentals a = UnawaitedPromise
    /\ company a = Some "BTC".
Proof.
  assert (N : "btc" <> "") by discriminate.
  destruct (analyze_crypto quotesUp "btc" _ N eq_refl eq_refl)
    as (a & E & F & _ & _ & _ & C & _).
  exists a. repeat split; assumption.
Defined.

(** X19.  A symbol that is not a crypto symbol and whose Yahoo fetch
    succeeds is answered 200 with stock fundamentals and with earnings
    that report success, so the flag [quarterlyEarnings] is set.
    Company and sector are those of the FMP profile when there is one;
    otherwise the company is the name of the Yahoo quote and the sector
    is Technology, whatever the asset.  The prices are those of the
    quote, rounded to two decimals, and the sentiment is that of the
    articles [getComprehensiveNews] returns. *)
Theorem analyze_equity (w : World) (symbol : string) (q : Quote) :
  symbol <> "" ->
  detectAssetType symbol <> Crypto ->
  getYahooFinanceData (market w) symbol = PrimarySuccess q ->
  exists a : Analysis,
    analyze w (Some (JStr symbol)) = json (AnalysisBody a)
    /\ (exists result,
          earningsData a = Reported result /\ Earnings.success result = true)
    /\ quarterlyEarnings a = true
    /\ (exists marketCap peRatio eps,
          fundamentals a = StockFundamentals marketCap peRatio eps (randomFigures w))
    /\ match fmpFundamentals w symbol with
       | Some profile =>
           company a = companyName profile /\ sector a = profileSector profile
       | None =>
           company a = Some (Market.name q) /\ sector a = "Technology"
       end
    /\ currentPrice a = roundFixed 2 (Market.currentPrice q)
    /\ priceChange a = roundFixed 2 (Market.change q)
    /\ priceChangePercent a = roundFixed 2 (Market.changePercent q)
    /\ sentiment a
       = Sentiment.calculateSentimentScore
           (News.getComprehensiveNews (news w) (Text symbol))
    /\ dataSource a = "Yahoo Finance + FMP + Multiple News Sources".
Proof.
  intros N T Y.
  rewrite (analyze_string w symbol N).
  assert (F : fetchPrimary w symbol (detectAssetType symbol)
              = (PrimarySuccess q, fmpFundamentals w symbol,
                 Reported (Earnings.run
                   (Earnings.getQuarterlyEarnings (earnings w) symbol)).1)).
  { unfold fetchPrimary. rewrite Y.
    destruct (detectAssetType symbol); [contradiction| | |]; reflexivity. }
  rewrite F. eexists. split; [reflexivity|].
  unfold analysisOf. cbn.
  split; [eexists; split; [reflexivity|apply getQuarterlyEarnings_success]|].
  split; [apply getQuarterlyEarnings_success|].
  split.
  { unfold generateFundamentals, generateStockFundamentals.
    destruct (detectAssetType symbol); [contradiction| | |];
      destruct (fmpFundamentals w symbol); do 3 eexists; reflexivity. }
  split.
  { destruct (fmpFundamentals w symbol); [split; reflexivity|].
    split; [reflexivity|].
    destruct (detectAssetType symbol); [contradiction| | |]; reflexivity. }
  repeat split.
  destruct (detectAssetType symbol); [contradiction| | |]; reflexivity.
Qed.

Lemma analyze_equity_witness :
  exists a : Analysis,
    analyze quotesUp (Some (JStr "SPY")) = json (AnalysisBody a)
    /\ quarterlyEarnings a = true
    /\ sector a = "Technology"
    /\ company a = Some "XYZ Holdings".
Proof.
  assert (N : "SPY" <> "") by discriminate.
  assert (T : detectAssetType "SPY" <> Crypto) by discriminate.
  destruct (analyze_equity quotesUp "SPY" _ N T eq_refl)
    as (a & E & _ & Q & _ & [C S] & _).
  exists a. repeat split; assumption.
Defined.

End AnalyzeAnswers.

(** ** The answers of the serverless handlers *)

Module ServerlessAnswers.
Import Market Serverless.

(** The request carries a symbol that is a non-empty string. *)
Lemma symbol_cases (bodySymbol : option Json) :
  (exists symbol, bodySymbol = Some (JStr symbol) /\ symbol <> "")
  \/ (forall symbol, bodySymbol = Some (JStr symbol) -> symbol = "").
Proof.
  destruct bodySymbol as [[| | |symbol| |]|]; try (right; intros s; discriminate).
  destruct (String.eqb_spec symbol "") as [->|N].
  - right. intros s [= <-]. reflexivity.
  - left. exists symbol. split; [reflexivity|exact N].
Qed.

Lemma analyzeHandler_no_symbol (w : AnalyzeWorld) (bodySymbol : option Json) :
  (forall symbol, bodySymbol = Some (JStr symbol) -> symbol = "") ->
  analyzeHandler w "POST" bodySymbol
  = respond 400 [("error", JStr "Symbol required"); ("message", JStr usage)].
Proof.
  intros H. unfold analyzeHandler. simpl.
  destruct bodySymbol as [[| | |symbol| |]|]; try reflexivity.
  rewrite (H symbol eq_refl). reflexivity.
Qed.

(** X20.  The status codes of [api/analyze.js].  OPTIONS is answered 200
    without a body and any method other than OPTIONS and POST 405,
    before the body is read.  A POST is answered 400 exactly when its
    symbol is not a non-empty string; otherwise 500 exactly when
    [encodeURIComponent] throws on the symbol, or the fetch rejects, or
    the body of an ok response does not parse, with the reason of a
    rejected fetch after [Price fetch failed: ]; and otherwise 200.  A
    response of Yahoo that is not ok is never an error. *)
Theorem analyzeHandler_status (w : AnalyzeWorld) (method : string)
    (bodySymbol : option Json) :
  let r := analyzeHandler w method bodySymbol in
  status r ∈ [200; 400; 405; 500]
  /\ (method = "OPTIONS" -> r = {| status := 200; body := None |})
  /\ (method <> "OPTIONS" -> method <> "POST" ->
      r = respond 405 [ ("error", JStr "Method not allowed");
                        ("message", JStr "Only POST requests are allowed") ])
  /\ (method = "POST" ->
      (status r = 400
       <-> forall symbol, bodySymbol = Some (JStr symbol) -> symbol = "")
      /\ forall symbol,
           bodySymbol = Some (JStr symbol) -> symbol <> "" ->
           (status r = 500
            <-> (exists m, encodeURIComponent w symbol = Throw m)
                \/ (exists component,
                      encodeURIComponent w symbol = Normal component
                      /\ ((exists m, yahoo w component = Throw m)
                          \/ (exists resp m,
                                yahoo w component = Normal resp /\ ok resp = true
                                /\ chartMeta resp = Throw m))))
           /\ (status r = 200 \/ status r = 500)
           /\ (forall component m,
                 encodeURIComponent w symbol = Normal component ->
                 yahoo w component = Throw m ->
                 bodyField "details" r = Some (JStr ("Price fetch failed: " ++ m)))).
Proof.
  intros r. subst r.
  destruct (String.eqb_spec method "OPTIONS") as [->|NO].
  { cbn. split; [in_list|]. split; [reflexivity|].
    split; [intros H; contradiction|discriminate]. }
  destruct (String.eqb_spec method "POST") as [->|NP].
  2:{ assert (E : analyzeHandler w method bodySymbol
                  = respond 405 [ ("error", JStr "Method not allowed");
                                  ("message", JStr "Only POST requests are allowed") ]).
      { unfold analyzeHandler.
        destruct (String.eqb_spec method "OPTIONS"); [contradiction|].
        destruct (String.eqb_spec method "POST"); [contradiction|]. reflexivity. }
      rewrite E. cbn. split; [in_list|]. split; [intros; contradiction|].
      split; [reflexivity|intros; contradiction]. }
  destruct (symbol_cases bodySymbol) as [(symbol & -> & N)|F].
  2:{ rewrite (analyzeHandler_no_symbol w bodySymbol F). cbn.
      split; [in_list|]. split; [discriminate|]. split; [intros; contradiction|].
      intros _. split; [split; [intros _; exact F|reflexivity]|].
      intros symbol E N. exfalso. apply N, F, E. }
  assert (S : forall s : string, Some (JStr symbol) = Some (JStr s) -> s = symbol).
  { intros s [= ->]. reflexivity. }
  unfold analyzeHandler. simpl.
  destruct (String.eqb_spec symbol ""); [contradiction|].
  destruct (encodeURIComponent w symbol) as [component|m] eqn:En; simpl.
  2:{ split; [in_list|]. split; [discriminate|]. split; [intros; contradiction|].
      intros _. split.
      - split; [discriminate|]. intros H. exfalso. apply N, H. reflexivity.
      - intros s E _. apply S in E as ->. rewrite En. split; [|split].
        + split; [|reflexivity]. intros _. left. exists m. reflexivity.
        + right. reflexivity.
        + discriminate. }
  destruct (yahoo w component) as [resp|m] eqn:Y; simpl.
  2:{ split; [in_list|]. split; [discriminate|]. split; [intros; contradiction|].
      intros _. split.
      - split; [discriminate|]. intros H. exfalso. apply N, H. reflexivity.
      - intros s E _. apply S in E as ->. rewrite En. split; [|split].
        + split; [|reflexivity]. intros _. right. exists component.
          split; [reflexivity|]. left. exists m. exact Y.
        + right. reflexivity.
        + intros c m' [= <-] Y'. rewrite Y in Y'. injection Y' as <-. reflexivity. }
  destruct (ok resp) eqn:O; simpl.
  2:{ split; [in_list|]. split; [discriminate|]. split; [intros; contradiction|].
      intros _. split.
      - split; [discriminate|]. intros H. exfalso. apply N, H. reflexivity.
      - intros s E _. apply S in E as ->. rewrite En. split; [|split].
        + split; [discriminate|].
          intros [(m & H)|(c & [= <-] & [(m & H)|(resp' & m & H1 & H2 & _)])];
            congruence.
        + left. reflexivity.
        + intros c m' [= <-] Y'. congruence. }
  destruct (chartMeta resp) as [[meta|]|m] eqn:C; simpl.
  - split; [in_list|]. split; [discriminate|]. split; [intros; contradiction|].
    intros _. split.
    + split; [discriminate|]. intros H. exfalso. apply N, H. reflexivity.
    + intros s E _. apply S in E as ->. rewrite En. split; [|split].
      * split; [discriminate|].
        intros [(m & H)|(c & [= <-] & [(m & H)|(resp' & m & H1 & _ & H2)])];
          congruence.
      * left. reflexivity.
      * intros c m' [= <-] Y'. congruence.
  - split; [in_list|]. split; [discriminate|]. split; [intros; contradiction|].
    intros _. split.
    + split; [discriminate|]. intros H. exfalso. apply N, H. reflexivity.
    + intros s E _. apply S in E as ->. rewrite En. split; [|split].
      * split; [discriminate|].
        intros [(m & H)|(c & [= <-] & [(m & H)|(resp' & m & H1 & _ & H2)])];
          congruence.
      * left. reflexivity.
      * intros c m' [= <-] Y'. congruence.
  - split; [in_list|]. split; [discriminate|]. split; [intros; contradiction|].
    intros _. split.
    + split; [discriminate|]. intros H. exfalso. apply N, H. reflexivity.
    + intros s E _. apply S in E as ->. rewrite En. split; [|split].
      * split; [|reflexivity]. intros _. right. exists component.
        split; [reflexivity|]. right. exists resp, m. repeat split; assumption.
      * right. reflexivity.
      * intros c m' [= <-] Y'. congruence.
Qed.

(** A symbol with a surrogate that lacks its pair is answered 500,
    before anything is fetched. *)
Example analyzeHandler_malformed_symbol (symbol : string) :
  symbol <> "" ->
  analyzeHandler malformedSymbol "POST" (Some (JStr symbol))
  = respond 500 [("error", JStr "Analysis failed"); ("details", JStr "URI malformed")].
Proof.
  intros N. unfold analyzeHandler. simpl.
  destruct (String.eqb_spec symbol ""); [contradiction|reflexivity].
Qed.

(** X21.  The fetch-based handler answers every POST with a non-empty
    string symbol with status 200 and marks where the figures come from:
    [source] is [mock-fallback] exactly when the price fetch fails, for
    whatever reason, and [yahoo-finance] otherwise.  A failure of the
    news fetch plays no part, and the answer never holds more than three
    articles of it. *)
Theorem fixedHandler_marked (w : FixedWorld) (symbol : string) :
  symbol <> "" ->
  let r := fixedHandler w "POST" (Some (JStr symbol)) in
  status r = 200
  /\ (bodyField "source" r = Some (JStr "mock-fallback")
      <-> exists m, fetchPriceData w symbol = Throw m)
  /\ (bodyField "source" r = Some (JStr "yahoo-finance")
      <-> exists price, fetchPriceData w symbol = Normal price)
  /\ (forall price,
        fetchPriceData w symbol = Normal price ->
        bodyField "currentPrice" r = Some (jnumber (priceRegularMarketPrice price))
        /\ exists articles,
             (bodyField "sentiment" r ≫= field "articles") = Some (JArr articles)
             /\ articles = take 3 (newsFetch w symbol)).
Proof.
  intros N r. subst r. unfold fixedHandler. simpl.
  destruct (String.eqb_spec symbol ""); [contradiction|]. simpl.
  destruct (fetchPriceData w symbol) as [price|m]; simpl.
  - split; [reflexivity|]. split; [|split].
    + split; [discriminate|]. intros (m & H). discriminate.
    + split; [|reflexivity]. intros _. exists price. reflexivity.
    + intros p [= <-]. split; [reflexivity|]. eexists. split; reflexivity.
  - split; [reflexivity|]. split; [|split].
    + split; [|reflexivity]. intros _. exists m. reflexivity.
    + split; [discriminate|]. intros (p & H). discriminate.
    + discriminate.
Qed.

Lemma fixedHandler_marked_witness :
  status (fixedHandler fixedYahooRefuses "POST" (Some (JStr "AAPL"))) = 200
  /\ exists m, fetchPriceData fixedYahooRefuses "AAPL" = Throw m.
Proof.
  assert (N : "AAPL" <> "") by discriminate.
  destruct (fixedHandler_marked fixedYahooRefuses "AAPL" N) as (S & M & _).
  split; [exact S|]. apply M. reflexivity.
Defined.

End ServerlessAnswers.

(** ** Chart data *)

Module ChartFacts.
Import Market Chart CompletionFacts.

Lemma addTechnicalIndicators_lookup (chartData : list ChartPoint) (i : nat) :
  addTechnicalIndicators chartData !! i
  = withIndicators chartData i <$> chartData !! i.
Proof. apply list_lookup_imap. Qed.

Lemma addTechnicalIndicators_length (chartData : list ChartPoint) :
  length (addTechnicalIndicators chartData) = length chartData.
Proof. apply length_imap. Qed.

(** X22.  [addTechnicalIndicators] returns one point for each point it
    is given, in the same order and with the same date, prices and
    volume; the field [index] of a point is its position.  The averages
    have a warm-up: [sma20] is null at the first 19 positions, [sma50]
    at the first 49 and [ema12] at the first 11. *)
Theorem addTechnicalIndicators_shape (chartData : list ChartPoint) :
  length (addTechnicalIndicators chartData) = length chartData
  /\ forall (i : nat) (p : ChartPoint),
       addTechnicalIndicators chartData !! i = Some p ->
       exists item : ChartPoint,
         chartData !! i = Some item
         /\ index p = Some i
         /\ time p = time item /\ displayDate p = displayDate item
         /\ open p = open item /\ high p = high item /\ low p = low item
         /\ close p = close item /\ volume p = volume item
         /\ ((i < 19)%nat -> sma20 p = None)
         /\ ((i < 49)%nat -> sma50 p = None)
         /\ ((i < 11)%nat -> ema12 p = None).
Proof.
  split; [apply addTechnicalIndicators_length|].
  intros i p. rewrite addTechnicalIndicators_lookup.
  destruct (chartData !! i) as [item|]; [|discriminate].
  intros [= <-]. exists item. unfold withIndicators.
  cbn [index time displayDate open high low close volume sma20 sma50 ema12].
  cbv zeta.
  repeat split; intros L.
  - destruct (Nat.leb_spec 19 i); [lia|reflexivity].
  - destruct (Nat.leb_spec 49 i); [lia|reflexivity].
  - destruct (Nat.leb_spec 11 i); [lia|reflexivity].
Qed.

(** The moving average of a point above position 11, for a list whose
    previous point carries no [ema12]. *)
Lemma withIndicators_ema12 (chartData : list ChartPoint) (i : nat) (item : ChartPoint) :
  (11 < i)%nat ->
  chartData !! (i - 1)%nat ≫= ema12 = None ->
  ema12 (withIndicators chartData i item)
  = roundedOrNull
      (Some (close item * (2 / (12 + 1)) + close item * (1 - 2 / (12 + 1)))%float).
Proof.
  intros L E. unfold withIndicators. cbn [ema12]. cbv zeta.
  destruct (Nat.leb_spec 11 i); [|lia].
  destruct (Nat.eqb_spec i 11); [lia|].
  rewrite E. reflexivity.
Qed.

(** X23.  The average [ema12] is not carried from point to point.  The
    callback reads the field [ema12] of the previous point of the list
    it is given; when the points of that list have no such field, as
    those [getDetailedChartData] builds, the value at every position
    above 11 comes from the close of that point alone:
    [close * k + close * (1 - k)] with [k = 2 / 13], rounded to two
    decimals.  At position 11 it is the mean of the first 12 closes. *)
Theorem addTechnicalIndicators_ema12 (chartData : list ChartPoint)
    (i : nat) (p : ChartPoint) :
  (forall item, item ∈ chartData -> ema12 item = None) ->
  addTechnicalIndicators chartData !! i = Some p ->
  ((11 < i)%nat ->
   ema12 p
   = roundedOrNull
       (Some (close p * (2 / (12 + 1)) + close p * (1 - 2 / (12 + 1)))%float))
  /\ (i = 11%nat ->
      ema12 p = roundedOrNull (Some (sumClose chartData 0 12 / 12)%float)).
Proof.
  intros N. rewrite addTechnicalIndicators_lookup.
  destruct (chartData !! i) as [item|] eqn:I; [|discriminate].
  intros [= <-]. split.
  - intros L. change (close (withIndicators chartData i item)) with (close item).
    apply withIndicators_ema12; [exact L|].
    destruct (chartData !! (i - 1)%nat) as [previous|] eqn:P; [|reflexivity].
    apply N, list_elem_of_lookup_2 with (i - 1)%nat, P.
  - intros ->. reflexivity.
Qed.

Lemma addTechnicalIndicators_ema12_witness :
  exists p : ChartPoint,
    addTechnicalIndicators flatChart !! 12%nat = Some p /\ ema12 p = Some 10%float.
Proof.
  eexists. split; [reflexivity|].
  refine (eq_trans
    (proj1 (addTechnicalIndicators_ema12 flatChart 12 _ _ eq_refl) ltac:(lia)) _).
  - intros item I. apply elem_of_replicate in I as [-> _]. reflexivity.
  - reflexivity.
Defined.

(** What [getDetailedChartData] returns: the empty list, or the points
    with their indicators. *)
Lemma getDetailedChartData_cases (w : ChartWorld) (symbol : string) :
  getDetailedChartData w symbol = []
  \/ exists result quote items,
       yearChart w (convertToYahooSymbol symbol) = Normal (Some result)
       /\ indicators result = Some quote
       /\ mapM (fun '(i, timestamp) => chartItem w quote i timestamp)
               (imap pair (default [] (timestamps result)))
          = Normal items
       /\ getDetailedChartData w symbol
          = addTechnicalIndicators (List.filter plotted items).
Proof.
  unfold getDetailedChartData.
  destruct (yearChart w (convertToYahooSymbol symbol)) as [[result|]|m] eqn:Y;
    cbn; try (left; reflexivity).
  destruct (indicators result) as [quote|] eqn:Q; cbn; [|left; reflexivity].
  destruct (mapM _ _) as [items|m] eqn:M; cbn; [|left; reflexivity].
  right. exists result, quote, items.
  split; [reflexivity|]. split; [exact Q|]. split; [exact M|reflexivity].
Qed.

Lemma chartItem_ema12 (w : ChartWorld) (quote : option QuoteColumns)
    (i : nat) (timestamp : Z) (item : ChartPoint) :
  chartItem w quote i timestamp = Normal item -> ema12 item = None.
Proof.
  unfold chartItem. intros H.
  repeat (match type of H with
          | (match ?c with _ => _ end) = _ => destruct c; cbn in H; try discriminate
          | mbind _ ?c = _ => destruct c; cbn in H; try discriminate
          end).
  injection H as <-. reflexivity.
Qed.

(** X24.  Every point [getDetailedChartData] returns has a close above
    zero, and the field [index] of a point is its position in the
    returned list; days whose close is missing, zero or negative are
    left out, so the list is never longer than the list of timestamps
    of the response.  The field [ema12] of a point above position 11 is
    [close * k + close * (1 - k)] of its own close, rounded.  A request
    that fails gives the empty list. *)
Theorem getDetailedChartData_points (w : ChartWorld) (symbol : string) :
  (forall (i : nat) (p : ChartPoint),
     getDetailedChartData w symbol !! i = Some p ->
     index p = Some i
     /\ PrimFloat.ltb 0 (close p) = true
     /\ PrimFloat.is_nan (close p) = false
     /\ ((11 < i)%nat ->
         ema12 p
         = roundedOrNull
             (Some (close p * (2 / (12 + 1)) + close p * (1 - 2 / (12 + 1)))%float)))
  /\ (forall result,
        yearChart w (convertToYahooSymbol symbol) = Normal (Some result) ->
        (length (getDetailedChartData w symbol)
         <= length (default [] (timestamps result)))%nat)
  /\ (forall m,
        yearChart w (convertToYahooSymbol symbol) = Throw m ->
        getDetailedChartData w symbol = [])
  /\ (yearChart w (convertToYahooSymbol symbol) = Normal None ->
      getDetailedChartData w symbol = []).
Proof.
  split; [|split; [|split]].
  - intros i p.
    destruct (getDetailedChartData_cases w symbol)
      as [-> | (result & quote & items & _ & _ & M & ->)]; [discriminate|].
    set (chartData := List.filter plotted items).
    rewrite addTechnicalIndicators_lookup.
    destruct (chartData !! i) as [item|] eqn:I; [|discriminate].
    intros [= <-].
    assert (P : plotted item = true).
    { apply list_elem_of_lookup_2, list_elem_of_In, filter_In in I as [_ P]. exact P. }
    apply andb_true_iff in P as [P1 P2]. apply negb_true_iff in P2.
    split; [reflexivity|]. split; [exact P1|]. split; [exact P2|].
    intros L. change (close (withIndicators chartData i item)) with (close item).
    apply withIndicators_ema12; [exact L|].
    destruct (chartData !! (i - 1)%nat) as [previous|] eqn:Pr; [|reflexivity].
    apply list_elem_of_lookup_2, list_elem_of_In, filter_In in Pr as [Pr _].
    apply list_elem_of_In in Pr.
    assert (F : Forall (fun item => ema12 item = None) items).
    { eapply mapM_Forall; [|exact M]. intros [j t] it. apply chartItem_ema12. }
    rewrite Forall_forall in F. apply F, Pr.
  - intros result Y.
    destruct (getDetailedChartData_cases w symbol)
      as [-> | (result' & quote & items & Y' & _ & M & ->)]; [simpl; lia|].
    rewrite Y in Y'. injection Y' as <-.
    rewrite addTechnicalIndicators_length.
    apply mapM_length in M. rewrite length_imap in M. rewrite <- M.
    apply List.filter_length_le.
  - intros m Y. unfold getDetailedChartData. rewrite Y. reflexivity.
  - intros Y. unfold getDetailedChartData. rewrite Y. reflexivity.
Qed.

(** [column[i] || quote.close[i] || 0] on columns that are there. *)
Lemma cellOrClose_columns (q : QuoteColumns)
    (column : QuoteColumns -> option (list (option float))) (i : nat)
    (cells closes : list (option float)) :
  column q = Some cells -> colClose q = Some closes ->
  cellOrClose (Some q) column i
  = Normal (orElse (cells !! i ≫= id) (orElse (closes !! i ≫= id) 0)).
Proof.
  intros C Cl. unfold cellOrClose, cell. rewrite C, Cl. cbn.
  destruct (cells !! i ≫= id) as [v|]; cbn; [|reflexivity].
  destruct (truthy v); reflexivity.
Qed.

Lemma cellOrClose_Normal (quote : option QuoteColumns)
    (column : QuoteColumns -> option (list (option float))) (i : nat) (x : float) :
  cellOrClose quote column i = Normal x ->
  exists q cells, quote = Some q /\ column q = Some cells.
Proof.
  unfold cellOrClose, cell. destruct quote as [q|]; [|discriminate].
  destruct (column q) as [cells|] eqn:C; [|discriminate]. intros _.
  exists q, cells. split; [reflexivity|exact C].
Qed.

(** A point is built from the cells of its day. *)
Lemma chartItem_columns (w : ChartWorld) (quote : option QuoteColumns)
    (i : nat) (timestamp : Z) (item : ChartPoint) :
  chartItem w quote i timestamp = Normal item ->
  exists q opens highs lows closes,
    quote = Some q
    /\ colOpen q = Some opens /\ colHigh q = Some highs
    /\ colLow q = Some lows /\ colClose q = Some closes
    /\ isoDay w timestamp = Normal (time item)
    /\ close item = roundFixed 2 (orElse (closes !! i ≫= id) 0)
    /\ open item
       = roundFixed 2 (orElse (opens !! i ≫= id) (orElse (closes !! i ≫= id) 0))
    /\ high item
       = roundFixed 2 (orElse (highs !! i ≫= id) (orElse (closes !! i ≫= id) 0))
    /\ low item
       = roundFixed 2 (orElse (lows !! i ≫= id) (orElse (closes !! i ≫= id) 0)).
Proof.
  unfold chartItem. intros H.
  destruct (isoDay w timestamp) as [day|m]; cbn in H; [|discriminate].
  destruct (cellOrClose quote colOpen i) as [o|m] eqn:O; cbn in H; [|discriminate].
  destruct (cellOrClose quote colHigh i) as [h|m] eqn:Hi; cbn in H; [|discriminate].
  destruct (cellOrClose quote colLow i) as [l|m] eqn:L; cbn in H; [|discriminate].
  destruct (cell quote colClose i) as [closing|m] eqn:C; cbn in H; [|discriminate].
  destruct (cell quote colVolume i) as [v|m]; cbn in H; [|discriminate].
  injection H as <-. cbn [open high low close time].
  destruct (cellOrClose_Normal _ _ _ _ O) as (q & opens & -> & Co).
  destruct (cellOrClose_Normal _ _ _ _ Hi) as (q' & highs & [= <-] & Ch).
  destruct (cellOrClose_Normal _ _ _ _ L) as (q' & lows & [= <-] & Cl).
  unfold cell in C. destruct (colClose q) as [closes|] eqn:Cc; [|discriminate].
  injection C as <-.
  rewrite (cellOrClose_columns q colOpen i opens closes Co Cc) in O.
  rewrite (cellOrClose_columns q colHigh i highs closes Ch Cc) in Hi.
  rewrite (cellOrClose_columns q colLow i lows closes Cl Cc) in L.
  injection O as <-. injection Hi as <-. injection L as <-.
  exists q, opens, highs, lows, closes. repeat split; assumption.
Qed.

(** X25.  Every point [getDetailedChartData] returns stands for a day
    of the response: its close is the provider's close of that day,
    rounded to two decimals, and above zero; its open, high and low are
    the provider's figures of that day, rounded to two decimals, where
    the provider has a figure other than zero, and the close of that
    day where it has none. *)
Theorem getDetailedChartData_prices (w : ChartWorld) (symbol : string)
    (i : nat) (p : ChartPoint) :
  getDetailedChartData w symbol !! i = Some p ->
  exists result quote (day : nat) (timestamp : Z) opens highs lows closes,
    yearChart w (convertToYahooSymbol symbol) = Normal (Some result)
    /\ indicators result = Some (Some quote)
    /\ default [] (timestamps result) !! day = Some timestamp
    /\ isoDay w timestamp = Normal (time p)
    /\ colOpen quote = Some opens /\ colHigh quote = Some highs
    /\ colLow quote = Some lows /\ colClose quote = Some closes
    /\ close p = roundFixed 2 (orElse (closes !! day ≫= id) 0)
    /\ PrimFloat.ltb 0 (close p) = true
    /\ open p
       = roundFixed 2 (orElse (opens !! day ≫= id) (orElse (closes !! day ≫= id) 0))
    /\ high p
       = roundFixed 2 (orElse (highs !! day ≫= id) (orElse (closes !! day ≫= id) 0))
    /\ low p
       = roundFixed 2 (orElse (lows !! day ≫= id) (orElse (closes !! day ≫= id) 0)).
Proof.
  destruct (getDetailedChartData_cases w symbol)
    as [-> | (result & quote & items & Y & Q & M & ->)]; [discriminate|].
  rewrite addTechnicalIndicators_lookup.
  destruct (List.filter plotted items !! i) as [item|] eqn:I; [|discriminate].
  intros [= <-].
  apply list_elem_of_lookup_2, list_elem_of_In, filter_In in I as [I P].
  apply andb_true_iff in P as [P _].
  apply mapM_Normal in M.
  apply list_elem_of_In, list_elem_of_lookup in I as [k I].
  destruct (Forall2_lookup_r _ _ _ _ _ M I) as ([day timestamp] & D & C).
  rewrite list_lookup_imap in D.
  destruct (default [] (timestamps result) !! k) as [t|] eqn:T; [|discriminate].
  injection D as <- <-.
  destruct (chartItem_columns _ _ _ _ _ C)
    as (q & opens & highs & lows & closes & -> & Co & Ch & Cl & Cc & Iso & E).
  exists result, q, k, t, opens, highs, lows, closes.
  cbn [time open high low close withIndicators].
  destruct E as (E1 & E2 & E3 & E4).
  repeat split; assumption.
Qed.

Lemma getDetailedChartData_prices_witness :
  exists p : ChartPoint,
    getDetailedChartData threeDays "AAPL" !! 1%nat = Some p
    /\ time p = "2024-05-03"
    /\ open p = 12.5%float
    /\ PrimFloat.ltb 0 (close p) = true.
Proof.
  eexists. split; [reflexivity|]. split; [reflexivity|]. split; [reflexivity|].
  destruct (getDetailedChartData_prices threeDays "AAPL" 1 _ eq_refl)
    as (result & quote & day & timestamp & opens & highs & lows & closes
        & _ & _ & _ & _ & _ & _ & _ & _ & _ & P & _).
  exact P.
Defined.

(** The chart of three days: the day without a close is left out, and
    the open that is missing is the close of that day. *)
Example getDetailedChartData_threeDays :
  (fun p => (time p, open p, close p, volume p, index p))
    <$> getDetailedChartData threeDays "AAPL"
  = [ ("2024-05-01", 10%float, 11%float, 1000, Some 0%nat);
      ("2024-05-03", 12.5%float, 12.5%float, 0, Some 1%nat) ].
Proof. reflexivity. Qed.

End ChartFacts.

(** ** The routes for news and earnings *)

Module RouteFacts.
Import News JsParse Routes.

Lemma digits_step (c : ascii) (k acc : nat) (rest : string) :
  digitValue c = Some (Z.of_nat k) -> (k < 10)%nat ->
  digits 10 (String c rest) (Some (Z.of_nat acc))
  = digits 10 rest (Some (Z.of_nat (k + 10 * acc))).
Proof.
  intros D L. cbn [digits]. rewrite D.
  destruct (Z.ltb_spec (Z.of_nat k) 10); [|lia].
  do 2 f_equal. change (default 0 (Some (Z.of_nat acc))) with (Z.of_nat acc). lia.
Qed.

Lemma digits_uint (d : Decimal.uint) (acc : nat) :
  digits 10 (DecimalString.NilEmpty.string_of_uint d) (Some (Z.of_nat acc))
  = Some (Z.of_nat (Nat.of_uint_acc d acc)).
Proof.
  revert acc.
  induction d as [|d IH|d IH|d IH|d IH|d IH|d IH|d IH|d IH|d IH|d IH]; intros acc;
    [reflexivity|..];
    cbn [DecimalString.NilEmpty.string_of_uint Nat.of_uint_acc];
    rewrite Nat.tail_mul_spec.
  - rewrite (digits_step "0" 0) by (reflexivity || lia). apply IH.
  - rewrite (digits_step "1" 1) by (reflexivity || lia). apply IH.
  - rewrite (digits_step "2" 2) by (reflexivity || lia). apply IH.
  - rewrite (digits_step "3" 3) by (reflexivity || lia). apply IH.
  - rewrite (digits_step "4" 4) by (reflexivity || lia). apply IH.
  - rewrite (digits_step "5" 5) by (reflexivity || lia). apply IH.
  - rewrite (digits_step "6" 6) by (reflexivity || lia). apply IH.
  - rewrite (digits_step "7" 7) by (reflexivity || lia). apply IH.
  - rewrite (digits_step "8" 8) by (reflexivity || lia). apply IH.
  - rewrite (digits_step "9" 9) by (reflexivity || lia). apply IH.
Qed.

Lemma mul_one_fmap (o : option Z) : Z.mul 1 <$> o = o.
Proof. destruct o as [z|]; [|reflexivity]. cbn [fmap option_fmap option_map]. f_equal. lia. Qed.

Ltac no_white_space :=
  match goal with
  | |- context [isWhiteSpace ?c] => change (isWhiteSpace c) with false
  end;
  cbv beta iota zeta.

(** A numeral that starts with a digit has no white space, no sign and,
    as all its characters are digits, no prefix [0x]. *)
Lemma parseInt_uint (d : Decimal.uint) :
  d <> Decimal.Nil ->
  parseInt (DecimalString.NilEmpty.string_of_uint d)
  = digits 10 (DecimalString.NilEmpty.string_of_uint d) None.
Proof.
  intros N. unfold parseInt.
  destruct d as [|d|d|d|d|d|d|d|d|d|d]; [contradiction|..];
    cbn [DecimalString.NilEmpty.string_of_uint trimStart]; no_white_space;
    try apply mul_one_fmap.
  destruct d as [|d|d|d|d|d|d|d|d|d|d];
    cbn [DecimalString.NilEmpty.string_of_uint]; cbv beta iota zeta;
    apply mul_one_fmap.
Qed.

(** A decimal numeral is read back by [parseInt] as the number it
    writes. *)
Lemma parseInt_decimal (n : nat) : parseInt (decimal n) = Some (Z.of_nat n).
Proof.
  unfold decimal.
  rewrite <- (DecimalNat.Unsigned.of_to n) at 2.
  unfold Nat.of_uint, DecimalString.NilZero.string_of_uint.
  destruct (Nat.to_uint n) as [|d|d|d|d|d|d|d|d|d|d] eqn:E; [reflexivity|..];
    rewrite parseInt_uint by discriminate;
    cbn [DecimalString.NilEmpty.string_of_uint digits digitValue];
    cbn -[digits Nat.of_uint_acc Z.of_nat].
  all: cbn [Nat.of_uint_acc]; rewrite Nat.tail_mul_spec.
  - apply (digits_uint d 0).
  - apply (digits_uint d 1).
  - apply (digits_uint d 2).
  - apply (digits_uint d 3).
  - apply (digits_uint d 4).
  - apply (digits_uint d 5).
  - apply (digits_uint d 6).
  - apply (digits_uint d 7).
  - apply (digits_uint d 8).
  - apply (digits_uint d 9).
Qed.

Lemma take_length_take {A} (k : nat) (l : list A) :
  take (length (take k l)) l = take k l.
Proof.
  rewrite length_take. destruct (Nat.le_gt_cases k (length l)) as [L|L].
  - rewrite Nat.min_l by exact L. reflexivity.
  - rewrite Nat.min_r by lia. rewrite !take_ge by lia. reflexivity.
Qed.

(** [slice(0, finish)] is a prefix, whatever [finish] is. *)
Lemma sliceTo_prefix {A} (finish : option Z) (l : list A) :
  sliceTo finish l = take (length (sliceTo finish l)) l.
Proof.
  unfold sliceTo. destruct finish as [e|]; [|reflexivity].
  destruct (e <? 0); symmetry; apply take_length_take.
Qed.

Lemma sliceTo_nat {A} (n : nat) (l : list A) :
  sliceTo (Some (Z.of_nat n)) l = take n l.
Proof.
  unfold sliceTo. destruct (Z.ltb_spec (Z.of_nat n) 0); [lia|].
  rewrite Nat2Z.id. reflexivity.
Qed.

Lemma getComprehensiveNews_length (w : NewsWorld) (symbol : string) :
  (length (getComprehensiveNews w (Text symbol)) <= 25)%nat.
Proof.
  rewrite NewsFacts.getComprehensiveNews_text, length_fmap, length_take. lia.
Qed.

(** X26.  [GET /api/news/:symbol] always answers 200.  The articles of
    the answer are the first [returnedArticles] of the at most 25
    articles of [getComprehensiveNews], whose number is
    [totalArticles].  Without a limit the first 20 are returned; with a
    limit that is the decimal numeral of [n], the first [n]; and with a
    limit that [parseInt] cannot read, none. *)
Theorem newsRoute_limit (w : NewsWorld) (symbol : string) (limit : option string) :
  let news := getComprehensiveNews w (Text symbol) in
  exists answer : NewsAnswer,
    newsRoute w symbol limit = {| status := 200; body := NewsFound answer |}
    /\ Routes.symbol answer = toUpperCase symbol
    /\ totalArticles answer = length news
    /\ (totalArticles answer <= 25)%nat
    /\ returnedArticles answer = length (articles answer)
    /\ (returnedArticles answer <= totalArticles answer)%nat
    /\ articles answer = take (returnedArticles answer) news
    /\ (limit = None -> articles answer = take 20 news)
    /\ (forall n : nat, limit = Some (decimal n) -> articles answer = take n news)
    /\ (forall text : string,
          limit = Some text -> parseInt text = None -> articles answer = []).
Proof.
  intros news. eexists. split; [reflexivity|].
  cbn [Routes.symbol totalArticles returnedArticles articles].
  fold news.
  split; [reflexivity|]. split; [reflexivity|].
  split; [apply getComprehensiveNews_length|].
  split; [reflexivity|]. split.
  { rewrite (sliceTo_prefix (parseLimit limit) news) at 1.
    rewrite length_take. lia. }
  split; [apply sliceTo_prefix|]. split; [|split].
  - intros ->. apply (sliceTo_nat 20).
  - intros n ->. unfold parseLimit. rewrite parseInt_decimal. apply sliceTo_nat.
  - intros text -> P. unfold parseLimit. rewrite P. reflexivity.
Qed.

(** The limits [5], [0x10], [abc] and [-1] on a list of three. *)
Example sliceTo_parseInt :
  sliceTo (parseInt " 2 articles") [1; 2; 3] = [1; 2]
  /\ sliceTo (parseInt "0x10") [1; 2; 3] = [1; 2; 3]
  /\ sliceTo (parseInt "abc") [1; 2; 3] = []
  /\ sliceTo (parseInt "-1") [1; 2; 3] = [1; 2].
Proof. repeat split. Qed.

End RouteFacts.

(** ** The axios handler *)

Module AxiosFacts.
Import Market Serverless AxiosHandler.






End AxiosFacts.

(** ** The chart of the front end *)

Module FrontEndFacts.
Import FrontEnd.

Lemma sliceLast_length {A} (n : nat) (l : list A) :
  length (sliceLast n l) = Nat.min n (length l).
Proof. unfold sliceLast. rewrite length_drop. lia. Qed.

Lemma sliceLast_nested {A} (n m : nat) (l : list A) :
  (n <= m)%nat -> sliceLast n l `suffix_of` sliceLast m l.
Proof.
  intros L. unfold sliceLast.
  exists (take (length l - n - (length l - m)) (drop (length l - m) l)).
  rewrite <- (take_drop (length l - n - (length l - m)) (drop (length l - m) l)) at 1.
  f_equal. rewrite drop_drop. f_equal. lia.
Qed.

(** X28.  The chart of the front end shows the last points of the
    analysis: for a range of [n] days the last [n] points, or all of
    them when there are no more than [n].  The ranges are nested: the
    points of a shorter range are the last points of every longer one.
    Before an analysis is loaded the chart is empty. *)
Theorem filteredChartData_nested {A} (points : list A) (r r' : TimeRange) :
  filteredChartData (Some points) r `suffix_of` points
  /\ length (filteredChartData (Some points) r) = Nat.min (ranges r) (length points)
  /\ ((length points <= ranges r)%nat -> filteredChartData (Some points) r = points)
  /\ ((ranges r <= ranges r')%nat ->
      filteredChartData (Some points) r `suffix_of` filteredChartData (Some points) r')
  /\ filteredChartData (@None (list A)) r = [].
Proof.
  cbn [filteredChartData]. split; [|split; [|split; [|split]]].
  - apply suffix_drop.
  - apply sliceLast_length.
  - intros L. unfold sliceLast. replace (length points - ranges r)%nat with 0%nat by lia.
    reflexivity.
  - apply sliceLast_nested.
  - reflexivity.
Qed.

End FrontEndFacts.

(** ** Growth *)

Module GrowthFacts.
Import Serverless Growth.

Lemma nan_growth (p : float) :
  ((PrimFloat.nan - p) / PrimFloat.abs p * 100)%float = PrimFloat.nan.
Proof.
  apply FloatAxioms.Prim2SF_inj.
  rewrite FloatAxioms.mul_spec, FloatAxioms.div_spec, FloatAxioms.sub_spec.
  reflexivity.
Qed.

(** The difference of a finite number and itself is zero, and zero
    over a finite number other than zero, times 100, is zero. *)
Lemma equal_growth (p : float) (s : bool) (m : positive) (e : Z) :
  Prim2SF p = S754_finite s m e ->
  ((p - p) / PrimFloat.abs p * 100)%float = 0%float.
Proof.
  intros P. apply FloatAxioms.Prim2SF_inj.
  rewrite FloatAxioms.mul_spec, FloatAxioms.div_spec, FloatAxioms.sub_spec,
    FloatAxioms.abs_spec, P.
  unfold FloatAxioms.SF64div, FloatAxioms.SF64mul, FloatAxioms.SF64sub, SFsub.
  rewrite Z.min_id. unfold shl_align. rewrite Z.sub_diag.
  reflexivity.
Qed.

(** X29.  [calculateGrowth] never divides by zero: without a previous
    figure, or with one that is zero or not a number, the growth is 0.
    So the growth over the previous quarter is 0 when the provider sends
    a single row.  Equal finite figures give growth 0, and a current
    figure that is missing gives [NaN] when there is a previous one. *)
Theorem calculateGrowth_guarded (current previous : option float) :
  (previous = None -> calculateGrowth current previous = 0%float)
  /\ (forall p, previous = Some p -> truthy p = false ->
      calculateGrowth current previous = 0%float)
  /\ (forall p, previous = Some p -> truthy p = true -> current = None ->
      PrimFloat.is_nan (calculateGrowth current previous) = true)
  /\ (forall p s m e, previous = Some p -> current = Some p ->
      Prim2SF p = S754_finite s m e ->
      calculateGrowth current previous = 0%float)
  /\ (forall figure : option float, growthOverPrevious [figure] = 0%float).
Proof.
  split; [|split; [|split; [|split]]].
  - intros ->. reflexivity.
  - intros p -> T. unfold calculateGrowth. rewrite T. reflexivity.
  - intros p -> T ->. unfold calculateGrowth. rewrite T. cbn [negb orb].
    destruct (PrimFloat.eqb p 0) eqn:E; [|cbn [toNumber default from_option id]].
    + unfold truthy in T. rewrite E in T. discriminate.
    + rewrite nan_growth. reflexivity.
  - intros p s m e -> -> P. unfold calculateGrowth.
    destruct (negb (truthy p) || PrimFloat.eqb p 0); [reflexivity|].
    cbn [toNumber default from_option id]. apply (equal_growth p s m e P).
  - intros figure. reflexivity.
Qed.

End GrowthFacts.

(** ** The order of the articles in the sentiment summary *)

Module SentimentOrder.
Import News Sentiment.

Lemma filter_length_Permutation {A} (f : A -> bool) (l l' : list A) :
  l ≡ₚ l' -> length (List.filter f l) = length (List.filter f l').
Proof.
  induction 1 as [|x l l' _ IH|x y l|l l' l'' _ IH _ IH']; cbn [List.filter].
  - reflexivity.
  - destruct (f x); cbn [length]; rewrite IH; reflexivity.
  - destruct (f x), (f y); reflexivity.
  - rewrite IH. exact IH'.
Qed.

(** X30.  The sentiment summary counts labels: the distribution, the
    score and the overall label of [calculateSentimentScore] are the
    same for two lists that hold the same articles in a different
    order. *)
Theorem calculateSentimentScore_order (articles articles' : list NewsItem) :
  articles ≡ₚ articles' ->
  distribution (calculateSentimentScore articles)
  = distribution (calculateSentimentScore articles')
  /\ score (calculateSentimentScore articles) = score (calculateSentimentScore articles')
  /\ overall (calculateSentimentScore articles)
     = overall (calculateSentimentScore articles').
Proof.
  intros P. unfold calculateSentimentScore. cbn [distribution score overall].
  rewrite !SentimentFacts.tally_fold. unfold labelled, neitherLabel.
  rewrite (Permutation_length P),
    (filter_length_Permutation _ _ _ P),
    (filter_length_Permutation (fun a => String.eqb (itemSentiment a) "negative") _ _ P),
    (filter_length_Permutation
       (fun a => negb (String.eqb (itemSentiment a) "positive"
                       || String.eqb (itemSentiment a) "negative")) _ _ P).
  repeat split.
Qed.

Lemma calculateSentimentScore_order_witness :
  score (calculateSentimentScore [labelledItem "positive"; labelledItem "neutral"])
  = score (calculateSentimentScore [labelledItem "neutral"; labelledItem "positive"]).
Proof.
  apply (calculateSentimentScore_order
           [labelledItem "positive"; labelledItem "neutral"]
           [labelledItem "neutral"; labelledItem "positive"]).
  apply Permutation_swap.
Defined.

End SentimentOrder.
